(** * Transaction-server connection layer (tran_server / active_tran_server)

    A shallow embedding of the connection layer of the transaction server:
    host-string parsing and handler registration, the per-connection state
    machine with asynchronous disconnection, main-connection rotation, the
    request paths, and the quorum computation of the active transaction
    server; then the connections made at boot, the page-server connector, the
    shutdown of the connections, the wait for the page servers to flush
    (log_global), and the handler of asynchronous disconnections.

    Conventions of the embedding.
    - [int] and [size_t] values are integers in [Z] with the wrap-around
      written out ([int_wrap], [size_t_wrap]).
    - Stateful code is a function from a state to an [outcome]: either it
      runs to completion ([Ok]) or it does not ([Fault]): a failed [assert], a
      dereferenced null pointer, an index or a pointer out of range, or a
      thread that blocks for ever on a lock that is never released.
    - [assert] is compiled out when [NDEBUG] is defined; the flag is an
      explicit argument [ndebug] of every function that asserts.
    - Calls into the error manager ([er_set], [er_clear], [er_log_debug])
      only touch the error manager, which is outside the modelled state; what
      is modelled of them is the evaluation of their arguments where it can
      fail: the channel id read in the error callbacks of a handler, and the
      message built by [compute_consensus_lsa] when the parameter it reads
      asks for it. The macros [catchup_er_log] and [quorum_consenesus_er_log],
      defined outside of these sources, are taken to log nothing.
    - Locks are not modelled: a block that runs under one lock is one atomic
      step; concurrency between such steps is an explicit interleaving (see
      [run_parts] for the calls on one handler, and [interfere] for the
      request paths of the server). *)

From stdpp Require Import base numbers list sorting strings.
From Stdlib Require Import ZArith Lia Ascii String DecimalString.

Local Open Scope Z_scope.

(** ** Machine integers *)

Definition INT_MAX : Z := 2147483647.
Definition INT_MIN : Z := -2147483648.
Definition USHRT_MAX : Z := 65535.
Definition SIZE_MAX : Z := 18446744073709551615.

(** Conversion of a value to [int] (two's complement, 32 bits). *)
Definition int_wrap (z : Z) : Z := (z + 2147483648) mod 4294967296 - 2147483648.

(** Arithmetic on [size_t] (64 bits, unsigned). *)
Definition size_t_wrap (z : Z) : Z := z mod 18446744073709551616.

(** [std::string::npos]. *)
Definition npos : Z := SIZE_MAX.

(** ** Outcomes of stateful code *)

Inductive fault : Set :=
| assertion_failure
| null_dereference
| out_of_range
| deadlock.

Inductive outcome (S A : Type) : Type :=
| Ok (a : A) (s : S)
| Fault (f : fault) (s : S).
Arguments Ok {S A} a s.
Arguments Fault {S A} f s.

Definition M (S A : Type) : Type := S -> outcome S A.

Definition ret {S A} (a : A) : M S A := fun s => Ok a s.

Definition bind {S A B} (m : M S A) (k : A -> M S B) : M S B :=
  fun s => match m s with
           | Ok a s' => k a s'
           | Fault f s' => Fault f s'
           end.

Definition get {S} : M S S := fun s => Ok s s.
Definition gets {S A} (f : S -> A) : M S A := fun s => Ok (f s) s.
Definition modify {S} (f : S -> S) : M S unit := fun s => Ok tt (f s).
Definition raise {S A} (f : fault) : M S A := fun s => Fault f s.

Notation "'do' x <- m ; k" := (bind m (fun x => k))
  (at level 10, x name, m at level 100, k at level 200).
Notation "'do' ' p <- m ; k" := (bind m (fun x => match x with p => k end))
  (at level 10, p pattern, m at level 100, k at level 200).

(** [assert (cond)]: nothing when [NDEBUG] is defined. *)
Definition assert {S} (ndebug : bool) (cond : bool) : M S unit :=
  if ndebug || cond then ret tt else raise assertion_failure.

(** The state an outcome ends in, and whether it ran to completion. *)
Definition final {S A} (o : outcome S A) : S :=
  match o with Ok _ s => s | Fault _ s => s end.

Definition completed {S A} (o : outcome S A) : bool :=
  match o with Ok _ _ => true | Fault _ _ => false end.

(** Run a computation on a component of a larger state. *)
Definition zoom {S T A} (proj : T -> S) (inj : S -> T -> T) (m : M S A) : M T A :=
  fun t => match m (proj t) with
           | Ok a s => Ok a (inj s t)
           | Fault f s => Fault f (inj s t)
           end.

(** ** Error codes *)

(** Modelled from the spec: the [ER_*] macros are defined in error_code.h,
    which is not part of the sources; these are the codes of the error
    taxonomy of the specification (section 7), and only their being distinct
    matters. *)

Inductive error_code : Set :=
| NO_ERROR
| ER_HOST_PORT_PARAMETER
| ER_EMPTY_PAGE_SERVER_HOSTS_CONFIG
| ER_NET_PAGESERVER_CONNECTION
| ER_NO_PAGE_SERVER_CONNECTION
| ER_CONN_NO_PAGE_SERVER_AVAILABLE
| ER_CONN_PAGE_SERVER_CANNOT_BE_REACHED.

Global Instance error_code_eq_dec : EqDecision error_code.
Proof. solve_decision. Defined.

(** Modelled from the spec: [css_error_code] is declared with the channel
    layer, which is not part of the sources. The code only tells [NO_ERRORS]
    and [CONNECTION_CLOSED] from the other values; two of those stand for
    them here. *)
Inductive css_error_code : Set :=
| NO_ERRORS
| CONNECTION_CLOSED
| ERROR_ON_READ
| ERROR_ON_WRITE.

Global Instance css_error_code_eq_dec : EqDecision css_error_code.
Proof. solve_decision. Defined.

(** ** Log sequence addresses *)

(** Modelled from the spec: [log_lsa] is declared in log_lsa.hpp, which is not
    part of the sources; an LSA is an ordered identifier, printed by
    [LSA_AS_ARGS] as a page id and an offset, compared page id first. *)
Record log_lsa : Set := LSA { pageid : Z; offset : Z }.

Global Instance log_lsa_eq_dec : EqDecision log_lsa.
Proof. solve_decision. Defined.

Definition NULL_LSA : log_lsa := LSA (-1) (-1).

Definition lsa_is_null (a : log_lsa) : bool := pageid a =? -1.

(** [operator<] *)
Definition lsa_ltb (a b : log_lsa) : bool :=
  (pageid a <? pageid b) || ((pageid a =? pageid b) && (offset a <? offset b)).

(** [operator>] *)
Definition lsa_gtb (a b : log_lsa) : bool := lsa_ltb b a.

(** [operator>=] *)
Definition lsa_geb (a b : log_lsa) : bool := negb (lsa_ltb a b).

(** [operator<=] *)
Definition lsa_leb (a b : log_lsa) : bool := negb (lsa_gtb a b).

Definition lsa_le (a b : log_lsa) : Prop := lsa_leb a b = true.

Global Instance lsa_le_dec : RelDecision lsa_le.
Proof. intros a b. unfold lsa_le. apply _. Defined.

(** [std::sort] over [log_lsa] with [operator<]. *)
Definition std_sort (l : list log_lsa) : list log_lsa := merge_sort lsa_le l.

(** ** Nodes, connection states, connection handlers *)

(** Modelled from the spec: [cubcomm::node] is declared outside the sources;
    it is the immutable pair of a host and a port (specification, section 3),
    built as [{port, host}] and read with [get_host] and [get_port]. *)
Record node : Set := Node { get_port : Z; get_host : string }.

Global Instance node_eq_dec : EqDecision node.
Proof. solve_decision. Defined.

(** [tran_server::connection_handler::state] *)
Inductive state : Set := IDLE | CONNECTING | CONNECTED | DISCONNECTING.

Global Instance state_eq_dec : EqDecision state.
Proof. solve_decision. Defined.

(** Modelled from the spec: [tran_to_page_request] is declared outside the
    sources; these are the request codes the connection layer uses
    (specification, section 6.2). *)
Inductive tran_to_page_request : Set :=
| GET_BOOT_INFO
| GET_OLDEST_ACTIVE_MVCCID
| SEND_DISCONNECT_MSG
| SEND_START_CATCH_UP
| SEND_LOG_PRIOR_LIST
| RESPOND.

(** Payloads. The packed bytes are kept as the values that were packed. *)
Inductive payload : Set :=
| payload_bytes (s : string)
| payload_int (i : Z)
| payload_catch_up (host : string) (port : Z) (catchup_lsa : log_lsa).

Record request : Set := Request { req_id : tran_to_page_request; req_payload : payload }.

(** Modelled from the spec: [page_server_conn_t] is declared outside the
    sources; it is the request/response multiplexer over a channel, which is
    started once built and whose incoming thread can be stopped
    (specification, section 6.3). *)
Record page_server_conn : Set := Conn {
  conn_started : bool;
  conn_incoming_running : bool
}.

(** [std::future<void>] of the teardown job. [future_pending b] is a job that
    has not run yet, spawned by [disconnect_async (b)]; [future_ready] is a
    job that ran and was not joined. *)
Inductive future : Set :=
| future_invalid
| future_pending (with_disc_msg : bool)
| future_ready.

(** A connection handler. The fields named [g_*] are ghost state that records
    what the handler did: the values assigned to [m_state], the number of
    teardown jobs spawned by [std::async], the requests handed to [m_conn]
    (most recent first). *)
Record connection_handler : Set := Handler {
  m_node : node;
  m_state : state;
  m_conn : option page_server_conn;
  m_disconn_future : future;
  m_saved_lsa : log_lsa;
  m_prior_sender_sink_hook_func : bool;
  g_state_writes : list state;
  g_spawned : nat;
  g_pushed : list request
}.

Definition set_m_state (s : state) (h : connection_handler) : connection_handler :=
  Handler (m_node h) s (m_conn h) (m_disconn_future h) (m_saved_lsa h)
          (m_prior_sender_sink_hook_func h) (s :: g_state_writes h) (g_spawned h) (g_pushed h).

Definition set_m_conn (c : option page_server_conn) (h : connection_handler) : connection_handler :=
  Handler (m_node h) (m_state h) c (m_disconn_future h) (m_saved_lsa h)
          (m_prior_sender_sink_hook_func h) (g_state_writes h) (g_spawned h) (g_pushed h).

Definition set_m_disconn_future (f : future) (h : connection_handler) : connection_handler :=
  Handler (m_node h) (m_state h) (m_conn h) f (m_saved_lsa h)
          (m_prior_sender_sink_hook_func h) (g_state_writes h) (g_spawned h) (g_pushed h).

(** [m_disconn_future = std::async (...)] on a handler with no job pending:
    the job is started and the future holds it. *)
Definition spawn_future (b : bool) (h : connection_handler) : connection_handler :=
  Handler (m_node h) (m_state h) (m_conn h) (future_pending b) (m_saved_lsa h)
          (m_prior_sender_sink_hook_func h) (g_state_writes h) (S (g_spawned h)) (g_pushed h).

(** [std::async (...)] has started a job that the future does not hold yet. *)
Definition record_spawn (h : connection_handler) : connection_handler :=
  Handler (m_node h) (m_state h) (m_conn h) (m_disconn_future h) (m_saved_lsa h)
          (m_prior_sender_sink_hook_func h) (g_state_writes h) (S (g_spawned h)) (g_pushed h).

Definition set_m_saved_lsa (l : log_lsa) (h : connection_handler) : connection_handler :=
  Handler (m_node h) (m_state h) (m_conn h) (m_disconn_future h) l
          (m_prior_sender_sink_hook_func h) (g_state_writes h) (g_spawned h) (g_pushed h).

Definition set_m_prior_sender_sink_hook_func (b : bool) (h : connection_handler)
  : connection_handler :=
  Handler (m_node h) (m_state h) (m_conn h) (m_disconn_future h) (m_saved_lsa h)
          b (g_state_writes h) (g_spawned h) (g_pushed h).

Definition record_push (r : request) (h : connection_handler) : connection_handler :=
  Handler (m_node h) (m_state h) (m_conn h) (m_disconn_future h) (m_saved_lsa h)
          (m_prior_sender_sink_hook_func h) (g_state_writes h) (g_spawned h) (r :: g_pushed h).

(** Modelled from the spec: the constructor of
    [tran_server::connection_handler] is in tran_server.hpp, which is not part
    of the sources; a handler is bound to its node and starts in [IDLE], with
    no connection and no teardown job (specification, section 3). The fields
    [m_saved_lsa] and [m_prior_sender_sink_hook_func] only exist in the
    handlers of an active transaction server. *)
Definition base_connection_handler (n : node) : connection_handler :=
  Handler n IDLE None future_invalid NULL_LSA false [] 0%nat [].

(** The constructor of [active_tran_server::connection_handler]: the base
    handler with [m_saved_lsa { NULL_LSA }]. *)
Definition new_connection_handler (n : node) : connection_handler :=
  set_m_saved_lsa NULL_LSA (base_connection_handler n).

Definition is_connected (h : connection_handler) : bool :=
  bool_decide (m_state h = CONNECTED).

Definition is_idle (h : connection_handler) : bool :=
  bool_decide (m_state h = IDLE).

Definition get_saved_lsa (h : connection_handler) : log_lsa := m_saved_lsa h.

(** ** What a handler reads from its transaction server ([m_ts]) *)

(** Which subclass of [tran_server] the handler belongs to: it selects the
    overriders of the virtual functions [transition_to_connected] and
    [on_disconnecting]. *)
Inductive server_kind : Set := ACTIVE | PASSIVE.

(** [tv_main_connection] is the node of [*m_main_conn], or [None] when
    [m_main_conn == nullptr]. *)
Record ts_view : Set := TsView {
  tv_kind : server_kind;
  tv_server_name : string;
  tv_conn_type : Z;
  tv_main_connection : option node
}.

(** [tran_server::get_main_connection_info (host_out, port_out)] *)
Definition get_main_connection_info (tv : ts_view) : bool * string * Z :=
  match tv_main_connection tv with
  | None => (false, "N/A"%string, -1)
  | Some n => (true, get_host n, get_port n)
  end.

(** What the peer does during the handshake of one [connect ()]: the results
    of [srv_chn.connect], [srv_chn.send_int] and [srv_chn.recv_int] (with the
    integer received). *)
Record server_channel : Set := Channel {
  chn_connect : css_error_code;
  chn_send_int : css_error_code;
  chn_recv_int : css_error_code * Z
}.

(** ** tran_server::connection_handler, helpers *)

(** [m_conn->push (reqid, payload)] *)
Definition conn_push (r : request) : M connection_handler unit :=
  do c <- gets m_conn;
  match c with
  | None => raise null_dereference
  | Some _ => modify (record_push r)
  end.

(** [m_conn->send_recv (reqid, payload_in, payload_out)]: the request is
    handed to the connection, and [reply] is what comes back, an error code
    and the response. *)
Definition conn_send_recv (r : request) (reply : css_error_code * string)
  : M connection_handler css_error_code :=
  do c <- gets m_conn;
  match c with
  | None => raise null_dereference
  | Some _ =>
      do _ <- modify (record_push r);
      ret reply.1
  end.

(** [m_conn->stop_incoming_communication_thread ()] *)
Definition conn_stop_incoming_communication_thread : M connection_handler unit :=
  do c <- gets m_conn;
  match c with
  | None => raise null_dereference
  | Some c => modify (set_m_conn (Some (Conn (conn_started c) false)))
  end.

(** [get_channel_id ()], which is [m_conn->get_underlying_channel_id ()] *)
Definition get_channel_id : M connection_handler unit :=
  do c <- gets m_conn;
  match c with
  | None => raise null_dereference
  | Some _ => ret tt
  end.

Definition set_connection (ndebug : bool) : M connection_handler unit :=
  do c <- gets m_conn;
  do _ <- assert ndebug (bool_decide (c = None));
  do _ <- modify (set_m_conn (Some (Conn false false)));
  (* m_conn->start () *)
  modify (set_m_conn (Some (Conn true true))).

Definition push_request (reqid : tran_to_page_request) (p : payload)
  : M connection_handler error_code :=
  do st <- gets m_state;
  if negb (bool_decide (st = CONNECTED)) then ret ER_CONN_PAGE_SERVER_CANNOT_BE_REACHED
  else
    do _ <- conn_push (Request reqid p);
    ret NO_ERROR.

Definition push_request_regardless_of_state (reqid : tran_to_page_request) (p : payload)
  : M connection_handler unit :=
  conn_push (Request reqid p).

(** [reply] is what [m_conn->send_recv] comes back with: its error code and
    the response. The result carries the new content of [payload_out] when
    the round trip succeeded. *)
Definition send_receive (reqid : tran_to_page_request) (p : payload)
    (reply : css_error_code * string)
  : M connection_handler (error_code * option string) :=
  do st <- gets m_state;
  if negb (bool_decide (st = CONNECTED))
  then ret (ER_CONN_PAGE_SERVER_CANNOT_BE_REACHED, None)
  else
    do error_code <- conn_send_recv (Request reqid p) reply;
    if negb (bool_decide (error_code = NO_ERRORS))
    then ret (ER_CONN_PAGE_SERVER_CANNOT_BE_REACHED, None)
    else ret (NO_ERROR, Some reply.2).

(** ** active_tran_server::connection_handler *)

(** [log_global], the part used by the connection layer. [g_notified] counts
    the calls of [m_ps_lsa_cv.notify_all ()]. *)
Record log_global : Set := LogGlobal {
  m_ps_lsa_up_to_date : bool;
  m_ps_consensus_flushed_lsa : log_lsa;
  g_notified : nat
}.

(** The constructor of [log_global]. *)
Definition new_log_global : log_global := LogGlobal false NULL_LSA 0%nat.

(** [log_global::wakeup_ps_flush_waiters] *)
Definition wakeup_ps_flush_waiters : M log_global unit :=
  modify (fun g => LogGlobal false (m_ps_consensus_flushed_lsa g) (S (g_notified g))).

Module ATS.

Definition send_start_catch_up_request (host : string) (port : Z) (catchup_lsa : log_lsa)
  : M connection_handler unit :=
  push_request_regardless_of_state SEND_START_CATCH_UP (payload_catch_up host port catchup_lsa).

(** [unsent_lsa] is what [log_Gl.get_log_prior_sender ().add_sink] returns. *)
Definition transition_to_connected (ndebug : bool) (tv : ts_view) (unsent_lsa : log_lsa)
  : M connection_handler unit :=
  do hook <- gets m_prior_sender_sink_hook_func;
  do _ <- assert ndebug (negb hook);
  do _ <- modify (set_m_prior_sender_sink_hook_func true);
  do '(hostname, port) <-
    (if negb (lsa_is_null unsent_lsa)
     then
       let '(res, hostname, port) := get_main_connection_info tv in
       do _ <- assert ndebug res;
       ret (hostname, port)
     else ret ("N/A"%string, -1));
  send_start_catch_up_request hostname port unsent_lsa.

Definition on_disconnecting : M connection_handler unit :=
  do hook <- gets m_prior_sender_sink_hook_func;
  if hook then modify (set_m_prior_sender_sink_hook_func false) else ret tt.

Definition prior_sender_sink_hook (ndebug : bool) (message : string)
  : M connection_handler unit :=
  do _ <- assert ndebug (bool_decide (0 < Z.of_nat (String.length message)));
  push_request_regardless_of_state SEND_LOG_PRIOR_LIST (payload_bytes message).

(** [saved_lsa] is the LSA copied out of the message. *)
Definition receive_saved_lsa (ndebug : bool) (saved_lsa : log_lsa)
  : M (connection_handler * log_global) unit :=
  do cur <- gets (fun s => get_saved_lsa s.1);
  do _ <- assert ndebug (lsa_geb saved_lsa cur);
  do cur <- gets (fun s => get_saved_lsa s.1);
  if lsa_gtb saved_lsa cur
  then
    do _ <- modify (fun s => (set_m_saved_lsa saved_lsa s.1, s.2));
    zoom snd (fun g s => (s.1, g)) wakeup_ps_flush_waiters
  else ret tt.

Definition receive_catchup_complete (ndebug : bool) : M connection_handler unit :=
  do st <- gets m_state;
  do _ <- assert ndebug (bool_decide (st = CONNECTING));
  modify (set_m_state CONNECTED).

End ATS.

Module PTS.

(** Modelled from the spec: the overrider of the passive transaction server
    is not part of the sources; "base class flips [state := CONNECTED]
    immediately". *)
Definition transition_to_connected : M connection_handler unit :=
  modify (set_m_state CONNECTED).

(** Modelled from the spec: the overrider of the passive transaction server
    is not part of the sources; only the active one has work to do before
    disconnecting. *)
Definition on_disconnecting : M connection_handler unit := ret tt.

End PTS.

(** ** tran_server::connection_handler *)

(** The virtual call [transition_to_connected ()]. *)
Definition transition_to_connected (ndebug : bool) (tv : ts_view) (unsent_lsa : log_lsa)
  : M connection_handler unit :=
  match tv_kind tv with
  | ACTIVE => ATS.transition_to_connected ndebug tv unsent_lsa
  | PASSIVE => PTS.transition_to_connected
  end.

(** The virtual call [on_disconnecting ()]. *)
Definition on_disconnecting (tv : ts_view) : M connection_handler unit :=
  match tv_kind tv with
  | ACTIVE => ATS.on_disconnecting
  | PASSIVE => PTS.on_disconnecting
  end.

Definition ps_conn_error_lambda : M connection_handler error_code :=
  do _ <- modify (set_m_state IDLE);
  ret ER_NET_PAGESERVER_CONNECTION.

(** [connect ()] as one thread runs it when no other thread acts on the
    handler in the meantime. [m_state_mtx] is held up to [set_connection ()]
    and released before [transition_to_connected ()]: what other threads can
    do in between is in [connect_locked], [transition_begin] and
    [transition_end] below, of which [connect] is the composition. *)
Definition connect (ndebug : bool) (tv : ts_view) (srv_chn : server_channel)
    (unsent_lsa : log_lsa) : M connection_handler error_code :=
  do st <- gets m_state;
  do _ <- assert ndebug (bool_decide (st = IDLE));
  do _ <- modify (set_m_state CONNECTING);
  if negb (bool_decide (chn_connect srv_chn = NO_ERRORS)) then ps_conn_error_lambda
  else if negb (bool_decide (chn_send_int srv_chn = NO_ERRORS)) then ps_conn_error_lambda
  else if negb (bool_decide ((chn_recv_int srv_chn).1 = NO_ERRORS)) then ps_conn_error_lambda
  else if negb (bool_decide ((chn_recv_int srv_chn).2 = int_wrap (tv_conn_type tv)))
  then ps_conn_error_lambda
  else
    do _ <- set_connection ndebug;
    do _ <- transition_to_connected ndebug tv unsent_lsa;
    ret NO_ERROR.

(** The job given to [std::async] by [disconnect_async], run from its
    first to its last statement; its locks are taken from [get_channel_id ()]
    on (see [teardown_locked] below). *)
Definition teardown (ndebug : bool) (tv : ts_view) (with_disc_msg : bool)
  : M connection_handler unit :=
  do _ <- on_disconnecting tv;
  do _ <- conn_stop_incoming_communication_thread;
  do _ <- get_channel_id;
  do st <- gets m_state;
  do _ <- assert ndebug (bool_decide (st = DISCONNECTING));
  do _ <- (if with_disc_msg
           then conn_push (Request SEND_DISCONNECT_MSG (payload_int (int_wrap (tv_conn_type tv))))
           else ret tt);
  do _ <- modify (set_m_conn None);
  modify (set_m_state IDLE).

(** The whole body runs under [m_state_mtx]. Assigning to [m_disconn_future]
    releases the job the future held: when that job has not run yet, the
    assignment waits for it, and the job waits for [m_state_mtx]; neither
    ever goes on (nor does the job just started, which needs the same
    lock). *)
Definition disconnect_async (ndebug : bool) (with_disc_msg : bool)
  : M connection_handler unit :=
  do st <- gets m_state;
  if bool_decide (st = IDLE) || bool_decide (st = DISCONNECTING) then ret tt
  else
    do _ <- assert ndebug (bool_decide (st = CONNECTING) || bool_decide (st = CONNECTED));
    do _ <- modify (set_m_state DISCONNECTING);
    do f <- gets m_disconn_future;
    match f with
    | future_pending _ =>
        do _ <- modify record_spawn;
        raise deadlock
    | _ => modify (spawn_future with_disc_msg)
    end.

(** The teardown job gets to run on its own thread. *)
Definition run_teardown (ndebug : bool) (tv : ts_view) : M connection_handler unit :=
  do f <- gets m_disconn_future;
  match f with
  | future_pending with_disc_msg =>
      do _ <- teardown ndebug tv with_disc_msg;
      modify (set_m_disconn_future future_ready)
  | _ => ret tt
  end.

(** [m_disconn_future.get ()] blocks until the job has run, and leaves the
    future invalid. *)
Definition wait_async_disconnection (ndebug : bool) (tv : ts_view)
  : M connection_handler unit :=
  do f <- gets m_disconn_future;
  do _ <- match f with
          | future_invalid => ret tt
          | future_pending with_disc_msg =>
              do _ <- teardown ndebug tv with_disc_msg;
              modify (set_m_disconn_future future_invalid)
          | future_ready => modify (set_m_disconn_future future_invalid)
          end;
  do st <- gets m_state;
  assert ndebug (bool_decide (st = IDLE)).

Definition receive_disconnect_request (ndebug : bool) : M connection_handler unit :=
  disconnect_async ndebug true.

(** The result is [abort_further_processing]. Both branches read the channel
    id for the log. *)
Definition send_error_handler (ndebug : bool) (error_code : css_error_code)
  : M connection_handler bool :=
  if bool_decide (error_code = CONNECTION_CLOSED)
  then
    do _ <- get_channel_id;
    do _ <- disconnect_async ndebug false;
    ret true
  else
    do _ <- get_channel_id;
    ret false.

(** The channel id is read for the log after [disconnect_async]. *)
Definition recv_error_handler (ndebug : bool) (error_code : css_error_code)
  : M connection_handler unit :=
  do _ <- disconnect_async ndebug false;
  get_channel_id.

(** ** Calls on one handler *)

(** What can happen to a handler: the calls of its interface, the inbound
    messages it handles, the error callbacks of its connection, and the
    teardown job getting to run. *)
Inductive call : Set :=
| call_connect (srv_chn : server_channel) (unsent_lsa : log_lsa)
| call_disconnect_async (with_disc_msg : bool)
| call_wait_async_disconnection
| call_run_teardown
| call_receive_catchup_complete
| call_receive_disconnect_request
| call_send_error_handler (error_code : css_error_code)
| call_recv_error_handler (error_code : css_error_code)
| call_push_request (reqid : tran_to_page_request) (p : payload)
| call_send_receive (reqid : tran_to_page_request) (p : payload) (reply : css_error_code * string)
| call_prior_sender_sink_hook (message : string).

Definition ignore {S A} (m : M S A) : M S unit := do _ <- m; ret tt.

Definition step (ndebug : bool) (tv : ts_view) (c : call) : M connection_handler unit :=
  match c with
  | call_connect srv_chn unsent_lsa => ignore (connect ndebug tv srv_chn unsent_lsa)
  | call_disconnect_async b => disconnect_async ndebug b
  | call_wait_async_disconnection => wait_async_disconnection ndebug tv
  | call_run_teardown => run_teardown ndebug tv
  | call_receive_catchup_complete => ATS.receive_catchup_complete ndebug
  | call_receive_disconnect_request => receive_disconnect_request ndebug
  | call_send_error_handler e => ignore (send_error_handler ndebug e)
  | call_recv_error_handler e => recv_error_handler ndebug e
  | call_push_request reqid p => ignore (push_request reqid p)
  | call_send_receive reqid p reply => ignore (send_receive reqid p reply)
  | call_prior_sender_sink_hook message => ATS.prior_sender_sink_hook ndebug message
  end.

(** A sequence of calls, one after the other; it stops at the first fault. *)
Fixpoint steps (ndebug : bool) (tv : ts_view) (cs : list call) : M connection_handler unit :=
  match cs with
  | [] => ret tt
  | c :: cs' => do _ <- step ndebug tv c; steps ndebug tv cs'
  end.

(** ** The parts of the calls that other threads can come between

    [connect ()] releases [m_state_mtx] before it calls
    [transition_to_connected ()], which registers the handler with the prior
    sender and then sends the catch-up request; the teardown job runs
    [on_disconnecting ()] and stops the incoming thread before it takes the
    locks; the error callbacks read the channel id outside of
    [disconnect_async]; and [wait_async_disconnection ()] blocks until the job
    has run. Between these parts the other threads act on the handler. *)

(** [connect ()], the block under [m_state_mtx]. *)
Definition connect_locked (ndebug : bool) (tv : ts_view) (srv_chn : server_channel)
  : M connection_handler error_code :=
  do st <- gets m_state;
  do _ <- assert ndebug (bool_decide (st = IDLE));
  do _ <- modify (set_m_state CONNECTING);
  if negb (bool_decide (chn_connect srv_chn = NO_ERRORS)) then ps_conn_error_lambda
  else if negb (bool_decide (chn_send_int srv_chn = NO_ERRORS)) then ps_conn_error_lambda
  else if negb (bool_decide ((chn_recv_int srv_chn).1 = NO_ERRORS)) then ps_conn_error_lambda
  else if negb (bool_decide ((chn_recv_int srv_chn).2 = int_wrap (tv_conn_type tv)))
  then ps_conn_error_lambda
  else
    do _ <- set_connection ndebug;
    ret NO_ERROR.

(** [active_tran_server::connection_handler::transition_to_connected ()], up
    to [add_sink]. *)
Definition add_sink (ndebug : bool) : M connection_handler unit :=
  do hook <- gets m_prior_sender_sink_hook_func;
  do _ <- assert ndebug (negb hook);
  modify (set_m_prior_sender_sink_hook_func true).

(** ... and from there on, [unsent_lsa] being what [add_sink] returned. *)
Definition request_catch_up (ndebug : bool) (tv : ts_view) (unsent_lsa : log_lsa)
  : M connection_handler unit :=
  do '(hostname, port) <-
    (if negb (lsa_is_null unsent_lsa)
     then
       let '(res, hostname, port) := get_main_connection_info tv in
       do _ <- assert ndebug res;
       ret (hostname, port)
     else ret ("N/A"%string, -1));
  ATS.send_start_catch_up_request hostname port unsent_lsa.

(** The virtual call [transition_to_connected ()], in two parts. *)
Definition transition_begin (ndebug : bool) (tv : ts_view) : M connection_handler unit :=
  match tv_kind tv with
  | ACTIVE => add_sink ndebug
  | PASSIVE => PTS.transition_to_connected
  end.

Definition transition_end (ndebug : bool) (tv : ts_view) (unsent_lsa : log_lsa)
  : M connection_handler unit :=
  match tv_kind tv with
  | ACTIVE => request_catch_up ndebug tv unsent_lsa
  | PASSIVE => ret tt
  end.

(** The teardown job, the block under [m_state_mtx] and [m_conn_mtx]. *)
Definition teardown_locked (ndebug : bool) (tv : ts_view) (with_disc_msg : bool)
  : M connection_handler unit :=
  do _ <- get_channel_id;
  do st <- gets m_state;
  do _ <- assert ndebug (bool_decide (st = DISCONNECTING));
  do _ <- (if with_disc_msg
           then conn_push (Request SEND_DISCONNECT_MSG (payload_int (int_wrap (tv_conn_type tv))))
           else ret tt);
  do _ <- modify (set_m_conn None);
  modify (set_m_state IDLE).

(** A part of the teardown job: there is nothing to run unless the job is
    outstanding. *)
Definition job_part (part : bool -> M connection_handler unit) : M connection_handler unit :=
  do f <- gets m_disconn_future;
  match f with
  | future_pending with_disc_msg => part with_disc_msg
  | _ => ret tt
  end.

(** [wait_async_disconnection ()], from where [m_disconn_future.get ()]
    returns: while the job is outstanding the caller stays blocked. *)
Definition wait_async_disconnection_return (ndebug : bool) : M connection_handler unit :=
  do f <- gets m_disconn_future;
  match f with
  | future_pending _ => ret tt
  | _ =>
      do _ <- (match f with
               | future_ready => modify (set_m_disconn_future future_invalid)
               | _ => ret tt
               end);
      do st <- gets m_state;
      assert ndebug (bool_decide (st = IDLE))
  end.

(** What happens to a handler, in parts that are not interrupted. *)
Inductive part : Set :=
| part_connect_locked (srv_chn : server_channel)
| part_transition_begin
| part_transition_end (unsent_lsa : log_lsa)
| part_disconnect_async (with_disc_msg : bool)
| part_on_disconnecting
| part_stop_incoming_communication_thread
| part_teardown_locked
| part_wait_async_disconnection_return
| part_get_channel_id
| part_receive_catchup_complete
| part_push_request (reqid : tran_to_page_request) (p : payload)
| part_send_receive (reqid : tran_to_page_request) (p : payload)
                    (reply : css_error_code * string)
| part_prior_sender_sink_hook (message : string).

Definition run_part (ndebug : bool) (tv : ts_view) (a : part) : M connection_handler unit :=
  match a with
  | part_connect_locked srv_chn => ignore (connect_locked ndebug tv srv_chn)
  | part_transition_begin => transition_begin ndebug tv
  | part_transition_end unsent_lsa => transition_end ndebug tv unsent_lsa
  | part_disconnect_async b => disconnect_async ndebug b
  | part_on_disconnecting => job_part (fun _ => on_disconnecting tv)
  | part_stop_incoming_communication_thread =>
      job_part (fun _ => conn_stop_incoming_communication_thread)
  | part_teardown_locked =>
      job_part (fun with_disc_msg =>
                  do _ <- teardown_locked ndebug tv with_disc_msg;
                  modify (set_m_disconn_future future_ready))
  | part_wait_async_disconnection_return => wait_async_disconnection_return ndebug
  | part_get_channel_id => get_channel_id
  | part_receive_catchup_complete => ATS.receive_catchup_complete ndebug
  | part_push_request reqid p => ignore (push_request reqid p)
  | part_send_receive reqid p reply => ignore (send_receive reqid p reply)
  | part_prior_sender_sink_hook message => ATS.prior_sender_sink_hook ndebug message
  end.

(** A schedule: parts of calls of any threads, one after the other; it stops
    at the first fault. *)
Fixpoint run_parts (ndebug : bool) (tv : ts_view) (l : list part) : M connection_handler unit :=
  match l with
  | [] => ret tt
  | a :: l' => do _ <- run_part ndebug tv a; run_parts ndebug tv l'
  end.

(** ** Strings: the members of [std::string] the parser uses *)

Fixpoint find_from (c : ascii) (s : string) (i : nat) : option nat :=
  match s with
  | EmptyString => None
  | String c' s' => if bool_decide (c' = c) then Some i else find_from c s' (S i)
  end.

(** [s.find (c)] for a one-character pattern: the position of the first
    occurrence, [npos] when there is none. *)
Definition find (s : string) (c : ascii) : Z :=
  match find_from c s 0 with
  | Some i => Z.of_nat i
  | None => npos
  end.

(** [s.substr (pos, n)] *)
Definition substr (s : string) (pos n : Z) : string :=
  String.substring (Z.to_nat pos) (Z.to_nat n) s.

(** [s.substr (pos)] *)
Definition substr_from (s : string) (pos : Z) : string :=
  String.substring (Z.to_nat pos) (String.length s - Z.to_nat pos) s.

(** [s.erase (0, n)] *)
Definition erase_front (s : string) (n : Z) : string := substr_from s n.

Definition isspace (c : ascii) : bool :=
  let n := Z.of_N (N_of_ascii c) in
  (n =? 32) || ((9 <=? n) && (n <=? 13)).

Definition digit_of (c : ascii) : option Z :=
  let n := Z.of_N (N_of_ascii c) in
  if (48 <=? n) && (n <=? 57) then Some (n - 48) else None.

Fixpoint skip_spaces (s : string) : string :=
  match s with
  | String c s' => if isspace c then skip_spaces s' else s
  | EmptyString => s
  end.

(** The longest prefix of decimal digits; [acc] is [None] until a digit is read. *)
Fixpoint read_digits (s : string) (acc : option Z) : option Z :=
  match s with
  | String c s' =>
      match digit_of c with
      | Some d => read_digits s' (Some (10 * default 0 acc + d))
      | None => acc
      end
  | EmptyString => acc
  end.

(** [std::stoi (s)]: leading white space, an optional sign, then as many
    decimal digits as there are; [None] when it throws
    ([std::invalid_argument]: no digit; [std::out_of_range]: not an [int]). *)
Definition stoi (s : string) : option Z :=
  let s1 := skip_spaces s in
  let '(neg, s2) :=
    match s1 with
    | String "-"%char r => (true, r)
    | String "+"%char r => (false, r)
    | _ => (false, s1)
    end in
  match read_digits s2 None with
  | None => None
  | Some v =>
      let v' := if neg : bool then - v else v in
      if (INT_MIN <=? v') && (v' <=? INT_MAX) then Some v' else None
  end.

(** ** Loops *)

Inductive control (A : Type) : Type :=
| Continue
| Break (a : A).
Arguments Continue {A}.
Arguments Break {A} a.

(** [while (true) { body }]: [None] when [fuel] iterations were not enough. *)
Fixpoint iterate {S A} (fuel : nat) (body : M S (control A)) (s : S)
  : option (outcome S A) :=
  match fuel with
  | O => None
  | Datatypes.S fuel' =>
      match body s with
      | Ok Continue s' => iterate fuel' body s'
      | Ok (Break a) s' => Some (Ok a s')
      | Fault f s' => Some (Fault f s')
      end
  end.

(** [v[i]] on a [std::vector], the index being an [int]. *)
Definition vector_at {S A} (v : list A) (i : Z) : M S A :=
  if i <? 0 then raise out_of_range
  else match v !! Z.to_nat i with
       | Some a => ret a
       | None => raise out_of_range
       end.

(** [for (const auto &conn : v) { body }] over a vector of [n] elements,
    from index [i] on: the body gets the index and the local variables, and
    gives their new values ([inl]), or the value the function returns from
    inside the loop ([inr]). *)
Fixpoint for_each_index {S A B} (n i : nat) (body : nat -> A -> M S (A + B)) (acc : A)
  : M S (A + B) :=
  match n with
  | O => ret (inl acc)
  | Datatypes.S n' =>
      do r <- body i acc;
      match r with
      | inl acc' => for_each_index n' (Datatypes.S i) body acc'
      | inr b => ret (inr b)
      end
  end.

(** ** tran_server *)

(** [m_main_conn] points into [m_page_server_conn_vec]: it is the index of
    the handler pointed to, [None] for [nullptr]. *)
Record tran_server : Set := TranServer {
  m_kind : server_kind;
  m_server_name : string;
  m_conn_type : Z;
  m_page_server_conn_vec : list connection_handler;
  m_main_conn : option nat
}.

Definition set_m_page_server_conn_vec (v : list connection_handler) (ts : tran_server)
  : tran_server :=
  TranServer (m_kind ts) (m_server_name ts) (m_conn_type ts) v (m_main_conn ts).

Definition set_m_main_conn (p : option nat) (ts : tran_server) : tran_server :=
  TranServer (m_kind ts) (m_server_name ts) (m_conn_type ts) (m_page_server_conn_vec ts) p.

(** What the handlers see of the server. *)
Definition view (ts : tran_server) : ts_view :=
  TsView (m_kind ts) (m_server_name ts) (m_conn_type ts)
         (i ← m_main_conn ts; h ← m_page_server_conn_vec ts !! i; Some (m_node h)).

(** [conn-> ...] on the handler at index [i]. *)
Definition at_handler {A} (i : nat) (m : M connection_handler A) : M tran_server A :=
  fun ts =>
    match m_page_server_conn_vec ts !! i with
    | None => Fault null_dereference ts
    | Some h =>
        match m h with
        | Ok a h' => Ok a (set_m_page_server_conn_vec (<[i:=h']> (m_page_server_conn_vec ts)) ts)
        | Fault f h' =>
            Fault f (set_m_page_server_conn_vec (<[i:=h']> (m_page_server_conn_vec ts)) ts)
        end
    end.

(** ** The server among concurrent threads

    The request paths read the state of the main connection more than once,
    and other threads (the page-server connector, the handlers of inbound
    messages, the error callbacks, the teardown jobs) may act on the handlers
    in between. [w_interference] lists what they do: before each atomic step
    of the request path, the next entry is taken off the list and, when it is
    [Some (i, c)], the call [c] happens on handler [i]. [w_reply k] is what
    the channel has in store for the [k]-th call of [send_receive]. [g_events] is ghost
    state: what the request path did, most recent first. *)

Inductive event : Set :=
| ev_push_request (i : nat) (err_code : error_code)
| ev_send_receive (i : nat) (err_code : error_code)
| ev_is_connected (i : nat) (connected : bool)
| ev_reset_main_connection (err_code : error_code).

Record world : Type := World {
  w_ts : tran_server;
  w_interference : list (option (nat * call));
  w_reply : nat -> css_error_code * string;
  w_round_trips : nat;
  g_events : list event
}.

Definition set_w_ts (ts : tran_server) (w : world) : world :=
  World ts (w_interference w) (w_reply w) (w_round_trips w) (g_events w).

Definition set_w_interference (l : list (option (nat * call))) (w : world) : world :=
  World (w_ts w) l (w_reply w) (w_round_trips w) (g_events w).

Definition next_round_trip (w : world) : world :=
  World (w_ts w) (w_interference w) (w_reply w) (S (w_round_trips w)) (g_events w).

Definition record_event (e : event) (w : world) : world :=
  World (w_ts w) (w_interference w) (w_reply w) (w_round_trips w) (e :: g_events w).

(** A computation of the server, run in the world. *)
Definition on_ts {A} (m : M tran_server A) : M world A := zoom w_ts set_w_ts m.

(** The other threads take their turn. *)
Definition interfere (ndebug : bool) : M world unit :=
  do l <- gets w_interference;
  match l with
  | [] => ret tt
  | item :: l' =>
      do _ <- modify (set_w_interference l');
      match item with
      | None => ret tt
      | Some (i, c) =>
          do ts <- gets w_ts;
          if bool_decide (i < List.length (m_page_server_conn_vec ts))%nat
          then on_ts (at_handler i (step ndebug (view ts) c))
          else ret tt
      end
  end.

(** The handler [m_main_conn] points to. *)
Definition main_conn_index : M world nat :=
  do p <- gets (fun w => m_main_conn (w_ts w));
  match p with
  | None => raise null_dereference
  | Some i => ret i
  end.

Module TranServer.

(** [create_connection_handler] for the node [{port, host}] *)
Definition create_connection_handler (n : node) : connection_handler :=
  new_connection_handler n.

Definition register_connection_handler (host : string) : M tran_server error_code :=
  let col_pos := find host ":" in
  if (col_pos <? 1) || (col_pos >=? size_t_wrap (Z.of_nat (String.length host) - 1))
  then ret ER_HOST_PORT_PARAMETER
  else
    let port := match stoi (substr_from host (col_pos + 1)) with
                | Some v => v
                | None => -1
                end in
    if (port <? 1) || (port >? USHRT_MAX)
    then ret ER_HOST_PORT_PARAMETER
    else
      let m_ps_hostname := substr host 0 col_pos in
      do _ <- modify (fun ts =>
                set_m_page_server_conn_vec
                  (m_page_server_conn_vec ts ++ [create_connection_handler (Node port m_ps_hostname)])
                  ts);
      ret NO_ERROR.

(** [while ((pos = hosts.find (delimiter)) != std::string::npos) { ... }]
    followed by the registration of what is left of [hosts]. *)
Fixpoint register_connection_handlers_loop (fuel : nat) (hosts : string)
    (exit_code : error_code) (ts : tran_server) : option (outcome tran_server error_code) :=
  match fuel with
  | O => None
  | S fuel' =>
      let pos := find hosts "," in
      if negb (pos =? npos)
      then
        let token := substr hosts 0 pos in
        let hosts := erase_front hosts (pos + 1) in
        match register_connection_handler token ts with
        | Ok e ts' =>
            register_connection_handlers_loop fuel' hosts
              (if negb (bool_decide (e = NO_ERROR)) then ER_HOST_PORT_PARAMETER else exit_code)
              ts'
        | Fault f ts' => Some (Fault f ts')
        end
      else
        match register_connection_handler hosts ts with
        | Ok e ts' =>
            Some (Ok (if negb (bool_decide (e = NO_ERROR))
                      then ER_HOST_PORT_PARAMETER else exit_code) ts')
        | Fault f ts' => Some (Fault f ts')
        end
  end.

(** Every iteration erases at least the delimiter, so the length of [hosts]
    plus one is enough fuel (see [register_connection_handlers_loop_spec]). *)
Definition register_connection_handlers (hosts : string) (ts : tran_server)
  : option (outcome tran_server error_code) :=
  let col_pos := find hosts ":" in
  if (col_pos <? 1) || (col_pos >=? size_t_wrap (Z.of_nat (String.length hosts) - 1))
  then Some (Ok ER_HOST_PORT_PARAMETER ts)
  else register_connection_handlers_loop (S (String.length hosts)) hosts NO_ERROR ts.

Definition reset_main_connection : M tran_server error_code :=
  do vec <- gets m_page_server_conn_vec;
  match list_find (fun conn => is_connected conn) vec with
  | None => ret ER_CONN_NO_PAGE_SERVER_AVAILABLE
  | Some (main_conn_cand, _) =>
      do cur <- gets m_main_conn;
      do _ <- (if negb (bool_decide (cur = Some main_conn_cand))
               then modify (set_m_main_conn (Some main_conn_cand))
               else ret tt);
      ret NO_ERROR
  end.

Definition is_page_server_connected (ts : tran_server) : bool :=
  existsb is_connected (m_page_server_conn_vec ts).

(** One iteration of the loop of [push_request]. *)
Definition push_request_body (ndebug : bool) (reqid : tran_to_page_request) (p : payload)
  : M world (control unit) :=
  do _ <- interfere ndebug;
  do i <- main_conn_index;
  do err_code <- on_ts (at_handler i (push_request reqid p));
  do _ <- modify (record_event (ev_push_request i err_code));
  if negb (bool_decide (err_code = NO_ERROR))
  then
    do _ <- interfere ndebug;
    do i <- main_conn_index;
    do connected <- on_ts (at_handler i (gets is_connected));
    do _ <- modify (record_event (ev_is_connected i connected));
    if negb connected
    then
      do _ <- interfere ndebug;
      do err_code <- on_ts reset_main_connection;
      do _ <- modify (record_event (ev_reset_main_connection err_code));
      if bool_decide (err_code = ER_CONN_NO_PAGE_SERVER_AVAILABLE)
      then ret (Break tt)
      else ret Continue
    else ret (Break tt)
  else ret (Break tt).

Definition push_request (fuel : nat) (ndebug : bool) (reqid : tran_to_page_request)
    (p : payload) : world -> option (outcome world unit) :=
  iterate fuel (push_request_body ndebug reqid p).

(** One iteration of the loop of [send_receive]. The result is [err_code]
    with the new content of [payload_out], if it was written. *)
Definition send_receive_body (ndebug : bool) (reqid : tran_to_page_request) (p : payload)
  : M world (control (error_code * option string)) :=
  do _ <- interfere ndebug;
  do i <- main_conn_index;
  do reply <- gets (fun w => w_reply w (w_round_trips w));
  do _ <- modify next_round_trip;
  do '(err_code, payload_out) <- on_ts (at_handler i (send_receive reqid p reply));
  do _ <- modify (record_event (ev_send_receive i err_code));
  if negb (bool_decide (err_code = NO_ERROR))
  then
    do _ <- interfere ndebug;
    do i <- main_conn_index;
    do connected <- on_ts (at_handler i (gets is_connected));
    do _ <- modify (record_event (ev_is_connected i connected));
    if negb connected
    then
      do _ <- interfere ndebug;
      do err_code <- on_ts reset_main_connection;
      do _ <- modify (record_event (ev_reset_main_connection err_code));
      if bool_decide (err_code = ER_CONN_NO_PAGE_SERVER_AVAILABLE)
      then ret (Break (err_code, payload_out))
      else ret Continue
    else ret (Break (err_code, payload_out))
  else ret (Break (err_code, payload_out)).

Definition send_receive (fuel : nat) (ndebug : bool) (reqid : tran_to_page_request)
    (p : payload) : world -> option (outcome world (error_code * option string)) :=
  iterate fuel (send_receive_body ndebug reqid p).






(** The body of the loop of [ps_connector::try_connect_to_all_ps].
    [terminate_seen i] is what [m_terminate.load ()] reads in iteration [i].
    The local variable is [newly_connected]. *)
Definition try_connect_body (ndebug : bool) (peers : nat -> server_channel)
    (unsent : nat -> log_lsa) (terminate_seen : nat -> bool) (i : nat)
    (newly_connected : bool) : M tran_server (bool + unit) :=
  do idle <- at_handler i (gets is_idle);
  do newly_connected <-
    (if idle : bool
     then
       do tv <- gets view;
       do e <- at_handler i (connect ndebug tv (peers i) (unsent i));
       if bool_decide (e = NO_ERROR) then ret true else ret newly_connected
     else ret newly_connected);
  if terminate_seen i then ret (inr tt) else ret (inl newly_connected).

(** A pass of the daemon of the connector, taken on its own: no other thread
    acts on the handlers while it runs. *)
Definition try_connect_to_all_ps (ndebug : bool) (peers : nat -> server_channel)
    (unsent : nat -> log_lsa) (terminate_seen : nat -> bool) : M tran_server unit :=
  do vec <- gets m_page_server_conn_vec;
  do r <- for_each_index (List.length vec) 0
            (try_connect_body ndebug peers unsent terminate_seen) false;
  match r with
  | inr _ => ret tt
  | inl newly_connected =>
      if newly_connected : bool
      then
        do e <- reset_main_connection;
        if negb (bool_decide (e = NO_ERROR)) then assert ndebug false else ret tt
      else ret tt
  end.

(** The two loops of [disconnect_all_page_servers], taken on their own: no
    other thread acts on the handlers while they run, and the teardown job of
    a handler runs when the second loop waits for it. *)
Definition disconnect_all_handlers (ndebug : bool) : M tran_server unit :=
  do vec <- gets m_page_server_conn_vec;
  do _ <- for_each_index (B := Empty_set) (List.length vec) 0
            (fun i (_ : unit) =>
               do _ <- at_handler i (disconnect_async ndebug true);
               ret (inl tt)) tt;
  do vec <- gets m_page_server_conn_vec;
  do _ <- for_each_index (B := Empty_set) (List.length vec) 0
            (fun i (_ : unit) =>
               do tv <- gets view;
               do _ <- at_handler i (wait_async_disconnection ndebug tv);
               ret (inl tt)) tt;
  ret tt.

End TranServer.

(** ** printf *)

(** The text of a conversion [%d] or [%lld]. *)
Definition printf_d (z : Z) : string := NilZero.string_of_int (Z.to_int z).

(** The text of [%lld|%d] given [LSA_AS_ARGS (&lsa)]. *)
Definition printf_lsa (lsa : log_lsa) : string :=
  printf_d (pageid lsa) +:+ "|" +:+ printf_d (offset lsa).

(** The character [\n]. *)
Definition newline : string := String (ascii_of_nat 10) EmptyString.

(** [snprintf (buf + n, size - n, ...)] on a buffer of [size] bytes, [text]
    being the formatted output. The result is the length of [text], whether
    it fitted or was cut. With [n] greater than [size] the pointer [buf + n]
    is past the end of the buffer and [size - n], converted to [size_t], is
    no bound: the text is written outside of the buffer. *)
Definition snprintf {S} (size n : Z) (text : string) : M S Z :=
  if size <? n then raise out_of_range
  else ret (int_wrap (Z.of_nat (String.length text))).

(** ** active_tran_server *)

Module ActiveTranServer.

(** The loop that gathers the saved LSA of every connected handler. *)
Fixpoint collect_saved_lsa (vec : list connection_handler)
    (collected_saved_lsa : list log_lsa) (cur_node_cnt : Z) : list log_lsa * Z :=
  match vec with
  | [] => (collected_saved_lsa, cur_node_cnt)
  | conn :: vec' =>
      if is_connected conn
      then collect_saved_lsa vec' (collected_saved_lsa ++ [get_saved_lsa conn])
                             (int_wrap (cur_node_cnt + 1))
      else collect_saved_lsa vec' collected_saved_lsa cur_node_cnt
  end.

Definition BUF_SIZE : Z := 1024.

(** The loop that prints the collected LSAs into [msg_buf], from offset [n]
    on. *)
Fixpoint print_saved_lsa {S} (collected_saved_lsa : list log_lsa) (n : Z) : M S Z :=
  match collected_saved_lsa with
  | [] => ret n
  | lsa :: rest =>
      do k <- snprintf BUF_SIZE n (printf_lsa lsa +:+ " ");
      print_saved_lsa rest (int_wrap (n + k))
  end.

(** The block of [compute_consensus_lsa] that logs the details, with its
    buffer [msg_buf] of [BUF_SIZE] bytes. *)
Definition log_quorum_consensus {S} (ndebug : bool) (quorum_not_met : bool)
    (total_node_cnt cur_node_cnt quorum : Z) (consensus_lsa : log_lsa)
    (collected_saved_lsa : list log_lsa) : M S unit :=
  do n <- snprintf BUF_SIZE 0 "compute_consensus_lsa - ";
  do k <- snprintf BUF_SIZE n
            ("Quorum " +:+ (if quorum_not_met then "un" else EmptyString) +:+ "satisfied: ");
  let n := int_wrap (n + k) in
  do k <- snprintf BUF_SIZE n
            ("total node count = " +:+ printf_d total_node_cnt
             +:+ ", current node count = " +:+ printf_d cur_node_cnt
             +:+ ", quorum = " +:+ printf_d quorum
             +:+ ", consensus LSA = " +:+ printf_lsa consensus_lsa +:+ newline);
  let n := int_wrap (n + k) in
  do k <- snprintf BUF_SIZE n "Collected saved lsa list = [ ";
  let n := int_wrap (n + k) in
  do n <- print_saved_lsa collected_saved_lsa n;
  do _ <- snprintf BUF_SIZE n ("]" +:+ newline);
  assert ndebug (n <? BUF_SIZE).

(** [er_log_quorum_consensus] is what
    [prm_get_bool_value (PRM_ID_ER_LOG_QUORUM_CONSENSUS)] returns. *)
Definition compute_consensus_lsa (ndebug : bool) (er_log_quorum_consensus : bool)
  : M tran_server log_lsa :=
  do vec <- gets m_page_server_conn_vec;
  let total_node_cnt := int_wrap (Z.of_nat (List.length vec)) in
  let quorum := int_wrap (total_node_cnt `quot` 2 + 1) in
  let '(collected_saved_lsa, cur_node_cnt) := collect_saved_lsa vec [] 0 in
  let quorum_not_met := cur_node_cnt <? quorum in
  do '(collected_saved_lsa, consensus_lsa) <-
    (if quorum_not_met
     then
       ret (if er_log_quorum_consensus then std_sort collected_saved_lsa
            else collected_saved_lsa,
            NULL_LSA)
     else
       let collected_saved_lsa := std_sort collected_saved_lsa in
       do consensus_lsa <- vector_at collected_saved_lsa (int_wrap (cur_node_cnt - quorum));
       ret (collected_saved_lsa, consensus_lsa));
  do _ <- (if er_log_quorum_consensus
           then log_quorum_consensus ndebug quorum_not_met total_node_cnt cur_node_cnt
                                     quorum consensus_lsa collected_saved_lsa
           else ret tt);
  ret consensus_lsa.

End ActiveTranServer.

(** ** tran_server::ps_connector, and the shutdown of the connections *)

Module PsConnector.

(** [m_terminate] and, as ghost state, how many times [create_daemon] and
    [destroy_daemon] have been called for the connector. *)
Record t : Set := Make {
  m_terminate : bool;
  g_created : nat;
  g_destroyed : nat
}.

(** The constructor. *)
Definition new : t := Make true 0 0.

(** [start ()]. [vec_empty] is [m_ts.m_page_server_conn_vec.empty ()], and
    [created] tells whether [create_daemon] returns a daemon. *)
Definition start (ndebug : bool) (vec_empty : bool) (created : bool) : M t unit :=
  do term <- gets m_terminate;
  do _ <- assert ndebug (bool_decide (term = true));
  do _ <- assert ndebug (bool_decide (vec_empty = false));
  do _ <- modify (fun c => Make false (g_created c) (g_destroyed c));
  do _ <- (if created
           then modify (fun c => Make (m_terminate c) (S (g_created c)) (g_destroyed c))
           else ret tt);
  assert ndebug created.

(** [terminate ()] *)
Definition terminate : M t unit :=
  do term <- gets m_terminate;
  do _ <- modify (fun c => Make true (g_created c) (g_destroyed c));
  if bool_decide (term = false)
  then modify (fun c => Make (m_terminate c) (g_created c) (S (g_destroyed c)))
  else ret tt.

(** The calls of the interface of the connector. *)
Inductive call : Set :=
| call_start (vec_empty : bool) (created : bool)
| call_terminate.

(** A sequence of calls, one after the other; it stops at the first fault. *)
Fixpoint calls (ndebug : bool) (cs : list call) : M t unit :=
  match cs with
  | [] => ret tt
  | call_start vec_empty created :: cs' =>
      do _ <- start ndebug vec_empty created;
      calls ndebug cs'
  | call_terminate :: cs' =>
      do _ <- terminate;
      calls ndebug cs'
  end.

End PsConnector.

(** A transaction server with its connector, [m_ps_connector]. *)
Record server : Set := Server {
  srv_ts : tran_server;
  m_ps_connector : PsConnector.t
}.

Definition disconnect_all_page_servers (ndebug : bool) : M server unit :=
  do _ <- zoom m_ps_connector (fun c s => Server (srv_ts s) c) PsConnector.terminate;
  zoom srv_ts (fun ts s => Server ts (m_ps_connector s))
       (TranServer.disconnect_all_handlers ndebug).

(** ** log_global: waiting for the page servers to flush

    The thread that waits in [wait_for_ps_flushed_lsa] runs among the threads
    that handle the [SEND_SAVED_LSA] messages of the page servers.
    [fw_inbound] lists what these do: before each step of the waiting thread
    the next entry is taken off the list and, when it is [Some (i, lsa)],
    handler [i] receives the saved LSA [lsa]. *)

Record flush_world : Set := FlushWorld {
  fw_ts : tran_server;
  fw_log : log_global;
  fw_inbound : list (option (nat * log_lsa))
}.

Definition set_fw_ts (ts : tran_server) (w : flush_world) : flush_world :=
  FlushWorld ts (fw_log w) (fw_inbound w).

Definition set_fw_log (g : log_global) (w : flush_world) : flush_world :=
  FlushWorld (fw_ts w) g (fw_inbound w).

Definition set_fw_inbound (l : list (option (nat * log_lsa))) (w : flush_world)
  : flush_world :=
  FlushWorld (fw_ts w) (fw_log w) l.

(** Handler [i] handles a [SEND_SAVED_LSA] message. *)
Definition deliver_saved_lsa (ndebug : bool) (i : nat) (saved_lsa : log_lsa)
  : M flush_world unit :=
  fun w =>
    match m_page_server_conn_vec (fw_ts w) !! i with
    | None => Ok tt w
    | Some h =>
        let inj (s : connection_handler * log_global) :=
          FlushWorld
            (set_m_page_server_conn_vec (<[i:=s.1]> (m_page_server_conn_vec (fw_ts w)))
                                        (fw_ts w))
            s.2 (fw_inbound w) in
        match ATS.receive_saved_lsa ndebug saved_lsa (h, fw_log w) with
        | Ok a s => Ok a (inj s)
        | Fault f s => Fault f (inj s)
        end
    end.

(** The other threads take their turn. *)
Definition inbound (ndebug : bool) : M flush_world unit :=
  do l <- gets fw_inbound;
  match l with
  | [] => ret tt
  | item :: l' =>
      do _ <- modify (set_fw_inbound l');
      match item with
      | None => ret tt
      | Some (i, saved_lsa) => deliver_saved_lsa ndebug i saved_lsa
      end
  end.

(** One iteration of the loop of [log_global::wait_for_ps_flushed_lsa].
    [m_ps_lsa_cv.wait (ulock)] lets the other threads run, and returns when
    the waiter is notified, or spuriously: when, is left to [fw_inbound].
    [compute_consensus_lsa ()] is taken as one step;
    [er_log_quorum_consensus] is the system parameter it reads. *)
Definition wait_for_ps_flushed_lsa_body (ndebug : bool) (er_log_quorum_consensus : bool)
    (flush_lsa : log_lsa) : M flush_world (control unit) :=
  do _ <- inbound ndebug;
  do flushed <- gets (fun w => m_ps_consensus_flushed_lsa (fw_log w));
  if lsa_ltb flushed flush_lsa
  then
    do _ <- inbound ndebug;
    do up_to_date <- gets (fun w => m_ps_lsa_up_to_date (fw_log w));
    do _ <- modify (fun w =>
              set_fw_log (LogGlobal true (m_ps_consensus_flushed_lsa (fw_log w))
                                    (g_notified (fw_log w))) w);
    if negb up_to_date
    then
      do _ <- inbound ndebug;
      do consensus_lsa <-
        zoom fw_ts set_fw_ts
             (ActiveTranServer.compute_consensus_lsa ndebug er_log_quorum_consensus);
      if bool_decide (consensus_lsa = NULL_LSA)
      then ret Continue
      else
        do flushed <- gets (fun w => m_ps_consensus_flushed_lsa (fw_log w));
        do _ <- assert ndebug (lsa_leb flushed consensus_lsa);
        do _ <- modify (fun w =>
                  set_fw_log (LogGlobal (m_ps_lsa_up_to_date (fw_log w)) consensus_lsa
                                        (g_notified (fw_log w))) w);
        ret Continue
    else
      do _ <- inbound ndebug;
      ret Continue
  else ret (Break tt).

Definition wait_for_ps_flushed_lsa (fuel : nat) (ndebug : bool)
    (er_log_quorum_consensus : bool) (flush_lsa : log_lsa)
  : flush_world -> option (outcome flush_world unit) :=
  iterate fuel (wait_for_ps_flushed_lsa_body ndebug er_log_quorum_consensus flush_lsa).

(** ** async_disconnect_handler

    The handler of asynchronous disconnections among three kinds of threads:
    those that call [disconnect ()], the one that calls [terminate ()], and
    its own thread, which runs [disconnect_loop ()]. The steps that are taken
    as atomic are a call of [disconnect ()], and for the loop: the test of
    the condition of the [while], [m_queue_cv.wait_for] together with the
    swap under the same lock, and the destruction of one handler of the work
    buffer. *)

Module AsyncDisconnectHandler.

(** Where the thread of [disconnect_loop ()] stands: about to test the
    condition of the [while], in [m_queue_cv.wait_for], emptying
    [disconnect_work_buffer], or returned. *)
Inductive loop_pc : Set := at_while | at_wait_for | at_drain | returned.

(** The queues have their front first. [g_destroyed] is ghost state: the
    handlers destroyed by the loop, the first destroyed first. *)
Record t (T : Type) : Type := Make {
  m_terminate : bool;
  m_disconnect_queue : list T;
  disconnect_work_buffer : list T;
  loop : loop_pc;
  g_destroyed : list T
}.
Arguments Make {T}.
Arguments m_terminate {T}.
Arguments m_disconnect_queue {T}.
Arguments disconnect_work_buffer {T}.
Arguments loop {T}.
Arguments g_destroyed {T}.

(** The constructor, which starts the thread. *)
Definition new {T} : t T := Make false [] [] at_while [].

Definition disconnect {T} (ndebug : bool) (handler : T) : M (t T) unit :=
  do term <- gets m_terminate;
  if negb term
  then
    modify (fun s => Make (m_terminate s) (m_disconnect_queue s ++ [handler])
                          (disconnect_work_buffer s) (loop s) (g_destroyed s))
  else assert ndebug false.

(** One step of the thread of [disconnect_loop ()]. *)
Definition disconnect_loop_step {T} (s : t T) : t T :=
  match loop s with
  | at_while =>
      Make (m_terminate s) (m_disconnect_queue s) (disconnect_work_buffer s)
           (if negb (m_terminate s) then at_wait_for else returned) (g_destroyed s)
  | at_wait_for =>
      if negb (bool_decide (List.length (m_disconnect_queue s) = 0%nat)) || m_terminate s
      then
        (* m_disconnect_queue.swap (disconnect_work_buffer) *)
        Make (m_terminate s) (disconnect_work_buffer s) (m_disconnect_queue s)
             at_drain (g_destroyed s)
      else
        (* timed out: continue *)
        Make (m_terminate s) (m_disconnect_queue s) (disconnect_work_buffer s)
             at_while (g_destroyed s)
  | at_drain =>
      match disconnect_work_buffer s with
      | [] =>
          Make (m_terminate s) (m_disconnect_queue s) [] at_while (g_destroyed s)
      | front :: rest =>
          (* front.reset (nullptr); disconnect_work_buffer.pop () *)
          Make (m_terminate s) (m_disconnect_queue s) rest at_drain (g_destroyed s ++ [front])
      end
  | returned => s
  end.

(** [m_thread.join ()]: the thread of the loop runs until it returns;
    [None] when it has not after [fuel] steps. *)
Fixpoint join {T} (fuel : nat) (s : t T) : option (t T) :=
  match loop s with
  | returned => Some s
  | _ =>
      match fuel with
      | O => None
      | S fuel' => join fuel' (disconnect_loop_step s)
      end
  end.

Definition terminate {T} (fuel : nat) (ndebug : bool) (s : t T)
  : option (outcome (t T) unit) :=
  let s := Make true (m_disconnect_queue s) (disconnect_work_buffer s) (loop s)
                (g_destroyed s) in
  match join fuel s with
  | None => None
  | Some s =>
      Some (assert ndebug (bool_decide (List.length (m_disconnect_queue s) = 0%nat)) s)
  end.

Definition is_terminated {T} (s : t T) : bool := m_terminate s.

(** What the threads do, in the order in which it happens. *)
Inductive event (T : Type) : Type :=
| ev_disconnect (handler : T)
| ev_loop_step
| ev_terminate.
Arguments ev_disconnect {T}.
Arguments ev_loop_step {T}.
Arguments ev_terminate {T}.

Fixpoint run {T} (fuel : nat) (ndebug : bool) (evs : list (event T)) (s : t T)
  : option (outcome (t T) unit) :=
  match evs with
  | [] => Some (Ok tt s)
  | ev :: evs' =>
      let o := match ev with
               | ev_disconnect handler => Some (disconnect ndebug handler s)
               | ev_loop_step => Some (Ok tt (disconnect_loop_step s))
               | ev_terminate => terminate fuel ndebug s
               end in
      match o with
      | None => None
      | Some (Ok _ s') => run fuel ndebug evs' s'
      | Some (Fault f s') => Some (Fault f s')
      end
  end.

End AsyncDisconnectHandler.

(** * Specification-level definitions and examples *)

(** ** The quorum *)

(** The saved LSAs of the connected handlers, in the order of the vector:
    the collection the quorum is computed over. *)
Definition connected_saved_lsa (vec : list connection_handler) : list log_lsa :=
  get_saved_lsa <$> filter (fun conn => is_connected conn) vec.

(** A handler in a given state with a given saved LSA. *)
Definition example_handler (st : state) (saved_lsa : log_lsa) : connection_handler :=
  Handler (Node 7001 "ps") st
          (if bool_decide (st = IDLE) then None else Some (Conn true true))
          (if bool_decide (st = DISCONNECTING) then future_pending false else future_invalid)
          saved_lsa false [] 0%nat [].

(** An active transaction server with [N] handlers, of which the first ones
    are connected and have saved the LSAs [saved], and the others are idle. *)
Definition example_server (N : nat) (saved : list Z) : tran_server :=
  TranServer ACTIVE "db" 1
    (((fun v => example_handler CONNECTED (LSA v 0)) <$> saved)
       ++ replicate (N - List.length saved) (example_handler IDLE NULL_LSA))
    None.

(** The text of the collected LSAs in the message for the log. *)
Fixpoint saved_lsa_text (l : list log_lsa) : string :=
  match l with
  | [] => EmptyString
  | lsa :: rest => printf_lsa lsa +:+ " " +:+ saved_lsa_text rest
  end.

(** The message that [compute_consensus_lsa] builds for the log when the
    logging of the quorum is on, up to the closing bracket: the counts, the
    consensus LSA, and the saved LSAs of the connected handlers in ascending
    order. *)
Definition quorum_log (vec : list connection_handler) : string :=
  let N := List.length vec in
  let S := std_sort (connected_saved_lsa vec) in
  let q := (N / 2 + 1)%nat in
  let met := (q <=? List.length S)%nat in
  let consensus_lsa :=
    if met then default NULL_LSA (S !! (List.length S - q)%nat) else NULL_LSA in
  "compute_consensus_lsa - "
  +:+ ("Quorum " +:+ (if met then EmptyString else "un") +:+ "satisfied: ")
  +:+ ("total node count = " +:+ printf_d (Z.of_nat N)
       +:+ ", current node count = " +:+ printf_d (Z.of_nat (List.length S))
       +:+ ", quorum = " +:+ printf_d (Z.of_nat q)
       +:+ ", consensus LSA = " +:+ printf_lsa consensus_lsa +:+ newline)
  +:+ "Collected saved lsa list = [ "
  +:+ saved_lsa_text S.

(** The message for the log fits the buffer it is built in, short of its
    last byte; or there is no message to build. *)
Definition log_fits (er_log_quorum_consensus : bool) (vec : list connection_handler) : Prop :=
  er_log_quorum_consensus = false \/
  Z.of_nat (String.length (quorum_log vec)) < ActiveTranServer.BUF_SIZE.

(** [n] connected handlers that have all saved the log up to the same LSA. *)
Definition crowded_server (n : nat) : tran_server :=
  TranServer ACTIVE "db" 1 (replicate n (example_handler CONNECTED (LSA 123456789 0))) None.

(** ** The hosts string *)

(** The tokens of a comma-separated list: what stands between the commas. *)
Fixpoint tokens (s : string) : list string :=
  match s with
  | EmptyString => [EmptyString]
  | String c s' =>
      if bool_decide (c = ","%char) then EmptyString :: tokens s'
      else match tokens s' with
           | t :: ts => String c t :: ts
           | [] => [String c EmptyString]
           end
  end.

(** The colon of a [host:port] token is at position 0, at the last
    character, or missing. *)
Definition colon_misplaced (t : string) : bool :=
  match find_from ":" t 0 with
  | None => true
  | Some i => (i =? 0)%nat || (S i =? String.length t)%nat
  end.

(** A token as the parsing rules read it: the host is what precedes the first
    colon, the port what follows it, parsed as a decimal integer; [None] for
    a token the rules reject. *)
Definition parse_host_port (t : string) : option node :=
  match find_from ":" t 0 with
  | None => None
  | Some i =>
      if (i =? 0)%nat || (S i =? String.length t)%nat then None
      else
        match stoi (String.substring (S i) (String.length t - S i) t) with
        | None => None
        | Some port =>
            if (1 <=? port) && (port <=? 65535)
            then Some (Node port (String.substring 0 i t))
            else None
        end
  end.

(** Appending the handlers of some nodes to the vector of a server. *)
Definition with_nodes (ns : list node) (ts : tran_server) : tran_server :=
  set_m_page_server_conn_vec
    (m_page_server_conn_vec ts ++ (TranServer.create_connection_handler <$> ns)) ts.

(** A server that has not registered any handler yet. *)
Definition empty_server (kind : server_kind) : tran_server :=
  TranServer kind "db" 1 [] None.

(** Handing the tokens to [register_connection_handler] one after the other,
    whatever the outcome for the tokens before. *)
Fixpoint register_each (toks : list string) (exit_code : error_code)
  : M tran_server error_code :=
  match toks with
  | [] => ret exit_code
  | t :: toks' =>
      do e <- TranServer.register_connection_handler t;
      register_each toks'
        (if negb (bool_decide (e = NO_ERROR)) then ER_HOST_PORT_PARAMETER else exit_code)
  end.

(** ** The request paths *)

(** An active transaction server whose handlers are in the given states, with
    the given main connection. *)
Definition example_server_in (sts : list state) (main_conn : option nat) : tran_server :=
  TranServer ACTIVE "db" 1 ((fun st => example_handler st NULL_LSA) <$> sts) main_conn.

(** A world in which no other thread acts and every round trip succeeds. *)
Definition quiet_world (ts : tran_server) : world :=
  World ts [] (fun _ => (NO_ERRORS, "reply"%string)) 0 [].

(** The world after the request path did [evs] (most recent first). *)
Definition with_events (evs : list event) (w : world) : world :=
  World (w_ts w) (w_interference w) (w_reply w) (w_round_trips w) (evs ++ g_events w).

(** The other threads leave handler [i] alone at their [n]-th turn from now
    (the turns being counted from 0). *)
Definition leaves_alone (w : world) (n i : nat) : Prop :=
  forall c, w_interference w !! n <> Some (Some (i, c)).

(** The handler at index [i] is connected, or is not. *)
Definition connected_at (ts : tran_server) (i : nat) (connected : bool) : Prop :=
  exists h, m_page_server_conn_vec ts !! i = Some h /\ is_connected h = connected.

(** The main connection is the first connected handler. *)
Definition main_is_first_connected (ts : tran_server) : Prop :=
  exists k h, m_main_conn ts = Some k /\
              list_find (fun conn => is_connected conn) (m_page_server_conn_vec ts)
              = Some (k, h).

(** What one iteration of the loop of [push_request] does, from the world [w]
    to the world [w'], [i] being the main connection it finds: the call on
    handler [i] succeeds, and the loop ends; or it fails and handler [i]
    reports connected, and the loop ends without a rotation; or it fails,
    handler [i] reports not connected and [reset_main_connection] finds no
    page server, and the loop ends, the main connection being left where it
    was; or [reset_main_connection] succeeds, and only then does the loop go
    round again, with the first connected handler as main connection. The
    events are what the iteration adds to the record (most recent first). *)
Definition push_request_iteration (reqid : tran_to_page_request) (p : payload)
    (w w' : world) (c : control unit) : Prop :=
  exists i,
    m_main_conn (w_ts w) = Some i /\
    ((g_events w' = ev_push_request i NO_ERROR :: g_events w /\
      c = Break tt /\
      m_main_conn (w_ts w') = Some i /\
      exists h, m_page_server_conn_vec (w_ts w') !! i = Some h /\
                is_connected h = true /\
                head (g_pushed h) = Some (Request reqid p)) \/
     (g_events w' = [ev_is_connected i true;
                     ev_push_request i ER_CONN_PAGE_SERVER_CANNOT_BE_REACHED] ++ g_events w /\
      c = Break tt /\
      m_main_conn (w_ts w') = Some i /\
      connected_at (w_ts w') i true /\
      ~ leaves_alone w 1 i) \/
     (g_events w' = [ev_reset_main_connection ER_CONN_NO_PAGE_SERVER_AVAILABLE;
                     ev_is_connected i false;
                     ev_push_request i ER_CONN_PAGE_SERVER_CANNOT_BE_REACHED] ++ g_events w /\
      c = Break tt /\
      m_main_conn (w_ts w') = Some i /\
      connected_at (w_ts w') i false /\
      TranServer.is_page_server_connected (w_ts w') = false) \/
     (g_events w' = [ev_reset_main_connection NO_ERROR;
                     ev_is_connected i false;
                     ev_push_request i ER_CONN_PAGE_SERVER_CANNOT_BE_REACHED] ++ g_events w /\
      c = Continue /\
      main_is_first_connected (w_ts w') /\
      (leaves_alone w 2 i -> connected_at (w_ts w') i false))).

(** The same for [send_receive], which returns an error code and may have
    written [payload_out]. *)
Definition send_receive_iteration (reqid : tran_to_page_request) (p : payload)
    (w w' : world) (c : control (error_code * option string)) : Prop :=
  exists i,
    m_main_conn (w_ts w) = Some i /\
    w_round_trips w' = S (w_round_trips w) /\
    ((g_events w' = ev_send_receive i NO_ERROR :: g_events w /\
      (w_reply w (w_round_trips w)).1 = NO_ERRORS /\
      c = Break (NO_ERROR, Some (w_reply w (w_round_trips w)).2) /\
      m_main_conn (w_ts w') = Some i /\
      exists h, m_page_server_conn_vec (w_ts w') !! i = Some h /\
                is_connected h = true /\
                head (g_pushed h) = Some (Request reqid p)) \/
     (g_events w' = [ev_is_connected i true;
                     ev_send_receive i ER_CONN_PAGE_SERVER_CANNOT_BE_REACHED] ++ g_events w /\
      c = Break (ER_CONN_PAGE_SERVER_CANNOT_BE_REACHED, None) /\
      m_main_conn (w_ts w') = Some i /\
      connected_at (w_ts w') i true) \/
     (g_events w' = [ev_reset_main_connection ER_CONN_NO_PAGE_SERVER_AVAILABLE;
                     ev_is_connected i false;
                     ev_send_receive i ER_CONN_PAGE_SERVER_CANNOT_BE_REACHED] ++ g_events w /\
      c = Break (ER_CONN_NO_PAGE_SERVER_AVAILABLE, None) /\
      m_main_conn (w_ts w') = Some i /\
      connected_at (w_ts w') i false /\
      TranServer.is_page_server_connected (w_ts w') = false) \/
     (g_events w' = [ev_reset_main_connection NO_ERROR;
                     ev_is_connected i false;
                     ev_send_receive i ER_CONN_PAGE_SERVER_CANNOT_BE_REACHED] ++ g_events w /\
      c = Continue /\
      main_is_first_connected (w_ts w') /\
      (leaves_alone w 2 i -> connected_at (w_ts w') i false))).

(** A world with two connected handlers, the second being the main
    connection, in which another thread disconnects the second handler just
    before the request path makes its first step. *)
Definition rotating_world : world :=
  World (example_server_in [CONNECTED; CONNECTED] (Some 1%nat))
        [Some (1%nat, call_disconnect_async false)]
        (fun _ => (NO_ERRORS, "reply"%string)) 0 [].

(** A world whose only handler, the main connection, waits for the catch-up
    to complete, the message that completes it arriving between the call of
    the request path and its test of the connection. *)
Definition catching_up_world : world :=
  World (example_server_in [CONNECTING] (Some 0%nat))
        [None; Some (0%nat, call_receive_catchup_complete)]
        (fun _ => (NO_ERRORS, "reply"%string)) 0 [].

(** ** The connection state machine *)

(** The transition table of the connection state. *)
Definition permitted (from to : state) : bool :=
  match from, to with
  | IDLE, CONNECTING
  | CONNECTING, IDLE
  | CONNECTING, CONNECTED
  | CONNECTING, DISCONNECTING
  | CONNECTED, DISCONNECTING
  | DISCONNECTING, IDLE => true
  | _, _ => false
  end.

(** The values assigned to [m_state] (most recent first), starting from
    [IDLE], only make transitions of the table. *)
Fixpoint admitted (writes : list state) : bool :=
  match writes with
  | [] => true
  | s :: earlier => permitted (hd IDLE earlier) s && admitted earlier
  end.

(** The trace of a handler contains the transition [from -> to]. *)
Fixpoint occurs (from to : state) (writes : list state) : bool :=
  match writes with
  | [] => false
  | s :: earlier =>
      (bool_decide (hd IDLE earlier = from) && bool_decide (s = to)) || occurs from to earlier
  end.

(** What a call asserts of the state of the handler it is made on. *)
Definition precondition (c : call) (h : connection_handler) : bool :=
  match c with
  | call_connect _ _ => bool_decide (m_state h = IDLE)
  | call_receive_catchup_complete => bool_decide (m_state h = CONNECTING)
  | _ => true
  end.

(** Every call of the sequence is made in a state that meets what it asserts. *)
Fixpoint respects (ndebug : bool) (tv : ts_view) (cs : list call) (h : connection_handler)
  : Prop :=
  match cs with
  | [] => True
  | c :: cs' => precondition c h = true /\ respects ndebug tv cs' (final (step ndebug tv c h))
  end.

(** The calls of the interface of a handler that the state machine is
    exercised with. *)
Definition interface_call (c : call) : bool :=
  match c with
  | call_connect _ _ | call_disconnect_async _ | call_wait_async_disconnection => true
  | _ => false
  end.

Definition is_pending (f : future) : bool :=
  match f with future_pending _ => true | _ => false end.

(** A handler between two calls: it has a connection exactly when it is not
    idle, its teardown job is pending exactly when it is disconnecting, and
    it is not registered with the prior sender when idle. *)
Definition handler_inv (h : connection_handler) : bool :=
  match m_state h with
  | IDLE =>
      bool_decide (m_conn h = None)
      && negb (is_pending (m_disconn_future h))
      && negb (m_prior_sender_sink_hook_func h)
  | CONNECTING | CONNECTED =>
      negb (bool_decide (m_conn h = None))
      && negb (is_pending (m_disconn_future h))
  | DISCONNECTING =>
      negb (bool_decide (m_conn h = None))
      && is_pending (m_disconn_future h)
  end.

(** The handshake of [connect ()] fails: the TCP connection, the sending of
    the connection type or the reception of its echo fails, or the integer
    echoed is not the connection type. *)
Definition handshake_failed (tv : ts_view) (srv_chn : server_channel) : bool :=
  negb (bool_decide (chn_connect srv_chn = NO_ERRORS))
  || negb (bool_decide (chn_send_int srv_chn = NO_ERRORS))
  || negb (bool_decide ((chn_recv_int srv_chn).1 = NO_ERRORS))
  || negb (bool_decide ((chn_recv_int srv_chn).2 = int_wrap (tv_conn_type tv))).

(** Views of an active and of a passive transaction server, and a handshake
    that goes well with them. *)
Definition active_view : ts_view := TsView ACTIVE "db" 1 None.
Definition passive_view : ts_view := TsView PASSIVE "db" 1 None.
Definition good_channel : server_channel := Channel NO_ERRORS NO_ERRORS (NO_ERRORS, 1).
Definition refused_channel : server_channel := Channel CONNECTION_CLOSED NO_ERRORS (NO_ERRORS, 1).
Definition wrong_echo_channel : server_channel := Channel NO_ERRORS NO_ERRORS (NO_ERRORS, 2).

(** ** Invariants *)

(** Weakest precondition of a computation: [Q] holds of the result and the
    state when it runs to completion, [E] of the state at the fault when it
    does not. *)
Definition wp {S A} (m : M S A) (Q : A -> S -> Prop) (E : S -> Prop) (s : S) : Prop :=
  match m s with
  | Ok a s' => Q a s'
  | Fault _ s' => E s'
  end.

(** What holds of a handler whatever the build and the calls: the values
    assigned to its state, from [IDLE] on, only make transitions of the
    table, the last one is its state, and its teardown job is pending only
    while it is disconnecting. *)
Definition trace_inv (h : connection_handler) : Prop :=
  admitted (g_state_writes h) = true /\
  hd IDLE (g_state_writes h) = m_state h /\
  (is_pending (m_disconn_future h) = true -> m_state h = DISCONNECTING).

(** Connect, disconnect, connect again: three calls of the interface. *)
Definition reconnect_while_disconnecting : list call :=
  [call_connect good_channel NULL_LSA;
   call_disconnect_async false;
   call_connect good_channel NULL_LSA].

(** ** Handlers between calls *)

(** The invariant of a handler of a server of a given kind: [handler_inv],
    and the handlers of a passive transaction server are never registered
    with the prior sender. *)
Definition handler_wf (tv : ts_view) (h : connection_handler) : bool :=
  handler_inv h
  && match tv_kind tv with
     | ACTIVE => true
     | PASSIVE => negb (m_prior_sender_sink_hook_func h)
     end.


(** What a part asserts of the state of the handler. *)
Definition part_precondition (a : part) (h : connection_handler) : bool :=
  match a with
  | part_connect_locked _ => bool_decide (m_state h = IDLE)
  | part_receive_catchup_complete => bool_decide (m_state h = CONNECTING)
  | _ => true
  end.

(** Every part of the schedule is run in a state that meets what it
    asserts. *)
Fixpoint parts_respect (ndebug : bool) (tv : ts_view) (l : list part) (h : connection_handler)
  : Prop :=
  match l with
  | [] => True
  | a :: l' =>
      part_precondition a h = true /\ parts_respect ndebug tv l' (final (run_part ndebug tv a h))
  end.


(** The error callback of the receiving thread comes between the two halves
    of [connect ()], and the teardown job it starts runs
    [on_disconnecting ()] before the handler is registered with the prior
    sender. *)
Definition disconnected_while_connecting : list part :=
  [part_connect_locked good_channel;
   part_disconnect_async false;
   part_get_channel_id;
   part_on_disconnecting;
   part_transition_begin;
   part_transition_end NULL_LSA;
   part_stop_incoming_communication_thread;
   part_teardown_locked].

(** ** What the request paths return *)


(** The request [reqid], [p] has been handed to the connection of handler
    [k], once, and to no other handler; and handler [k] is the main
    connection. *)
Definition delivered_to (reqid : tran_to_page_request) (p : payload) (k : nat)
    (ts ts' : tran_server) : Prop :=
  exists h,
    m_page_server_conn_vec ts !! k = Some h /\
    is_connected h = true /\
    m_page_server_conn_vec ts'
    = <[k := record_push (Request reqid p) h]> (m_page_server_conn_vec ts) /\
    m_main_conn ts' = Some k.

(** ** The consensus LSA and the quorum *)

(** The number of connected handlers whose saved LSA is at least [l]: the
    page servers known to have saved the log up to [l]. *)
Definition agreeing (l : log_lsa) (vec : list connection_handler) : nat :=
  List.length (filter (fun conn => is_connected conn && lsa_geb (get_saved_lsa conn) l) vec).

(** ** The consensus LSA over time *)

(** From [vec] to [vec']: every handler that was connected still is, and its
    saved LSA has not gone back. *)
Definition grows (vec vec' : list connection_handler) : Prop :=
  Forall2 (fun h h' => is_connected h = true ->
                       is_connected h' = true /\ lsa_le (get_saved_lsa h) (get_saved_lsa h'))
          vec vec'.

(** ** The nodes registered *)

(** A node that can be connected to: a port in the range of TCP ports, and a
    host name that is not empty and holds no colon and no comma. *)
Definition well_formed_node (n : node) : Prop :=
  1 <= get_port n <= 65535 /\
  get_host n <> EmptyString /\
  find_from ":" (get_host n) 0 = None /\
  find_from "," (get_host n) 0 = None.

(** ** Connecting the handlers of a server *)

(** The state [connect ()] leaves a handler in when the handshake goes well:
    the handler of an active transaction server waits for the catch-up to
    complete, that of a passive one is connected at once. *)
Definition state_after_handshake (kind : server_kind) : state :=
  match kind with
  | ACTIVE => CONNECTING
  | PASSIVE => CONNECTED
  end.

(** [connect ()] can be called on the handlers of the server without
    tripping an assertion of [transition_to_connected]: the server is
    passive, or the prior sender has no unsent log, or there is a main
    connection to name in the catch-up request. *)
Definition connect_ready (ts : tran_server) (unsent : nat -> log_lsa) : Prop :=
  m_kind ts = PASSIVE \/
  (forall i, lsa_is_null (unsent i) = true) \/
  tv_main_connection (view ts) <> None.

(** What a call of [connect ()] makes of the handler [h] of a server seen as
    [tv], [failed] telling whether the handshake failed. *)
Definition connect_result (tv : ts_view) (failed : bool) (h h' : connection_handler) : Prop :=
  m_node h' = m_node h /\
  m_saved_lsa h' = m_saved_lsa h /\
  handler_wf tv h' = true /\
  m_state h' = (if failed then IDLE else state_after_handshake (tv_kind tv)).

(** ** The page-server connector *)

(** What a pass of the connector makes of the handler [h] at index [j]: it
    calls [connect ()] when the handler is idle, and leaves any other handler
    as it is. *)
Definition visited (tv : ts_view) (peers : nat -> server_channel) (j : nat)
    (h h' : connection_handler) : Prop :=
  if is_idle h then connect_result tv (handshake_failed tv (peers j)) h h' else h' = h.

(** Some idle handler among the first [k] has a page server that completes
    the handshake. *)
Definition newly_connectable (tv : ts_view) (peers : nat -> server_channel) (k : nat)
    (vec : list connection_handler) : Prop :=
  exists j h, (j < k)%nat /\ vec !! j = Some h /\ is_idle h = true /\
              handshake_failed tv (peers j) = false.

(** ** Disconnecting from all page servers *)

(** Whether the teardown of a handler sends [SEND_DISCONNECT_MSG] when the
    server disconnects from all page servers: it does for a handler that is
    connected or connecting, and for one that is being disconnected already
    it depends on how that disconnection was asked for. *)
Definition sends_disconnect_msg (h : connection_handler) : bool :=
  match m_state h with
  | CONNECTED | CONNECTING => true
  | DISCONNECTING =>
      match m_disconn_future h with
      | future_pending with_disc_msg => with_disc_msg
      | _ => false
      end
  | IDLE => false
  end.

(** A handler [h] once the server has disconnected from all page servers. *)
Definition disconnected (tv : ts_view) (h h' : connection_handler) : Prop :=
  m_node h' = m_node h /\
  m_saved_lsa h' = m_saved_lsa h /\
  m_state h' = IDLE /\
  m_conn h' = None /\
  m_disconn_future h' = future_invalid /\
  m_prior_sender_sink_hook_func h' = false /\
  g_pushed h'
  = if sends_disconnect_msg h
    then Request SEND_DISCONNECT_MSG (payload_int (int_wrap (tv_conn_type tv))) :: g_pushed h
    else g_pushed h.

(** ** Waiting for the page servers to flush *)

(** At least a quorum of the connected handlers have saved the log up to [l]. *)
Definition quorum_saved (l : log_lsa) (vec : list connection_handler) : Prop :=
  (List.length vec / 2 + 1 <= agreeing l vec)%nat.

(** What holds of the handlers and of the flushed LSA while a thread waits:
    the handlers have only gone forward since [vec0], and the flushed LSA is
    the one the waiter found, [flushed0], or one that a quorum has saved. *)
Definition flush_inv (vec0 : list connection_handler) (flushed0 : log_lsa)
    (w : flush_world) : Prop :=
  grows vec0 (m_page_server_conn_vec (fw_ts w)) /\
  (m_ps_consensus_flushed_lsa (fw_log w) = flushed0 \/
   quorum_saved (m_ps_consensus_flushed_lsa (fw_log w)) (m_page_server_conn_vec (fw_ts w))).

(** ** The handler of asynchronous disconnections *)

(** The handlers that [disconnect ()] has accepted: those given to it before
    [terminate ()] is called. *)
Fixpoint accepted {T} (evs : list (AsyncDisconnectHandler.event T)) : list T :=
  match evs with
  | [] => []
  | AsyncDisconnectHandler.ev_disconnect handler :: evs' => handler :: accepted evs'
  | AsyncDisconnectHandler.ev_loop_step :: evs' => accepted evs'
  | AsyncDisconnectHandler.ev_terminate :: _ => []
  end.

(** The handlers the disconnect handler has been given and has not lost:
    those destroyed, then those of the work buffer, then those of the queue. *)
Definition held {T} (s : AsyncDisconnectHandler.t T) : list T :=
  AsyncDisconnectHandler.g_destroyed s
  ++ AsyncDisconnectHandler.disconnect_work_buffer s
  ++ AsyncDisconnectHandler.m_disconnect_queue s.

(** The work buffer is empty unless the loop is emptying it. *)
Definition buffer_inv {T} (s : AsyncDisconnectHandler.t T) : Prop :=
  AsyncDisconnectHandler.loop s = AsyncDisconnectHandler.at_drain \/
  AsyncDisconnectHandler.disconnect_work_buffer s = [].

(** ** The connector and the main connection *)

(** The daemons of the connector that are alive: those created and not
    destroyed. *)
Definition daemons_alive (c : PsConnector.t) : Z :=
  Z.of_nat (PsConnector.g_created c) - Z.of_nat (PsConnector.g_destroyed c).

(** The connector has one daemon while it runs, and none once terminated. *)
Definition connector_inv (c : PsConnector.t) : Prop :=
  daemons_alive c = if PsConnector.m_terminate c then 0 else 1.

(** * Properties *)

(** ** Running a computation, one step at a time *)

Lemma bind_Ok {S A B} (m : M S A) (k : A -> M S B) s a s' :
  m s = Ok a s' -> bind m k s = k a s'.
Proof. intros H. unfold bind. by rewrite H. Qed.

Lemma bind_Fault {S A B} (m : M S A) (k : A -> M S B) s f s' :
  m s = Fault f s' -> bind m k s = Fault f s'.
Proof. intros H. unfold bind. by rewrite H. Qed.

Ltac bind_step H := rewrite (bind_Ok _ _ _ _ _ H).

Lemma bind_modify {S B} (f : S -> S) (k : unit -> M S B) s :
  bind (modify f) k s = k tt (f s).
Proof. reflexivity. Qed.

Lemma bind_gets {S A B} (f : S -> A) (k : A -> M S B) s :
  bind (gets f) k s = k (f s) s.
Proof. reflexivity. Qed.

Lemma bind_ret {S A B} (a : A) (k : A -> M S B) s :
  bind (ret a) k s = k a s.
Proof. reflexivity. Qed.

Ltac bind_step_refl :=
  first [rewrite bind_modify | rewrite bind_gets | rewrite bind_ret].

(** ** Machine integers *)

Lemma int_wrap_id z : INT_MIN <= z <= INT_MAX -> int_wrap z = z.
Proof.
  unfold int_wrap, INT_MIN, INT_MAX. intros Hz.
  rewrite Z.mod_small by lia. lia.
Qed.

(** ** The order on LSAs *)

Ltac lsa_unfold :=
  unfold lsa_le, lsa_leb, lsa_geb, lsa_gtb, lsa_ltb in *; simpl in *.

Ltac lsa_solve :=
  lsa_unfold;
  repeat match goal with
         | a : log_lsa |- _ => destruct a as [? ?]
         end;
  simpl in *;
  rewrite ?negb_true_iff, ?negb_false_iff, ?orb_true_iff, ?orb_false_iff,
          ?andb_true_iff, ?andb_false_iff in *;
  rewrite ?Z.ltb_lt, ?Z.ltb_ge, ?Z.eqb_eq, ?Z.eqb_neq in *.

Lemma lsa_le_spec a b :
  lsa_le a b <-> pageid a < pageid b \/ (pageid a = pageid b /\ offset a <= offset b).
Proof. lsa_solve. lia. Qed.

Global Instance lsa_le_refl : Reflexive lsa_le.
Proof. intros a. apply lsa_le_spec. lia. Qed.

Global Instance lsa_le_trans : Transitive lsa_le.
Proof. intros a b c. rewrite !lsa_le_spec. lia. Qed.

Global Instance lsa_le_total : Total lsa_le.
Proof. intros a b. rewrite !lsa_le_spec. lia. Qed.

Global Instance lsa_le_antisymm : AntiSymm (=) lsa_le.
Proof.
  intros [p1 o1] [p2 o2]. rewrite !lsa_le_spec. simpl. intros H1 H2.
  f_equal; lia.
Qed.

Lemma lsa_gtb_true a b : lsa_gtb a b = true <-> lsa_le b a /\ a <> b.
Proof.
  rewrite lsa_le_spec. destruct a as [p1 o1], b as [p2 o2].
  unfold lsa_gtb, lsa_ltb. simpl.
  rewrite orb_true_iff, andb_true_iff, !Z.ltb_lt, Z.eqb_eq.
  split.
  - intros H. split; [lia|]. intros [= -> ->]. lia.
  - intros [H Hne].
    destruct (decide (p2 = p1)) as [->|]; [|lia].
    destruct (decide (o2 = o1)) as [->|]; [congruence|lia].
Qed.

Lemma lsa_geb_true a b : lsa_geb a b = true <-> lsa_le b a.
Proof. unfold lsa_le, lsa_leb, lsa_geb, lsa_gtb. tauto. Qed.

(** [std::sort] gives the one ascending arrangement of its input. *)
Lemma std_sort_unique l sorted :
  Sorted lsa_le sorted -> sorted ≡ₚ l -> std_sort l = sorted.
Proof.
  intros Hs Hp. unfold std_sort.
  apply (Sorted_unique lsa_le).
  - apply Sorted_merge_sort; apply _.
  - exact Hs.
  - rewrite merge_sort_Permutation. symmetry. exact Hp.
Qed.

(** ** C1: the consensus LSA *)

Lemma connected_saved_lsa_length vec :
  (List.length (connected_saved_lsa vec) <= List.length vec)%nat.
Proof.
  unfold connected_saved_lsa. rewrite length_fmap. apply length_filter.
Qed.

Lemma collect_saved_lsa_spec vec : forall acc cnt,
  0 <= cnt ->
  cnt + Z.of_nat (List.length vec) <= INT_MAX ->
  ActiveTranServer.collect_saved_lsa vec acc cnt
  = (acc ++ connected_saved_lsa vec,
     cnt + Z.of_nat (List.length (connected_saved_lsa vec))).
Proof.
  induction vec as [|conn vec IH]; intros acc cnt Hcnt Hmax;
    cbn [ActiveTranServer.collect_saved_lsa].
  - unfold connected_saved_lsa. simpl. rewrite app_nil_r. f_equal. lia.
  - cbn [List.length] in Hmax. unfold connected_saved_lsa. rewrite filter_cons.
    destruct (is_connected conn) eqn:Hc.
    + rewrite decide_True by exact I.
      rewrite int_wrap_id by (unfold INT_MIN; lia).
      rewrite IH by lia. rewrite <- app_assoc.
      unfold connected_saved_lsa. rewrite fmap_cons. cbn [List.length app]. f_equal. lia.
    + rewrite decide_False by exact id.
      rewrite IH by lia. reflexivity.
Qed.

Lemma string_length_app s1 s2 :
  String.length (s1 +:+ s2) = (String.length s1 + String.length s2)%nat.
Proof. induction s1 as [|c s1 IH]; simpl; [reflexivity|by f_equal]. Qed.

Lemma snprintf_fits {St} n text (s : St) :
  n <= ActiveTranServer.BUF_SIZE ->
  Z.of_nat (String.length text) <= INT_MAX ->
  snprintf ActiveTranServer.BUF_SIZE n text s = Ok (Z.of_nat (String.length text)) s.
Proof.
  intros Hn Hlen. unfold snprintf.
  destruct (Z.ltb_spec ActiveTranServer.BUF_SIZE n); [lia|].
  unfold ret. rewrite int_wrap_id by (unfold INT_MIN; lia). reflexivity.
Qed.

Lemma print_saved_lsa_fits {St} l : forall n (s : St),
  0 <= n ->
  n + Z.of_nat (String.length (saved_lsa_text l)) <= ActiveTranServer.BUF_SIZE ->
  ActiveTranServer.print_saved_lsa l n s
  = Ok (n + Z.of_nat (String.length (saved_lsa_text l))) s.
Proof.
  unfold ActiveTranServer.BUF_SIZE.
  induction l as [|lsa l IH]; intros n s Hn Hfit;
    cbn [ActiveTranServer.print_saved_lsa saved_lsa_text] in Hfit |- *.
  - cbn. unfold ret. f_equal. lia.
  - rewrite !string_length_app in Hfit |- *.
    change (String.length " ") with 1%nat in Hfit |- *.
    rewrite (bind_Ok _ _ _ _ _ (snprintf_fits n (printf_lsa lsa +:+ " ") s
                                  ltac:(unfold ActiveTranServer.BUF_SIZE; lia)
                                  ltac:(rewrite string_length_app; cbn [String.length];
                                        unfold INT_MAX; lia))).
    rewrite string_length_app. change (String.length " ") with 1%nat.
    rewrite int_wrap_id by (unfold INT_MIN, INT_MAX; lia).
    rewrite IH by lia. f_equal. lia.
Qed.

(** The message that the code builds, as a text. *)
Definition log_text (quorum_not_met : bool) (total_node_cnt cur_node_cnt quorum : Z)
    (consensus_lsa : log_lsa) (collected_saved_lsa : list log_lsa) : string :=
  "compute_consensus_lsa - "
  +:+ ("Quorum " +:+ (if quorum_not_met then "un" else EmptyString) +:+ "satisfied: ")
  +:+ ("total node count = " +:+ printf_d total_node_cnt
       +:+ ", current node count = " +:+ printf_d cur_node_cnt
       +:+ ", quorum = " +:+ printf_d quorum
       +:+ ", consensus LSA = " +:+ printf_lsa consensus_lsa +:+ newline)
  +:+ "Collected saved lsa list = [ "
  +:+ saved_lsa_text collected_saved_lsa.

Lemma log_quorum_consensus_fits {St} ndebug quorum_not_met total cur quorum c l (s : St) :
  Z.of_nat (String.length (log_text quorum_not_met total cur quorum c l))
  < ActiveTranServer.BUF_SIZE ->
  ActiveTranServer.log_quorum_consensus ndebug quorum_not_met total cur quorum c l s = Ok tt s.
Proof.
  unfold log_text, ActiveTranServer.log_quorum_consensus.
  set (t2 := "Quorum " +:+ _ +:+ "satisfied: ").
  set (t3 := "total node count = " +:+ _).
  rewrite !string_length_app.
  change (String.length "compute_consensus_lsa - ") with 24%nat.
  change (String.length "Collected saved lsa list = [ ") with 29%nat.
  clearbody t2 t3. intros Hfit. unfold ActiveTranServer.BUF_SIZE in Hfit.
  set (n2 := Z.of_nat (String.length t2)).
  set (n3 := Z.of_nat (String.length t3)).
  set (nl := Z.of_nat (String.length (saved_lsa_text l))).
  assert (Hn : 0 <= n2 /\ 0 <= n3 /\ 0 <= nl /\ 24 + n2 + n3 + 29 + nl < 1024)
    by (clear -Hfit; unfold n2, n3, nl; lia).
  clear Hfit.
  assert (E1 : snprintf ActiveTranServer.BUF_SIZE 0 "compute_consensus_lsa - " s = Ok 24 s)
    by reflexivity.
  assert (E2 : snprintf ActiveTranServer.BUF_SIZE 24 t2 s = Ok n2 s).
  { apply snprintf_fits; clear -Hn; unfold ActiveTranServer.BUF_SIZE, INT_MAX; fold n2; lia. }
  assert (W2 : int_wrap (24 + n2) = 24 + n2).
  { apply int_wrap_id. clear -Hn. unfold INT_MIN, INT_MAX. lia. }
  assert (E3 : snprintf ActiveTranServer.BUF_SIZE (24 + n2) t3 s = Ok n3 s).
  { apply snprintf_fits; clear -Hn; unfold ActiveTranServer.BUF_SIZE, INT_MAX; fold n3; lia. }
  assert (W3 : int_wrap (24 + n2 + n3) = 24 + n2 + n3).
  { apply int_wrap_id. clear -Hn. unfold INT_MIN, INT_MAX. lia. }
  assert (E4 : snprintf ActiveTranServer.BUF_SIZE (24 + n2 + n3)
                 "Collected saved lsa list = [ " s = Ok 29 s).
  { apply (snprintf_fits (24 + n2 + n3) "Collected saved lsa list = [ " s);
      clear -Hn; unfold ActiveTranServer.BUF_SIZE, INT_MAX; cbn [String.length]; lia. }
  assert (W4 : int_wrap (24 + n2 + n3 + 29) = 24 + n2 + n3 + 29).
  { apply int_wrap_id. clear -Hn. unfold INT_MIN, INT_MAX. lia. }
  assert (E5 : ActiveTranServer.print_saved_lsa l (24 + n2 + n3 + 29) s
               = Ok (24 + n2 + n3 + 29 + nl) s).
  { apply print_saved_lsa_fits; clear -Hn; unfold ActiveTranServer.BUF_SIZE; fold nl; lia. }
  assert (E6 : snprintf ActiveTranServer.BUF_SIZE (24 + n2 + n3 + 29 + nl) ("]" +:+ newline) s
               = Ok 2 s).
  { unfold snprintf, ActiveTranServer.BUF_SIZE.
    destruct (Z.ltb_spec 1024 (24 + n2 + n3 + 29 + nl)) as [Hlt|_];
      [clear -Hn Hlt; lia|reflexivity]. }
  rewrite (bind_Ok _ _ _ _ _ E1), (bind_Ok _ _ _ _ _ E2). cbn zeta. rewrite W2.
  rewrite (bind_Ok _ _ _ _ _ E3), W3, (bind_Ok _ _ _ _ _ E4), W4.
  rewrite (bind_Ok _ _ _ _ _ E5), (bind_Ok _ _ _ _ _ E6).
  unfold assert, ActiveTranServer.BUF_SIZE.
  destruct (Z.ltb_spec (24 + n2 + n3 + 29 + nl) 1024) as [|Hge];
    [|clear -Hn Hge; lia].
  by rewrite orb_true_r.
Qed.

Lemma snprintf_state {St} size n text (s : St) :
  final (snprintf size n text s) = s.
Proof. unfold snprintf. by destruct (size <? n). Qed.

Lemma bind_state {St A B} (m : M St A) (k : A -> M St B) s :
  final (m s) = s -> (forall a, final (k a s) = s) -> final (bind m k s) = s.
Proof.
  unfold bind. destruct (m s) as [a s'|f s']; cbn; intros ->; [by intros ->|done].
Qed.

Lemma print_saved_lsa_state {St} l : forall n (s : St),
  final (ActiveTranServer.print_saved_lsa l n s) = s.
Proof.
  induction l as [|lsa l IH]; intros n s; cbn [ActiveTranServer.print_saved_lsa];
    [reflexivity|].
  apply bind_state; [apply snprintf_state|]. intros k. apply IH.
Qed.

(** The logging block leaves the server as it is, whether it completes or
    not. *)
Lemma log_quorum_consensus_state {St} ndebug quorum_not_met total cur quorum c l (s : St) :
  final (ActiveTranServer.log_quorum_consensus ndebug quorum_not_met total cur quorum c l s) = s.
Proof.
  unfold ActiveTranServer.log_quorum_consensus.
  repeat (apply bind_state; [first [apply snprintf_state|apply print_saved_lsa_state]|intros ?]).
  unfold assert. by destruct (_ || _).
Qed.

(** What the function computes, whatever it logs: with [N] handlers, the
    quorum [q] and the collected LSAs [S], the quorum test and the element of
    the sorted vector. *)
Lemma compute_consensus_lsa_unfold ndebug er_log ts :
  Z.of_nat (List.length (m_page_server_conn_vec ts)) <= INT_MAX ->
  let N := List.length (m_page_server_conn_vec ts) in
  let q := (N / 2 + 1)%nat in
  let S := connected_saved_lsa (m_page_server_conn_vec ts) in
  ActiveTranServer.compute_consensus_lsa ndebug er_log ts
  = if (q <=? List.length S)%nat
    then match std_sort S !! (List.length S - q)%nat with
         | Some c =>
             (do _ <- (if er_log
                       then ActiveTranServer.log_quorum_consensus ndebug false (Z.of_nat N)
                              (Z.of_nat (List.length S)) (Z.of_nat q) c (std_sort S)
                       else ret tt);
              ret c) ts
         | None => Fault out_of_range ts
         end
    else
      (do _ <- (if er_log
                then ActiveTranServer.log_quorum_consensus ndebug true (Z.of_nat N)
                       (Z.of_nat (List.length S)) (Z.of_nat q) NULL_LSA (std_sort S)
                else ret tt);
       ret NULL_LSA) ts.
Proof.
  intros Hmax N q S.
  assert (HSN : (List.length S <= N)%nat) by apply connected_saved_lsa_length.
  assert (Hq : Z.of_nat N `quot` 2 + 1 = Z.of_nat q).
  { unfold q. rewrite Z.quot_div_nonneg by lia.
    rewrite Nat2Z.inj_add, (Nat2Z.inj_div N 2). reflexivity. }
  assert (HqM : Z.of_nat q <= INT_MAX).
  { destruct (decide (N = 0%nat)) as [HN0|HN0].
    - unfold q. rewrite HN0. simpl. unfold INT_MAX. lia.
    - unfold q in *. rewrite <- Hq in *. rewrite Z.quot_div_nonneg in * by lia.
      assert (Z.of_nat N / 2 < Z.of_nat N) by (apply Z.div_lt; lia). lia. }
  unfold ActiveTranServer.compute_consensus_lsa. rewrite bind_gets. fold N.
  rewrite (int_wrap_id (Z.of_nat N)) by (unfold INT_MIN; lia).
  rewrite Hq.
  rewrite (int_wrap_id (Z.of_nat q)) by (unfold INT_MIN; lia).
  rewrite collect_saved_lsa_spec by (fold N; lia).
  cbn beta iota. rewrite !Z.add_0_l, app_nil_l. fold S.
  destruct (Z.ltb_spec (Z.of_nat (List.length S)) (Z.of_nat q)) as [Hlt|Hge].
  - destruct (Nat.leb_spec q (List.length S)); [lia|].
    rewrite bind_ret. by destruct er_log.
  - destruct (Nat.leb_spec q (List.length S)); [|lia].
    rewrite int_wrap_id by (unfold INT_MIN; lia).
    unfold vector_at.
    destruct (Z.ltb_spec (Z.of_nat (List.length S) - Z.of_nat q) 0); [lia|].
    replace (Z.to_nat (Z.of_nat (List.length S) - Z.of_nat q))
      with (List.length S - q)%nat by lia.
    destruct (std_sort S !! (List.length S - q)%nat) as [c|]; reflexivity.
Qed.

Lemma std_sort_length l : List.length (std_sort l) = List.length l.
Proof. unfold std_sort. by rewrite merge_sort_Permutation. Qed.

(** With the message for the log fitting its buffer (or none to build), the
    function returns, and the server is as before. *)
Lemma compute_consensus_lsa_fits ndebug er_log ts :
  Z.of_nat (List.length (m_page_server_conn_vec ts)) <= INT_MAX ->
  log_fits er_log (m_page_server_conn_vec ts) ->
  let N := List.length (m_page_server_conn_vec ts) in
  let q := (N / 2 + 1)%nat in
  let S := connected_saved_lsa (m_page_server_conn_vec ts) in
  ActiveTranServer.compute_consensus_lsa ndebug er_log ts
  = Ok (if (q <=? List.length S)%nat
        then default NULL_LSA (std_sort S !! (List.length S - q)%nat)
        else NULL_LSA) ts.
Proof.
  intros Hmax Hfit N q S. rewrite compute_consensus_lsa_unfold by exact Hmax.
  fold N q S. unfold log_fits, quorum_log in Hfit. fold N S q in Hfit.
  rewrite std_sort_length in Hfit.
  destruct (Nat.leb_spec q (List.length S)) as [Hge|Hlt].
  - destruct (lookup_lt_is_Some_2 (std_sort S) (List.length S - q)%nat) as [c Hc].
    { rewrite std_sort_length. lia. }
    rewrite Hc in Hfit |- *. cbn [default] in Hfit |- *.
    destruct er_log; [|reflexivity].
    destruct Hfit as [|Hfit]; [discriminate|].
    rewrite (bind_Ok _ _ _ _ _ (log_quorum_consensus_fits ndebug false _ _ _ c _ ts Hfit)).
    reflexivity.
  - destruct er_log; [|reflexivity].
    destruct Hfit as [|Hfit]; [discriminate|].
    rewrite (bind_Ok _ _ _ _ _ (log_quorum_consensus_fits ndebug true _ _ _ NULL_LSA _ ts Hfit)).
    reflexivity.
Qed.

(** Whenever the function returns, it returns that value, and the server is
    as before. *)
Lemma compute_consensus_lsa_returns ndebug er_log ts c ts' :
  Z.of_nat (List.length (m_page_server_conn_vec ts)) <= INT_MAX ->
  ActiveTranServer.compute_consensus_lsa ndebug er_log ts = Ok c ts' ->
  ts' = ts /\
  ActiveTranServer.compute_consensus_lsa ndebug false ts = Ok c ts.
Proof.
  intros Hmax. rewrite !compute_consensus_lsa_unfold by exact Hmax. cbn zeta.
  set (log1 := ActiveTranServer.log_quorum_consensus ndebug false _ _ _).
  set (log2 := ActiveTranServer.log_quorum_consensus ndebug true _ _ _ _ _).
  destruct (_ <=? _)%nat.
  - destruct (std_sort _ !! _) as [c0|]; [|discriminate].
    destruct er_log; [|by intros [= <- <-]].
    pose proof (log_quorum_consensus_state ndebug false
                  (Z.of_nat (List.length (m_page_server_conn_vec ts)))
                  (Z.of_nat (List.length (connected_saved_lsa (m_page_server_conn_vec ts))))
                  (Z.of_nat (List.length (m_page_server_conn_vec ts) / 2 + 1)) c0
                  (std_sort (connected_saved_lsa (m_page_server_conn_vec ts))) ts) as Hst.
    fold log1 in Hst. unfold bind. destruct (log1 c0 _ ts) as [[] s1|]; [|discriminate].
    cbn in Hst. subst s1. by intros [= <- <-].
  - destruct er_log; [|by intros [= <- <-]].
    pose proof (log_quorum_consensus_state ndebug true
                  (Z.of_nat (List.length (m_page_server_conn_vec ts)))
                  (Z.of_nat (List.length (connected_saved_lsa (m_page_server_conn_vec ts))))
                  (Z.of_nat (List.length (m_page_server_conn_vec ts) / 2 + 1)) NULL_LSA
                  (std_sort (connected_saved_lsa (m_page_server_conn_vec ts))) ts) as Hst.
    fold log2 in Hst. unfold bind. destruct (log2 ts) as [[] s1|]; [|discriminate].
    cbn in Hst. subst s1. by intros [= <- <-].
Qed.

(** C1. With the logging of the quorum on and a hundred connected handlers
    that have saved the log up to 123456789|0, the quorum (51) is met, and
    [compute_consensus_lsa] does not return the element at index 49 of the
    sorted LSAs: the message it builds for the log outgrows [msg_buf] at the
    73rd LSA, after which [snprintf] is given a pointer past the end of the
    buffer and a size below zero, in either build. With 72 such handlers the
    message is exactly [BUF_SIZE] characters long and, in a build with
    assertions, [assert (n < BUF_SIZE)] fails. *)
Theorem compute_consensus_lsa_log_overrun :
  List.length (m_page_server_conn_vec (crowded_server 100)) = 100%nat /\
  std_sort (connected_saved_lsa (m_page_server_conn_vec (crowded_server 100))) !! 49%nat
  = Some (LSA 123456789 0) /\
  ActiveTranServer.compute_consensus_lsa false true (crowded_server 100)
  = Fault out_of_range (crowded_server 100) /\
  ActiveTranServer.compute_consensus_lsa true true (crowded_server 100)
  = Fault out_of_range (crowded_server 100) /\
  ActiveTranServer.compute_consensus_lsa true false (crowded_server 100)
  = Ok (LSA 123456789 0) (crowded_server 100) /\
  Z.of_nat (String.length (quorum_log (m_page_server_conn_vec (crowded_server 72))))
  = ActiveTranServer.BUF_SIZE /\
  ActiveTranServer.compute_consensus_lsa false true (crowded_server 72)
  = Fault assertion_failure (crowded_server 72).
Proof.
  split; [vm_compute; reflexivity|]. split; [vm_compute; reflexivity|].
  split; [vm_compute; reflexivity|]. split; [vm_compute; reflexivity|].
  split; [vm_compute; reflexivity|]. split; vm_compute; reflexivity.
Qed.

(** ** C2: parsing the hosts string *)

Lemma find_from_shift c s : forall k,
  find_from c s (S k) = S <$> find_from c s k.
Proof.
  induction s as [|c' s IH]; intros k; simpl; [reflexivity|].
  destruct (bool_decide (c' = c)); [reflexivity|]. apply IH.
Qed.

Lemma find_from_bound c s i :
  find_from c s 0 = Some i -> (i < String.length s)%nat.
Proof.
  revert i. induction s as [|c' s IH]; intros i; simpl; [discriminate|].
  destruct (bool_decide (c' = c)).
  - intros [= <-]. lia.
  - rewrite find_from_shift. destruct (find_from c s 0) as [j|]; [|discriminate].
    intros [= <-]. specialize (IH j eq_refl). lia.
Qed.

Lemma substring_0_length s : String.substring 0 (String.length s) s = s.
Proof. induction s as [|c s IH]; simpl; [reflexivity|]. by rewrite IH. Qed.

(** Without a comma the string is its only token. *)
Lemma tokens_no_comma s :
  find_from "," s 0 = None -> tokens s = [s].
Proof.
  induction s as [|c s IH]; simpl; [reflexivity|].
  destruct (bool_decide (c = ","%char)); [discriminate|].
  rewrite find_from_shift. destruct (find_from "," s 0); [discriminate|].
  intros _. by rewrite IH.
Qed.

(** With a first comma at position [i], the first token is what precedes it,
    and the other tokens are those of what follows it. *)
Lemma tokens_comma s i :
  find_from "," s 0 = Some i ->
  tokens s = String.substring 0 i s
             :: tokens (String.substring (S i) (String.length s - S i) s).
Proof.
  revert i. induction s as [|c s IH]; intros i; simpl; [discriminate|].
  destruct (bool_decide (c = ","%char)).
  - intros [= <-]. cbn [String.substring]. rewrite Nat.sub_0_r.
    by rewrite substring_0_length.
  - rewrite find_from_shift. destruct (find_from "," s 0) as [j|] eqn:Hj; [|discriminate].
    intros [= <-]. rewrite (IH j eq_refl). simpl. reflexivity.
Qed.

Lemma substring_length_le n m s :
  (String.length (String.substring n m s) <= m)%nat.
Proof.
  revert n m. induction s as [|c s IH]; intros [|n] [|m]; simpl; try lia.
  - specialize (IH 0%nat m). lia.
  - apply IH.
  - apply IH.
Qed.

Lemma find_Z s c :
  Z.of_nat (String.length s) < SIZE_MAX ->
  match find_from c s 0 with
  | Some i => find s c = Z.of_nat i /\ (i < String.length s)%nat
  | None => find s c = npos
  end.
Proof.
  intros Hlen. unfold find. destruct (find_from c s 0) as [i|] eqn:Hi; [|reflexivity].
  split; [reflexivity|]. by apply (find_from_bound c).
Qed.

(** The check on the position of the colon, with its unsigned arithmetic, is
    the check of the parsing rules. *)
Lemma colon_check_spec s :
  Z.of_nat (String.length s) < SIZE_MAX ->
  (find s ":" <? 1) || (find s ":" >=? size_t_wrap (Z.of_nat (String.length s) - 1))
  = colon_misplaced s.
Proof.
  intros Hlen. unfold colon_misplaced.
  pose proof (find_Z s ":" Hlen) as Hf.
  destruct (find_from ":" s 0) as [i|].
  - destruct Hf as [-> Hi]. unfold size_t_wrap, SIZE_MAX in *.
    rewrite Z.mod_small by lia.
    destruct (Nat.eqb_spec i 0), (Nat.eqb_spec (S i) (String.length s)),
      (Z.ltb_spec (Z.of_nat i) 1), (Z.geb_spec (Z.of_nat i) (Z.of_nat (String.length s) - 1));
      simpl; try reflexivity; lia.
  - rewrite Hf. unfold npos, size_t_wrap, SIZE_MAX in *.
    destruct (decide (String.length s = 0%nat)) as [H0|H0].
    + rewrite H0. reflexivity.
    + rewrite Z.mod_small by lia.
      destruct (Z.geb_spec 18446744073709551615 (Z.of_nat (String.length s) - 1)); [|lia].
      reflexivity.
Qed.

(** [register_connection_handler] registers the node the parsing rules read
    in the token, and nothing when they reject it. *)
Lemma register_connection_handler_spec t ts :
  Z.of_nat (String.length t) < SIZE_MAX ->
  TranServer.register_connection_handler t ts
  = match parse_host_port t with
    | Some n => Ok NO_ERROR (with_nodes [n] ts)
    | None => Ok ER_HOST_PORT_PARAMETER ts
    end.
Proof.
  intros Hlen. unfold TranServer.register_connection_handler.
  rewrite (colon_check_spec t Hlen).
  unfold colon_misplaced, parse_host_port.
  pose proof (find_Z t ":" Hlen) as Hf.
  destruct (find_from ":" t 0) as [i|]; [|reflexivity].
  destruct Hf as [Hf Hi].
  destruct ((i =? 0)%nat || (S i =? String.length t)%nat); [reflexivity|].
  rewrite Hf. unfold substr_from, substr.
  replace (Z.to_nat (Z.of_nat i + 1)) with (S i) by lia.
  rewrite Nat2Z.id. change (Z.to_nat 0) with 0%nat.
  destruct (stoi _) as [port|]; [|reflexivity].
  unfold USHRT_MAX.
  destruct (Z.ltb_spec port 1), (Z.gtb_spec port 65535),
    (Z.leb_spec 1 port), (Z.leb_spec port 65535); simpl; try lia; reflexivity.
Qed.

Lemma register_connection_handlers_loop_spec fuel : forall hosts exit_code ts,
  Z.of_nat (String.length hosts) < SIZE_MAX ->
  (String.length hosts < fuel)%nat ->
  TranServer.register_connection_handlers_loop fuel hosts exit_code ts
  = Some (register_each (tokens hosts) exit_code ts).
Proof.
  induction fuel as [|fuel IH]; intros hosts exit_code ts Hlen Hfuel; [lia|].
  cbn [TranServer.register_connection_handlers_loop].
  pose proof (find_Z hosts "," Hlen) as Hf.
  destruct (find_from "," hosts 0) as [i|] eqn:Hi.
  - destruct Hf as [Hf Hil]. rewrite Hf.
    assert (Hne : (Z.of_nat i =? npos) = false).
    { apply Z.eqb_neq. unfold npos, SIZE_MAX in *. lia. }
    rewrite Hne. cbn [negb].
    rewrite (tokens_comma hosts i Hi). cbn [register_each]. unfold bind at 1.
    unfold substr, erase_front, substr_from.
    change (Z.to_nat 0) with 0%nat. rewrite Nat2Z.id.
    replace (Z.to_nat (Z.of_nat i + 1)) with (S i) by lia.
    destruct (TranServer.register_connection_handler _ ts) as [e ts'|f ts']; [|reflexivity].
    pose proof (substring_length_le (S i) (String.length hosts - S i) hosts).
    apply IH; lia.
  - rewrite Hf. rewrite Z.eqb_refl. cbn [negb].
    rewrite (tokens_no_comma hosts Hi). cbn [register_each]. unfold bind, ret.
    destruct (TranServer.register_connection_handler hosts ts); reflexivity.
Qed.

Lemma tokens_length_le s t :
  t ∈ tokens s -> (String.length t <= String.length s)%nat.
Proof.
  revert t. induction s as [|c s IH]; intros t; simpl.
  - intros ->%list_elem_of_singleton. simpl. lia.
  - destruct (bool_decide (c = ","%char)).
    + intros [->|Hin]%elem_of_cons; simpl; [lia|]. specialize (IH t Hin). lia.
    + destruct (tokens s) as [|t0 ts'] eqn:Htok.
      * intros ->%list_elem_of_singleton. simpl. lia.
      * intros [->|Hin]%elem_of_cons; simpl.
        -- specialize (IH t0 (list_elem_of_here _ _)). lia.
        -- specialize (IH t (list_elem_of_further _ _ _ Hin)). lia.
Qed.

Lemma with_nodes_app ns1 ns2 ts :
  with_nodes ns2 (with_nodes ns1 ts) = with_nodes (ns1 ++ ns2) ts.
Proof.
  unfold with_nodes, set_m_page_server_conn_vec. simpl.
  by rewrite fmap_app, app_assoc.
Qed.

Lemma with_nodes_nil ts : with_nodes [] ts = ts.
Proof.
  unfold with_nodes, set_m_page_server_conn_vec. simpl. rewrite app_nil_r.
  by destruct ts.
Qed.

(** Every token is looked at: the nodes registered are those of the tokens
    the rules accept, and the exit code tells whether one was rejected. *)
Lemma register_each_spec toks : forall exit_code ts,
  (forall t, t ∈ toks -> Z.of_nat (String.length t) < SIZE_MAX) ->
  register_each toks exit_code ts
  = Ok (if forallb (fun t => bool_decide (is_Some (parse_host_port t))) toks
        then exit_code else ER_HOST_PORT_PARAMETER)
       (with_nodes (omap parse_host_port toks) ts).
Proof.
  induction toks as [|t toks IH]; intros exit_code ts Hlen.
  - simpl. by rewrite with_nodes_nil.
  - cbn [register_each]. unfold bind at 1.
    rewrite register_connection_handler_spec by (apply Hlen; left).
    cbn [omap forallb].
    destruct (parse_host_port t) as [n|] eqn:Hn.
    + rewrite (bool_decide_true (is_Some (Some n))) by eauto.
      rewrite IH by (intros; apply Hlen; by right).
      rewrite with_nodes_app. simpl. rewrite Hn. reflexivity.
    + rewrite (bool_decide_false (is_Some None)) by (intros [? [=]]).
      rewrite IH by (intros; apply Hlen; by right).
      simpl. rewrite Hn. by destruct (forallb _ toks).
Qed.

(** C2 (amended). The hosts string as a whole first has to pass the check on
    the position of the colon: when its first colon is missing, at position 0
    or at the last character, the string is rejected at once and nothing is
    registered. Otherwise every comma-separated token is looked at, the
    rejection of one token does not stop the processing of those after it:
    the handlers registered are those of all the tokens the rules accept, in
    order, and the exit code is [ER_HOST_PORT_PARAMETER] when a token was
    rejected. *)
Theorem register_connection_handlers_tokens (hosts : string) (ts : tran_server) :
  Z.of_nat (String.length hosts) < SIZE_MAX ->
  TranServer.register_connection_handlers hosts ts
  = Some (if colon_misplaced hosts
          then Ok ER_HOST_PORT_PARAMETER ts
          else Ok (if forallb (fun t => bool_decide (is_Some (parse_host_port t))) (tokens hosts)
                   then NO_ERROR else ER_HOST_PORT_PARAMETER)
                  (with_nodes (omap parse_host_port (tokens hosts)) ts)).
Proof.
  intros Hlen. unfold TranServer.register_connection_handlers.
  rewrite (colon_check_spec hosts Hlen).
  destruct (colon_misplaced hosts); [reflexivity|].
  rewrite register_connection_handlers_loop_spec by (trivial; lia).
  rewrite register_each_spec; [reflexivity|].
  intros t Ht. apply tokens_length_le in Ht. lia.
Qed.

Lemma register_connection_handlers_tokens_witness :
  TranServer.register_connection_handlers "a:1,b:-1,c:99999,d:20" (empty_server ACTIVE)
  = Some (Ok ER_HOST_PORT_PARAMETER
             (with_nodes [Node 1 "a"; Node 20 "d"] (empty_server ACTIVE))) /\
  TranServer.register_connection_handlers ":80,a:1,b:-1,c:99999,d:20" (empty_server ACTIVE)
  = Some (Ok ER_HOST_PORT_PARAMETER (empty_server ACTIVE)) /\
  TranServer.register_connection_handlers "a:1,b:2,c:3" (empty_server ACTIVE)
  = Some (Ok NO_ERROR (with_nodes [Node 1 "a"; Node 2 "b"; Node 3 "c"] (empty_server ACTIVE))).
Proof.
  refine (conj (register_connection_handlers_tokens _ _ _)
            (conj (register_connection_handlers_tokens _ _ _)
               (register_connection_handlers_tokens _ _ _))); reflexivity.
Defined.

(** Parsing [":80,a:1,b:-1,c:99999,d:20"] does not register exactly one
    handler for the node (a, 1): the string starts with a colon, so it is
    rejected as a whole and no handler is registered. *)
Lemma register_connection_handlers_counterexample :
  ~ (exists e ts',
        TranServer.register_connection_handlers ":80,a:1,b:-1,c:99999,d:20"
          (empty_server ACTIVE) = Some (Ok e ts') /\
        m_node <$> m_page_server_conn_vec ts' = [Node 1 "a"]).
Proof.
  intros (e & ts' & Hrun & Hnodes).
  vm_compute in Hrun. injection Hrun as <- <-. discriminate Hnodes.
Qed.

(** ** C3, C10: rotation of the main connection *)

Lemma set_m_page_server_conn_vec_id ts :
  set_m_page_server_conn_vec (m_page_server_conn_vec ts) ts = ts.
Proof. by destruct ts. Qed.

Lemma set_m_main_conn_id ts : set_m_main_conn (m_main_conn ts) ts = ts.
Proof. by destruct ts. Qed.

Lemma reset_main_connection_none ts :
  (forall conn, conn ∈ m_page_server_conn_vec ts -> is_connected conn = false) ->
  TranServer.reset_main_connection ts = Ok ER_CONN_NO_PAGE_SERVER_AVAILABLE ts.
Proof.
  intros Hnone. unfold TranServer.reset_main_connection, bind, gets.
  destruct (list_find _ _) as [[i conn]|] eqn:Hfind; [|reflexivity].
  apply list_find_Some in Hfind as (Hi & Hc & _).
  apply list_elem_of_lookup_2 in Hi. rewrite (Hnone conn Hi) in Hc. destruct Hc.
Qed.

Lemma reset_main_connection_some ts i conn :
  m_page_server_conn_vec ts !! i = Some conn ->
  is_connected conn = true ->
  (forall j conn', (j < i)%nat -> m_page_server_conn_vec ts !! j = Some conn' ->
                   is_connected conn' = false) ->
  TranServer.reset_main_connection ts = Ok NO_ERROR (set_m_main_conn (Some i) ts).
Proof.
  intros Hi Hc Hfirst. unfold TranServer.reset_main_connection, bind, gets.
  assert (Hfind : list_find (fun conn => is_connected conn) (m_page_server_conn_vec ts)
                  = Some (i, conn)).
  { apply list_find_Some. split_and!; [done|by rewrite Hc|].
    intros j conn' Hj Hlt Hc'. rewrite (Hfirst j conn' Hlt Hj) in Hc'. destruct Hc'. }
  rewrite Hfind. destruct (decide (m_main_conn ts = Some i)) as [Heq|Hne].
  - rewrite bool_decide_true by done. simpl. unfold ret.
    rewrite <- Heq. by rewrite set_m_main_conn_id.
  - rewrite bool_decide_false by done. reflexivity.
Qed.

(** C3 (amended). [reset_main_connection] selects as main connection the
    first handler, in registration order, that is connected. When no handler
    is connected it returns [ER_CONN_NO_PAGE_SERVER_AVAILABLE] and leaves the
    main-connection pointer as it was. *)
Theorem reset_main_connection_first_connected (ts : tran_server) :
  (forall i conn,
      m_page_server_conn_vec ts !! i = Some conn ->
      is_connected conn = true ->
      (forall j conn', (j < i)%nat -> m_page_server_conn_vec ts !! j = Some conn' ->
                       is_connected conn' = false) ->
      TranServer.reset_main_connection ts = Ok NO_ERROR (set_m_main_conn (Some i) ts)) /\
  ((forall conn, conn ∈ m_page_server_conn_vec ts -> is_connected conn = false) ->
   exists ts',
     TranServer.reset_main_connection ts = Ok ER_CONN_NO_PAGE_SERVER_AVAILABLE ts' /\
     m_main_conn ts' = m_main_conn ts).
Proof.
  split.
  - apply reset_main_connection_some.
  - intros Hnone. exists ts. split; [|reflexivity].
    by apply reset_main_connection_none.
Qed.

Lemma reset_main_connection_first_connected_witness :
  TranServer.reset_main_connection (example_server_in [IDLE; CONNECTED; CONNECTED] None)
  = Ok NO_ERROR (example_server_in [IDLE; CONNECTED; CONNECTED] (Some 1%nat)) /\
  TranServer.reset_main_connection (example_server_in [CONNECTED; DISCONNECTING; CONNECTED] (Some 1%nat))
  = Ok NO_ERROR (example_server_in [CONNECTED; DISCONNECTING; CONNECTED] (Some 0%nat)) /\
  exists ts',
    TranServer.reset_main_connection (example_server_in [IDLE; DISCONNECTING] (Some 1%nat))
    = Ok ER_CONN_NO_PAGE_SERVER_AVAILABLE ts' /\
    m_main_conn ts' = Some 1%nat.
Proof.
  split; [|split].
  - apply (proj1 (reset_main_connection_first_connected
                    (example_server_in [IDLE; CONNECTED; CONNECTED] None))
             1%nat (example_handler CONNECTED NULL_LSA)); [reflexivity|reflexivity|].
    intros [|j] conn' Hj; [|lia]. intros [= <-]. reflexivity.
  - apply (proj1 (reset_main_connection_first_connected
                    (example_server_in [CONNECTED; DISCONNECTING; CONNECTED] (Some 1%nat)))
             0%nat (example_handler CONNECTED NULL_LSA)); [reflexivity|reflexivity|].
    intros j conn' Hj. lia.
  - apply (proj2 (reset_main_connection_first_connected
                    (example_server_in [IDLE; DISCONNECTING] (Some 1%nat)))).
    intros conn Hin. vm_compute in Hin.
    apply elem_of_cons in Hin as [->|Hin]; [reflexivity|].
    apply list_elem_of_singleton in Hin as ->. reflexivity.
Defined.

(** With no handler connected and a main connection selected earlier,
    [reset_main_connection] does not set the main-connection pointer to
    null: it still points to the handler selected earlier. *)
Lemma reset_main_connection_counterexample :
  (forall conn, conn ∈ m_page_server_conn_vec (example_server_in [IDLE; DISCONNECTING] (Some 1%nat)) ->
                is_connected conn = false) /\
  ~ (m_main_conn (final (TranServer.reset_main_connection
                           (example_server_in [IDLE; DISCONNECTING] (Some 1%nat)))) = None).
Proof.
  split.
  - intros conn Hin. vm_compute in Hin.
    apply elem_of_cons in Hin as [->|Hin]; [reflexivity|].
    apply list_elem_of_singleton in Hin as ->. reflexivity.
  - vm_compute. discriminate.
Qed.

Lemma is_connected_false_state conn :
  is_connected conn = false -> bool_decide (m_state conn = CONNECTED) = false.
Proof. done. Qed.

Lemma at_handler_push_request_not_connected ts i conn reqid p :
  m_page_server_conn_vec ts !! i = Some conn ->
  is_connected conn = false ->
  at_handler i (push_request reqid p) ts = Ok ER_CONN_PAGE_SERVER_CANNOT_BE_REACHED ts.
Proof.
  intros Hi Hc. unfold at_handler. rewrite Hi.
  unfold push_request, bind, gets. rewrite (is_connected_false_state _ Hc). simpl.
  rewrite list_insert_id by done. by rewrite set_m_page_server_conn_vec_id.
Qed.

Lemma at_handler_send_receive_not_connected ts i conn reqid p reply :
  m_page_server_conn_vec ts !! i = Some conn ->
  is_connected conn = false ->
  at_handler i (send_receive reqid p reply) ts
  = Ok (ER_CONN_PAGE_SERVER_CANNOT_BE_REACHED, None) ts.
Proof.
  intros Hi Hc. unfold at_handler. rewrite Hi.
  unfold send_receive, bind, gets. rewrite (is_connected_false_state _ Hc). simpl.
  rewrite list_insert_id by done. by rewrite set_m_page_server_conn_vec_id.
Qed.

Lemma at_handler_gets {A} ts i conn (f : connection_handler -> A) :
  m_page_server_conn_vec ts !! i = Some conn ->
  at_handler i (gets f) ts = Ok (f conn) ts.
Proof.
  intros Hi. unfold at_handler. rewrite Hi. unfold gets.
  rewrite list_insert_id by done. by rewrite set_m_page_server_conn_vec_id.
Qed.

Lemma set_w_ts_id w : set_w_ts (w_ts w) w = w.
Proof. by destruct w. Qed.

Lemma set_w_ts_same ts w : w_ts w = ts -> set_w_ts ts w = w.
Proof. intros <-. apply set_w_ts_id. Qed.

Lemma on_ts_Ok {A} (m : M tran_server A) w a ts' :
  m (w_ts w) = Ok a ts' -> on_ts m w = Ok a (set_w_ts ts' w).
Proof. intros H. unfold on_ts, zoom. by rewrite H. Qed.

Lemma interfere_quiet ndebug w :
  w_interference w = [] -> interfere ndebug w = Ok tt w.
Proof. intros H. unfold interfere, bind, gets. by rewrite H. Qed.

Lemma main_conn_index_some w i :
  m_main_conn (w_ts w) = Some i -> main_conn_index w = Ok i w.
Proof. intros H. unfold main_conn_index, bind, gets. by rewrite H. Qed.

(** C10. When [reset_main_connection] finds no connected handler, it returns
    [ER_CONN_NO_PAGE_SERVER_AVAILABLE] and writes nothing: the main connection
    selected earlier stays stored. A later [push_request] or [send_receive]
    goes through that pointer again: it calls the stale handler, sees that it
    is not connected, and fails to rotate once more. *)
Theorem reset_main_connection_keeps_stale_main (ndebug : bool) (w : world)
    (i : nat) (fuel : nat) (reqid : tran_to_page_request) (p : payload) :
  (forall conn, conn ∈ m_page_server_conn_vec (w_ts w) -> is_connected conn = false) ->
  w_interference w = [] ->
  m_main_conn (w_ts w) = Some i ->
  (i < List.length (m_page_server_conn_vec (w_ts w)))%nat ->
  TranServer.reset_main_connection (w_ts w)
  = Ok ER_CONN_NO_PAGE_SERVER_AVAILABLE (w_ts w) /\
  TranServer.push_request (S fuel) ndebug reqid p w
  = Some (Ok tt (with_events
                   [ev_reset_main_connection ER_CONN_NO_PAGE_SERVER_AVAILABLE;
                    ev_is_connected i false;
                    ev_push_request i ER_CONN_PAGE_SERVER_CANNOT_BE_REACHED] w)) /\
  TranServer.send_receive (S fuel) ndebug reqid p w
  = Some (Ok (ER_CONN_NO_PAGE_SERVER_AVAILABLE, None)
             (with_events
                [ev_reset_main_connection ER_CONN_NO_PAGE_SERVER_AVAILABLE;
                 ev_is_connected i false;
                 ev_send_receive i ER_CONN_PAGE_SERVER_CANNOT_BE_REACHED]
                (next_round_trip w))).
Proof.
  intros Hnone Hquiet Hmain Hi.
  destruct (lookup_lt_is_Some_2 _ _ Hi) as [conn Hconn].
  assert (Hc : is_connected conn = false).
  { apply Hnone. by eapply list_elem_of_lookup_2. }
  pose proof (reset_main_connection_none _ Hnone) as Hreset.
  split; [exact Hreset|].
  split.
  - unfold TranServer.push_request. cbn [iterate].
    unfold TranServer.push_request_body.
    bind_step (interfere_quiet ndebug w Hquiet).
    bind_step (main_conn_index_some w i Hmain).
    bind_step (on_ts_Ok _ w _ _ (at_handler_push_request_not_connected _ i conn reqid p Hconn Hc)).
    rewrite set_w_ts_same by reflexivity. bind_step_refl. cbn [negb bool_decide decide_rel].
    rewrite bool_decide_false by done. cbn [negb].
    bind_step (interfere_quiet ndebug (record_event (ev_push_request i ER_CONN_PAGE_SERVER_CANNOT_BE_REACHED) w) Hquiet).
    bind_step (main_conn_index_some (record_event (ev_push_request i ER_CONN_PAGE_SERVER_CANNOT_BE_REACHED) w) i Hmain).
    bind_step (on_ts_Ok _ (record_event (ev_push_request i ER_CONN_PAGE_SERVER_CANNOT_BE_REACHED) w) _ _
                 (at_handler_gets _ i conn is_connected Hconn)).
    rewrite set_w_ts_same by reflexivity. bind_step_refl. rewrite Hc. cbn [negb].
    bind_step (interfere_quiet ndebug
                 (record_event (ev_is_connected i false)
                    (record_event (ev_push_request i ER_CONN_PAGE_SERVER_CANNOT_BE_REACHED) w)) Hquiet).
    bind_step (on_ts_Ok _ (record_event (ev_is_connected i false)
                    (record_event (ev_push_request i ER_CONN_PAGE_SERVER_CANNOT_BE_REACHED) w)) _ _ Hreset).
    rewrite set_w_ts_same by reflexivity. bind_step_refl.
    rewrite bool_decide_true by done. reflexivity.
  - unfold TranServer.send_receive. cbn [iterate].
    unfold TranServer.send_receive_body.
    bind_step (interfere_quiet ndebug w Hquiet).
    bind_step (main_conn_index_some w i Hmain).
    bind_step_refl. bind_step_refl.
    bind_step (on_ts_Ok _ (next_round_trip w) _ _
                 (at_handler_send_receive_not_connected _ i conn reqid p
                    (w_reply w (w_round_trips w)) Hconn Hc)).
    rewrite set_w_ts_same by reflexivity. bind_step_refl.
    rewrite bool_decide_false by done. cbn [negb].
    bind_step (interfere_quiet ndebug
                 (record_event (ev_send_receive i ER_CONN_PAGE_SERVER_CANNOT_BE_REACHED)
                    (next_round_trip w)) Hquiet).
    bind_step (main_conn_index_some
                 (record_event (ev_send_receive i ER_CONN_PAGE_SERVER_CANNOT_BE_REACHED)
                    (next_round_trip w)) i Hmain).
    bind_step (on_ts_Ok _ (record_event (ev_send_receive i ER_CONN_PAGE_SERVER_CANNOT_BE_REACHED)
                    (next_round_trip w)) _ _
                 (at_handler_gets _ i conn is_connected Hconn)).
    rewrite set_w_ts_same by reflexivity. bind_step_refl. rewrite Hc. cbn [negb].
    bind_step (interfere_quiet ndebug
                 (record_event (ev_is_connected i false)
                    (record_event (ev_send_receive i ER_CONN_PAGE_SERVER_CANNOT_BE_REACHED)
                       (next_round_trip w))) Hquiet).
    bind_step (on_ts_Ok _ (record_event (ev_is_connected i false)
                    (record_event (ev_send_receive i ER_CONN_PAGE_SERVER_CANNOT_BE_REACHED)
                       (next_round_trip w))) _ _ Hreset).
    rewrite set_w_ts_same by reflexivity. bind_step_refl.
    rewrite bool_decide_true by done. reflexivity.
Qed.

Lemma reset_main_connection_keeps_stale_main_witness :
  TranServer.reset_main_connection (example_server_in [IDLE; DISCONNECTING] (Some 1%nat))
  = Ok ER_CONN_NO_PAGE_SERVER_AVAILABLE (example_server_in [IDLE; DISCONNECTING] (Some 1%nat)) /\
  TranServer.push_request 1 false GET_BOOT_INFO (payload_bytes "")
    (quiet_world (example_server_in [IDLE; DISCONNECTING] (Some 1%nat)))
  = Some (Ok tt (with_events
                   [ev_reset_main_connection ER_CONN_NO_PAGE_SERVER_AVAILABLE;
                    ev_is_connected 1 false;
                    ev_push_request 1 ER_CONN_PAGE_SERVER_CANNOT_BE_REACHED]
                   (quiet_world (example_server_in [IDLE; DISCONNECTING] (Some 1%nat))))) /\
  TranServer.send_receive 1 false GET_BOOT_INFO (payload_bytes "")
    (quiet_world (example_server_in [IDLE; DISCONNECTING] (Some 1%nat)))
  = Some (Ok (ER_CONN_NO_PAGE_SERVER_AVAILABLE, None)
             (with_events
                [ev_reset_main_connection ER_CONN_NO_PAGE_SERVER_AVAILABLE;
                 ev_is_connected 1 false;
                 ev_send_receive 1 ER_CONN_PAGE_SERVER_CANNOT_BE_REACHED]
                (next_round_trip (quiet_world (example_server_in [IDLE; DISCONNECTING] (Some 1%nat)))))).
Proof.
  apply (reset_main_connection_keeps_stale_main false
           (quiet_world (example_server_in [IDLE; DISCONNECTING] (Some 1%nat)))
           1%nat 0%nat GET_BOOT_INFO (payload_bytes "")).
  - intros conn Hin. vm_compute in Hin.
    apply elem_of_cons in Hin as [->|Hin]; [reflexivity|].
    apply list_elem_of_singleton in Hin as ->. reflexivity.
  - reflexivity.
  - reflexivity.
  - simpl. lia.
Defined.

(** ** Steps of the request paths *)

Lemma bind_Ok_inv {S A B} (m : M S A) (k : A -> M S B) s b s' :
  bind m k s = Ok b s' -> exists a s1, m s = Ok a s1 /\ k a s1 = Ok b s'.
Proof.
  unfold bind. destruct (m s) as [a s1|f s1]; [|discriminate]. eauto.
Qed.

Lemma on_ts_events {A} (m : M tran_server A) w a w' :
  on_ts m w = Ok a w' ->
  g_events w' = g_events w /\ w_interference w' = w_interference w.
Proof.
  unfold on_ts, zoom. destruct (m (w_ts w)); [|discriminate].
  by intros [= _ <-].
Qed.

Lemma interfere_events ndebug w w' :
  interfere ndebug w = Ok tt w' -> g_events w' = g_events w.
Proof.
  unfold interfere, bind, gets. destruct (w_interference w) as [|item l].
  - by intros [= <-].
  - unfold modify. destruct item as [[i c]|].
    + destruct (bool_decide _).
      * intros H. apply on_ts_events in H as [H _]. exact H.
      * by intros [= <-].
    + by intros [= <-].
Qed.

Lemma main_conn_index_inv w i w' :
  main_conn_index w = Ok i w' -> w' = w /\ m_main_conn (w_ts w) = Some i.
Proof.
  unfold main_conn_index, bind, gets.
  destruct (m_main_conn (w_ts w)); [|discriminate]. by intros [= <- <-].
Qed.

Tactic Notation "bind_inv" hyp(H) "as" simple_intropattern(a) ident(w) ident(E) :=
  apply bind_Ok_inv in H as (a & w & E & H).

Lemma iterate_Break {S A} fuel (body : M S (control A)) s a s' :
  body s = Ok (Break a) s' -> iterate (Datatypes.S fuel) body s = Some (Ok a s').
Proof. intros H. simpl. by rewrite H. Qed.

Lemma iterate_Continue {S A} fuel (body : M S (control A)) s s' :
  body s = Ok Continue s' -> iterate (Datatypes.S fuel) body s = iterate fuel body s'.
Proof. intros H. simpl. by rewrite H. Qed.

(** ** C7: failure of the handshake *)

Lemma assert_true {S} ndebug (s : S) : assert ndebug true s = Ok tt s.
Proof. unfold assert. rewrite orb_true_r. reflexivity. Qed.

Lemma connect_unfold ndebug tv srv_chn unsent_lsa h :
  connect ndebug tv srv_chn unsent_lsa h
  = match assert ndebug (bool_decide (m_state h = IDLE)) h with
    | Fault f h' => Fault f h'
    | Ok _ _ =>
        if handshake_failed tv srv_chn
        then Ok ER_NET_PAGESERVER_CONNECTION (set_m_state IDLE (set_m_state CONNECTING h))
        else
          (do _ <- set_connection ndebug;
           do _ <- transition_to_connected ndebug tv unsent_lsa;
           ret NO_ERROR) (set_m_state CONNECTING h)
    end.
Proof.
  unfold connect, handshake_failed. rewrite bind_gets. unfold bind at 1.
  destruct (assert ndebug (bool_decide (m_state h = IDLE)) h) as [[] h0|f h0] eqn:Ea;
    [|reflexivity].
  assert (h0 = h) as ->.
  { unfold assert in Ea. destruct (_ || _); [by injection Ea|discriminate]. }
  rewrite bind_modify.
  destruct (bool_decide (chn_connect srv_chn = NO_ERRORS)); [|reflexivity].
  destruct (bool_decide (chn_send_int srv_chn = NO_ERRORS)); [|reflexivity].
  destruct (bool_decide ((chn_recv_int srv_chn).1 = NO_ERRORS)); [|reflexivity].
  destruct (bool_decide ((chn_recv_int srv_chn).2 = int_wrap (tv_conn_type tv)));
    reflexivity.
Qed.

(** C7. Called on an idle handler, [connect ()] whose handshake fails (the
    TCP connection, the sending of the connection type, the reception of the
    echo, or an echo that differs from the connection type) returns
    [ER_NET_PAGESERVER_CONNECTION] with the state back to [IDLE] and nothing
    else changed; and whenever [connect ()] returns, it returns
    [ER_NET_PAGESERVER_CONNECTION] exactly when the handshake failed. *)
Theorem connect_failure_atomicity (ndebug : bool) (tv : ts_view) (srv_chn : server_channel)
    (unsent_lsa : log_lsa) (h : connection_handler) :
  (m_state h = IDLE -> handshake_failed tv srv_chn = true ->
   exists h',
     connect ndebug tv srv_chn unsent_lsa h = Ok ER_NET_PAGESERVER_CONNECTION h' /\
     m_state h' = IDLE /\
     h' = set_m_state IDLE (set_m_state CONNECTING h)) /\
  (forall e h',
     connect ndebug tv srv_chn unsent_lsa h = Ok e h' ->
     (e = ER_NET_PAGESERVER_CONNECTION <-> handshake_failed tv srv_chn = true)).
Proof.
  rewrite connect_unfold. split.
  - intros Hidle Hfail. rewrite Hidle, bool_decide_true, assert_true, Hfail by done.
    eexists. split; [reflexivity|]. split; reflexivity.
  - intros e h'. destruct (assert ndebug _ h) as [[] h0|]; [|discriminate].
    destruct (handshake_failed tv srv_chn).
    + intros [= <- <-]. done.
    + intros H. split; [|discriminate]. intros ->.
      bind_inv H as [] h1 E1. bind_inv H as [] h2 E2. discriminate H.
Qed.

Lemma connect_failure_atomicity_witness :
  (exists h',
      connect false active_view refused_channel NULL_LSA (new_connection_handler (Node 7001 "ps"))
      = Ok ER_NET_PAGESERVER_CONNECTION h' /\
      m_state h' = IDLE /\
      h' = set_m_state IDLE (set_m_state CONNECTING (new_connection_handler (Node 7001 "ps")))) /\
  (ER_NET_PAGESERVER_CONNECTION = ER_NET_PAGESERVER_CONNECTION
   <-> handshake_failed active_view wrong_echo_channel = true) /\
  (NO_ERROR = ER_NET_PAGESERVER_CONNECTION
   <-> handshake_failed active_view good_channel = true).
Proof.
  split; [|split].
  - apply (proj1 (connect_failure_atomicity false active_view refused_channel NULL_LSA
                    (new_connection_handler (Node 7001 "ps")))); reflexivity.
  - eapply (proj2 (connect_failure_atomicity false active_view wrong_echo_channel NULL_LSA
                     (new_connection_handler (Node 7001 "ps")))).
    vm_compute. reflexivity.
  - eapply (proj2 (connect_failure_atomicity false active_view good_channel NULL_LSA
                     (new_connection_handler (Node 7001 "ps")))).
    vm_compute. reflexivity.
Defined.

(** ** Reasoning on the calls of a handler *)

Section wp_rules.
Context {S A B : Type}.
Implicit Types (Q : A -> S -> Prop) (E : S -> Prop) (s : S).

Lemma wp_final (m : M S A) Q E s :
  wp m Q E s -> (forall a s', Q a s' -> E s') -> E (final (m s)).
Proof. unfold wp, final. destruct (m s); eauto. Qed.

Lemma wp_bind (m : M S A) (k : A -> M S B) (R : B -> S -> Prop) E s :
  wp m (fun a s' => wp (k a) R E s') E s -> wp (bind m k) R E s.
Proof. unfold wp, bind. by destruct (m s). Qed.

Lemma wp_ret (a : A) Q E s : Q a s -> wp (ret a) Q E s.
Proof. done. Qed.

Lemma wp_raise f Q E s : E s -> wp (raise f) Q E s.
Proof. done. Qed.

Lemma wp_gets (f : S -> A) Q E s : Q (f s) s -> wp (gets f) Q E s.
Proof. done. Qed.

Lemma wp_modify (f : S -> S) (Q : unit -> S -> Prop) E s :
  Q tt (f s) -> wp (modify f) Q E s.
Proof. done. Qed.

Lemma wp_assert ndebug cond (Q : unit -> S -> Prop) E s :
  (ndebug || cond = true -> Q tt s) ->
  (ndebug = false -> cond = false -> E s) ->
  wp (assert ndebug cond) Q E s.
Proof.
  unfold wp, assert. destruct ndebug, cond; simpl; auto.
Qed.

Lemma wp_ignore (m : M S A) (Q : unit -> S -> Prop) E s :
  wp m (fun _ s' => Q tt s') E s -> wp (ignore m) Q E s.
Proof. unfold wp, ignore, bind, ret. by destruct (m s). Qed.
End wp_rules.

Ltac wp_unfold :=
  first
    [ progress unfold step
    | progress unfold connect | progress unfold disconnect_async
    | progress unfold wait_async_disconnection | progress unfold run_teardown
    | progress unfold teardown | progress unfold receive_disconnect_request
    | progress unfold send_error_handler | progress unfold recv_error_handler
    | progress unfold push_request | progress unfold send_receive
    | progress unfold ATS.prior_sender_sink_hook
    | progress unfold ATS.receive_catchup_complete
    | progress unfold ATS.transition_to_connected
    | progress unfold ATS.on_disconnecting
    | progress unfold ATS.send_start_catch_up_request
    | progress unfold PTS.transition_to_connected
    | progress unfold PTS.on_disconnecting
    | progress unfold transition_to_connected | progress unfold on_disconnecting
    | progress unfold ps_conn_error_lambda | progress unfold set_connection
    | progress unfold push_request_regardless_of_state
    | progress unfold conn_push
    | progress unfold conn_send_recv
    | progress unfold conn_stop_incoming_communication_thread
    | progress unfold get_channel_id ].

Ltac wp_step :=
  lazymatch goal with
  | |- wp (bind _ _) _ _ _ => apply wp_bind
  | |- wp (ret _) _ _ _ => apply wp_ret
  | |- wp (raise _) _ _ _ => apply wp_raise
  | |- wp (gets _) _ _ _ => apply wp_gets
  | |- wp (modify _) _ _ _ => apply wp_modify
  | |- wp (assert _ _) _ _ _ => apply wp_assert; [intros ?|intros ? ?]
  | |- wp (ignore _) _ _ _ => apply wp_ignore
  | |- wp (if ?b then _ else _) _ _ _ => destruct b eqn:?
  | |- wp (match ?x with _ => _ end) _ _ _ => destruct x eqn:?
  | |- wp (let '(_, _) := ?x in _) _ _ _ => destruct x eqn:?
  | |- wp _ _ _ _ => wp_unfold
  end; cbn beta.

Ltac wp_go := repeat wp_step.

Ltac bool_hyps :=
  repeat match goal with
         | H : _ /\ _ |- _ => destruct H
         | H : bool_decide _ = true |- _ => apply bool_decide_eq_true in H
         | H : bool_decide _ = false |- _ => apply bool_decide_eq_false in H
         | H : negb _ = true |- _ => apply negb_true_iff in H
         | H : negb _ = false |- _ => apply negb_false_iff in H
         | H : _ || _ = false |- _ => apply orb_false_iff in H
         | H : _ && _ = true |- _ => apply andb_true_iff in H
         | H : is_pending (future_pending _) = true -> _ |- _ => specialize (H eq_refl)
         end.

Ltac inv_cases :=
  repeat match goal with
         | H : _ \/ _ |- _ => destruct H
         | H : _ || _ = true |- _ => apply orb_true_iff in H
         end.

Ltac inv_solve h :=
  let st := fresh "st" in
  let ws := fresh "ws" in
  destruct h as [? st ? ? ? ? ws ? ?];
  unfold trace_inv in *; cbn in *;
  repeat match goal with
         | H : _ /\ _ |- _ => destruct H
         end;
  match goal with
  | H : hd IDLE ws = st |- _ => destruct H
  end;
  generalize dependent (hd IDLE ws); intros st; intros;
  bool_hyps; inv_cases; bool_hyps; subst; cbn in *; bool_hyps;
  try done; try congruence;
  try destruct st; cbn in *; bool_hyps; split_and?; try done; try congruence;
  try (intuition congruence).

Lemma step_trace_inv ndebug tv c h :
  trace_inv h ->
  ndebug = false \/ precondition c h = true ->
  wp (step ndebug tv c) (fun _ h' => trace_inv h') trace_inv h.
Proof.
  intros Hinv Hpre. destruct c; wp_go.
  all: try (destruct (tv_kind tv); wp_go).
  all: try solve [inv_solve h].
Qed.

(** ** C5: the connection state machine *)

Lemma steps_trace_inv ndebug tv cs : forall h,
  trace_inv h ->
  ndebug = false \/ respects ndebug tv cs h ->
  trace_inv (final (steps ndebug tv cs h)).
Proof.
  induction cs as [|c cs IH]; intros h Hinv Hpre; [exact Hinv|].
  assert (Hc : ndebug = false \/ precondition c h = true).
  { destruct Hpre as [?|[? _]]; auto. }
  pose proof (step_trace_inv ndebug tv c h Hinv Hc) as Hstep.
  cbn [steps]. unfold bind. unfold wp in Hstep.
  destruct (step ndebug tv c h) as [[] h'|f h'] eqn:Hs; [|exact Hstep].
  apply IH; [exact Hstep|].
  destruct Hpre as [?|[_ Hrest]]; [by left|right].
  by rewrite Hs in Hrest.
Qed.

Lemma admitted_occurs ws from to :
  admitted ws = true -> permitted from to = false -> occurs from to ws = false.
Proof.
  intros Hadm Hnot. induction ws as [|s ws IH]; [reflexivity|].
  cbn [admitted occurs] in *. apply andb_true_iff in Hadm as [Hp Hadm].
  rewrite (IH Hadm), orb_false_r.
  destruct (decide (hd IDLE ws = from)) as [<-|Hne].
  - rewrite bool_decide_true by done. cbn [andb].
    apply bool_decide_eq_false. intros ->. congruence.
  - by rewrite bool_decide_false.
Qed.

Lemma disconnect_async_no_op ndebug b h :
  m_state h = IDLE \/ m_state h = DISCONNECTING ->
  disconnect_async ndebug b h = Ok tt h.
Proof.
  intros Hst. unfold disconnect_async. rewrite bind_gets.
  destruct Hst as [-> | ->]; reflexivity.
Qed.

(** C5 (amended). Take any sequence of calls on a handler that starts in
    [IDLE] (connect, disconnect_async, wait_async_disconnection, and also the
    inbound messages, the error callbacks and the teardown job), in which
    every [connect ()] is made on an idle handler and every catchup-complete
    message arrives at a connecting one, as these calls assert. Then every
    state change is a transition of the table, and [CONNECTED -> CONNECTING]
    never occurs. In a build with assertions this holds of every sequence,
    as far as it runs. [disconnect_async] on an idle or disconnecting handler
    changes nothing. *)
Theorem connection_state_machine (ndebug : bool) (tv : ts_view) (n : node) (cs : list call) :
  (ndebug = false \/ respects ndebug tv cs (new_connection_handler n) ->
   admitted (g_state_writes (final (steps ndebug tv cs (new_connection_handler n)))) = true /\
   occurs CONNECTED CONNECTING
     (g_state_writes (final (steps ndebug tv cs (new_connection_handler n)))) = false) /\
  (forall h b, m_state h = IDLE \/ m_state h = DISCONNECTING ->
               disconnect_async ndebug b h = Ok tt h).
Proof.
  split.
  - intros Hpre.
    destruct (steps_trace_inv ndebug tv cs (new_connection_handler n)) as (Hadm & _ & _).
    + by repeat split.
    + exact Hpre.
    + split; [exact Hadm|]. by apply admitted_occurs.
  - intros h b. apply disconnect_async_no_op.
Qed.

Lemma connection_state_machine_witness :
  (admitted (g_state_writes
               (final (steps true passive_view
                         [call_connect refused_channel NULL_LSA;
                          call_connect good_channel NULL_LSA;
                          call_disconnect_async true;
                          call_disconnect_async false;
                          call_wait_async_disconnection]
                         (new_connection_handler (Node 7001 "ps"))))) = true /\
   occurs CONNECTED CONNECTING
     (g_state_writes
        (final (steps true passive_view
                  [call_connect refused_channel NULL_LSA;
                   call_connect good_channel NULL_LSA;
                   call_disconnect_async true;
                   call_disconnect_async false;
                   call_wait_async_disconnection]
                  (new_connection_handler (Node 7001 "ps"))))) = false) /\
  (admitted (g_state_writes
               (final (steps false active_view reconnect_while_disconnecting
                         (new_connection_handler (Node 7001 "ps"))))) = true /\
   occurs CONNECTED CONNECTING
     (g_state_writes
        (final (steps false active_view reconnect_while_disconnecting
                  (new_connection_handler (Node 7001 "ps"))))) = false).
Proof.
  split.
  - apply (proj1 (connection_state_machine true passive_view (Node 7001 "ps") _)).
    right. vm_compute. tauto.
  - apply (proj1 (connection_state_machine false active_view (Node 7001 "ps") _)).
    left. reflexivity.
Defined.

(** With the assertions compiled out, connect, disconnect_async, connect
    writes IDLE -> CONNECTING -> DISCONNECTING -> CONNECTING, and the last
    change is not in the table; with the assertions compiled in, the second
    connect stops at its assertion: in neither build is the attempt a no-op
    that leaves the state unchanged. *)
Lemma connection_state_machine_counterexample :
  forallb interface_call reconnect_while_disconnecting = true /\
  g_state_writes (final (steps true active_view reconnect_while_disconnecting
                           (new_connection_handler (Node 7001 "ps"))))
  = [CONNECTING; DISCONNECTING; CONNECTING] /\
  permitted DISCONNECTING CONNECTING = false /\
  admitted (g_state_writes
              (final (steps true active_view reconnect_while_disconnecting
                        (new_connection_handler (Node 7001 "ps"))))) = false /\
  (exists h, steps false active_view reconnect_while_disconnecting
               (new_connection_handler (Node 7001 "ps")) = Fault assertion_failure h).
Proof.
  split; [reflexivity|]. split; [reflexivity|]. split; [reflexivity|].
  split; [reflexivity|]. eexists. vm_compute. reflexivity.
Qed.

(** ** C6: disconnecting twice, and waiting *)

Ltac h_solve h :=
  destruct h as [? ? ? ? ? ? ? ? ?];
  unfold handler_inv in *; cbn in *; bool_hyps; inv_cases; bool_hyps;
  subst; cbn in *; bool_hyps;
  try done; try congruence; split_and?; try done; try congruence;
  try (intuition congruence).

Lemma wp_Ok {S A} (m : M S A) Q E s a s' :
  wp m Q E s -> m s = Ok a s' -> Q a s'.
Proof. unfold wp. intros H E1. by rewrite E1 in H. Qed.

Lemma wp_no_fault {S A} (m : M S A) Q s :
  wp m Q (fun _ => False) s -> exists a s', m s = Ok a s' /\ Q a s'.
Proof. unfold wp. destruct (m s); [eauto|done]. Qed.

Lemma disconnect_async_spawns ndebug b h :
  m_state h = CONNECTED \/ m_state h = CONNECTING ->
  is_pending (m_disconn_future h) = false ->
  disconnect_async ndebug b h = Ok tt (spawn_future b (set_m_state DISCONNECTING h)).
Proof.
  intros Hst Hf. unfold disconnect_async. rewrite bind_gets.
  destruct h as [? st ? fut ? ? ? ? ?]. cbn in Hst, Hf |- *.
  destruct Hst as [-> | ->]; cbn [bool_decide decide_rel orb];
    unfold bind, assert; rewrite orb_true_r; cbn;
    destruct fut; done.
Qed.

Lemma disconnect_async_blocks ndebug b h :
  m_state h = CONNECTED \/ m_state h = CONNECTING ->
  is_pending (m_disconn_future h) = true ->
  disconnect_async ndebug b h = Fault deadlock (record_spawn (set_m_state DISCONNECTING h)).
Proof.
  intros Hst Hf. unfold disconnect_async. rewrite bind_gets.
  destruct h as [? st ? fut ? ? ? ? ?]. cbn in Hst, Hf |- *.
  destruct Hst as [-> | ->]; cbn [bool_decide decide_rel orb];
    unfold bind, assert; rewrite orb_true_r; cbn;
    destruct fut; done.
Qed.

Lemma handler_inv_not_pending h :
  handler_inv h = true ->
  m_state h = CONNECTED \/ m_state h = CONNECTING ->
  is_pending (m_disconn_future h) = false.
Proof.
  unfold handler_inv. intros Hinv [Hst|Hst]; rewrite Hst in Hinv;
    apply andb_true_iff in Hinv as [_ Hinv]; by apply negb_true_iff in Hinv.
Qed.

Lemma wait_async_disconnection_idle ndebug tv h :
  ndebug = false \/ is_pending (m_disconn_future h) = true \/ m_state h = IDLE ->
  wp (wait_async_disconnection ndebug tv) (fun _ h' => m_state h' = IDLE) (fun _ => True) h.
Proof.
  intros Hpre. wp_go.
  all: try (destruct (tv_kind tv); wp_go).
  all: try solve [h_solve h].
Qed.

Lemma wait_async_disconnection_completes ndebug tv h :
  handler_inv h = true ->
  m_state h = DISCONNECTING ->
  wp (wait_async_disconnection ndebug tv)
     (fun _ h' => m_state h' = IDLE /\ g_spawned h' = g_spawned h /\
                  m_conn h' = None /\ m_disconn_future h' = future_invalid)
     (fun _ => False) h.
Proof.
  intros Hinv Hst. wp_go.
  all: try (destruct (tv_kind tv); wp_go).
  all: try solve [h_solve h].
Qed.

Lemma handler_inv_spawn_future b h :
  handler_inv h = true ->
  m_state h = CONNECTED \/ m_state h = CONNECTING ->
  handler_inv (spawn_future b (set_m_state DISCONNECTING h)) = true.
Proof.
  intros Hinv Hst. destruct h as [? st cn ? ? ? ? ? ?]. unfold handler_inv in *.
  cbn in *. destruct Hst as [-> | ->]; cbn in *;
    apply andb_true_iff in Hinv as [-> _]; reflexivity.
Qed.

(** C6. [disconnect_async] on an idle or disconnecting handler is a no-op:
    the handler, its state and its teardown job are as before. On a connected
    handler with no teardown job pending two calls spawn exactly one teardown
    job, the second call changing nothing; on a connected handler whose
    earlier teardown job has not run yet (which takes a [connect ()] on a
    handler that was not idle) the call does not return. When
    [wait_async_disconnection] returns after a disconnection was asked for
    (or on an idle handler, or, in a build with assertions, on any handler),
    the state is [IDLE]; and on a connected handler, two calls of
    [disconnect_async] followed by [wait_async_disconnection] do return. *)
Theorem disconnect_async_idempotent (ndebug : bool) (tv : ts_view)
    (h : connection_handler) (b1 b2 : bool) :
  (m_state h = IDLE \/ m_state h = DISCONNECTING ->
   disconnect_async ndebug b1 h = Ok tt h) /\
  (m_state h = CONNECTED -> is_pending (m_disconn_future h) = false ->
   exists h1,
     disconnect_async ndebug b1 h = Ok tt h1 /\
     disconnect_async ndebug b2 h1 = Ok tt h1 /\
     m_state h1 = DISCONNECTING /\
     m_disconn_future h1 = future_pending b1 /\
     g_spawned h1 = S (g_spawned h)) /\
  (m_state h = CONNECTED -> is_pending (m_disconn_future h) = true ->
   exists h1,
     disconnect_async ndebug b1 h = Fault deadlock h1 /\
     m_disconn_future h1 = m_disconn_future h) /\
  (forall h',
     wait_async_disconnection ndebug tv h = Ok tt h' ->
     ndebug = false \/ is_pending (m_disconn_future h) = true \/ m_state h = IDLE ->
     m_state h' = IDLE) /\
  (handler_inv h = true -> m_state h = CONNECTED ->
   exists h',
     steps ndebug tv [call_disconnect_async b1; call_disconnect_async b2;
                      call_wait_async_disconnection] h = Ok tt h' /\
     m_state h' = IDLE /\ g_spawned h' = S (g_spawned h)).
Proof.
  split; [apply disconnect_async_no_op|]. split; [|split; [|split]].
  - intros Hst Hf. exists (spawn_future b1 (set_m_state DISCONNECTING h)).
    split; [apply disconnect_async_spawns; [by left|exact Hf]|].
    split; [apply disconnect_async_no_op; by right|]. done.
  - intros Hst Hf. exists (record_spawn (set_m_state DISCONNECTING h)).
    split; [apply disconnect_async_blocks; [by left|exact Hf]|reflexivity].
  - intros h' Hwait Hpre.
    exact (wp_Ok _ _ _ _ _ _ (wait_async_disconnection_idle ndebug tv h Hpre) Hwait).
  - intros Hinv Hst. cbn [steps step].
    rewrite (bind_Ok _ _ _ _ _
               (disconnect_async_spawns ndebug b1 h (or_introl Hst)
                  (handler_inv_not_pending h Hinv (or_introl Hst)))).
    rewrite (bind_Ok _ _ _ _ _
               (disconnect_async_no_op ndebug b2
                  (spawn_future b1 (set_m_state DISCONNECTING h)) (or_intror eq_refl))).
    destruct (wp_no_fault _ _ _
                (wait_async_disconnection_completes ndebug tv
                   (spawn_future b1 (set_m_state DISCONNECTING h))
                   (handler_inv_spawn_future b1 h Hinv (or_introl Hst)) eq_refl))
      as ([] & h' & Hwait & Hidle & Hsp & _).
    exists h'. rewrite (bind_Ok _ _ _ _ _ Hwait). done.
Qed.

Lemma disconnect_async_idempotent_witness :
  (disconnect_async false true (example_handler DISCONNECTING NULL_LSA)
   = Ok tt (example_handler DISCONNECTING NULL_LSA)) /\
  (exists h1,
      disconnect_async false true (example_handler CONNECTED NULL_LSA) = Ok tt h1 /\
      disconnect_async false false h1 = Ok tt h1 /\
      m_state h1 = DISCONNECTING /\
      m_disconn_future h1 = future_pending true /\
      g_spawned h1 = S (g_spawned (example_handler CONNECTED NULL_LSA))) /\
  (exists h',
      steps false active_view
        [call_disconnect_async true; call_disconnect_async false;
         call_wait_async_disconnection] (example_handler CONNECTED NULL_LSA) = Ok tt h' /\
      m_state h' = IDLE /\
      g_spawned h' = S (g_spawned (example_handler CONNECTED NULL_LSA))) /\
  (exists h1,
      disconnect_async true true
        (final (steps true active_view
                  (reconnect_while_disconnecting ++ [call_receive_catchup_complete])
                  (new_connection_handler (Node 7001 "ps"))))
      = Fault deadlock h1 /\
      m_disconn_future h1
      = m_disconn_future
          (final (steps true active_view
                    (reconnect_while_disconnecting ++ [call_receive_catchup_complete])
                    (new_connection_handler (Node 7001 "ps"))))).
Proof.
  destruct (disconnect_async_idempotent false active_view
              (example_handler DISCONNECTING NULL_LSA) true false) as (H1 & _).
  destruct (disconnect_async_idempotent false active_view
              (example_handler CONNECTED NULL_LSA) true false) as (_ & H2 & _ & _ & H4).
  destruct (disconnect_async_idempotent true active_view
              (final (steps true active_view
                        (reconnect_while_disconnecting ++ [call_receive_catchup_complete])
                        (new_connection_handler (Node 7001 "ps")))) true false)
    as (_ & _ & H3 & _).
  split; [apply H1; by right|]. split; [apply H2; reflexivity|].
  split; [apply H4; reflexivity|]. apply H3; reflexivity.
Defined.

(** ** C4: the catchup gate of the active transaction server *)

Lemma receive_catchup_complete_connecting ndebug h :
  m_state h = CONNECTING ->
  ATS.receive_catchup_complete ndebug h = Ok tt (set_m_state CONNECTED h).
Proof.
  intros Hst. unfold ATS.receive_catchup_complete. rewrite bind_gets, Hst.
  unfold bind, assert. cbn [bool_decide decide_rel]. by rewrite orb_true_r.
Qed.

Lemma step_never_connects ndebug tv c h :
  tv_kind tv = ACTIVE ->
  c <> call_receive_catchup_complete ->
  m_state h <> CONNECTED ->
  wp (step ndebug tv c) (fun _ h' => m_state h' <> CONNECTED)
     (fun h' => m_state h' <> CONNECTED) h.
Proof.
  intros Hk Hc Hs. destruct c; try done; wp_go.
  all: try rewrite Hk.
  all: wp_go.
  all: simpl; done.
Qed.

Lemma connect_active_leaves_connecting ndebug tv srv_chn unsent_lsa h :
  tv_kind tv = ACTIVE ->
  wp (connect ndebug tv srv_chn unsent_lsa)
     (fun e h' =>
        e = NO_ERROR ->
        m_state h' = CONNECTING /\
        m_prior_sender_sink_hook_func h' = true /\
        exists host port,
          g_pushed h' = Request SEND_START_CATCH_UP (payload_catch_up host port unsent_lsa)
                        :: g_pushed h)
     (fun _ => True) h.
Proof.
  intros Hk. wp_go.
  all: try rewrite Hk.
  all: wp_go.
  all: try done.
  all: intros _; cbn; split_and?; try done; eauto.
Qed.

Lemma connect_active_completes ndebug tv srv_chn unsent_lsa h :
  tv_kind tv = ACTIVE ->
  handler_inv h = true ->
  m_state h = IDLE ->
  handshake_failed tv srv_chn = false ->
  lsa_is_null unsent_lsa = true \/ is_Some (tv_main_connection tv) ->
  wp (connect ndebug tv srv_chn unsent_lsa) (fun e _ => e = NO_ERROR) (fun _ => False) h.
Proof.
  intros Hk Hinv Hst Hhs Hmain. unfold handshake_failed in Hhs.
  apply orb_false_iff in Hhs as [Hhs H4]. apply orb_false_iff in Hhs as [Hhs H3].
  apply orb_false_iff in Hhs as [H1 H2].
  wp_go.
  all: try rewrite Hk.
  all: wp_go.
  all: try congruence.
  all: try solve [h_solve h].
  all: match goal with
       | Hg : get_main_connection_info _ = _, Hl : negb (lsa_is_null _) = true |- _ =>
           unfold get_main_connection_info in Hg;
           destruct Hmain as [Hn|[nd Hnd]];
           [rewrite Hn in Hl; discriminate | rewrite Hnd in Hg; congruence]
       end.
Qed.

Lemma receive_saved_lsa_state ndebug saved_lsa h g :
  m_state (final (ATS.receive_saved_lsa ndebug saved_lsa (h, g))).1 = m_state h.
Proof.
  unfold ATS.receive_saved_lsa. rewrite bind_gets. unfold bind at 1.
  unfold assert. destruct (ndebug || _); [|reflexivity].
  unfold ret at 1. rewrite bind_gets.
  destruct (lsa_gtb _ _); reflexivity.
Qed.

(** C4. On an active transaction server, a [connect ()] that succeeds leaves
    the handler in [CONNECTING], registered with the prior sender and with
    [SEND_START_CATCH_UP] pushed, so that it does not yet count as connected;
    the catchup-complete message then moves it to [CONNECTED], and no other
    call or message moves a handler that is not connected to [CONNECTED].
    Such a [connect ()] does succeed on an idle handler when the handshake
    goes well. *)
Theorem ats_catchup_gating (ndebug : bool) (tv : ts_view) (srv_chn : server_channel)
    (unsent_lsa : log_lsa) (h : connection_handler) :
  tv_kind tv = ACTIVE ->
  (forall h',
     connect ndebug tv srv_chn unsent_lsa h = Ok NO_ERROR h' ->
     m_state h' = CONNECTING /\
     is_connected h' = false /\
     m_prior_sender_sink_hook_func h' = true /\
     (exists host port,
         g_pushed h' = Request SEND_START_CATCH_UP (payload_catch_up host port unsent_lsa)
                       :: g_pushed h) /\
     exists h'',
       ATS.receive_catchup_complete ndebug h' = Ok tt h'' /\ m_state h'' = CONNECTED) /\
  (forall c h1,
     m_state h1 <> CONNECTED ->
     m_state (final (step ndebug tv c h1)) = CONNECTED ->
     c = call_receive_catchup_complete) /\
  (forall saved_lsa h1 g,
     m_state (final (ATS.receive_saved_lsa ndebug saved_lsa (h1, g))).1 = m_state h1) /\
  (handler_inv h = true -> m_state h = IDLE ->
   handshake_failed tv srv_chn = false ->
   lsa_is_null unsent_lsa = true \/ is_Some (tv_main_connection tv) ->
   exists h', connect ndebug tv srv_chn unsent_lsa h = Ok NO_ERROR h').
Proof.
  intros Hk. split; [|split; [|split]].
  - intros h' Hconn.
    destruct (wp_Ok _ _ _ _ _ _
                (connect_active_leaves_connecting ndebug tv srv_chn unsent_lsa h Hk)
                Hconn eq_refl) as (Hst & Hhook & Hpush).
    split; [exact Hst|]. split; [unfold is_connected; by rewrite Hst|].
    split; [exact Hhook|]. split; [exact Hpush|].
    exists (set_m_state CONNECTED h'). split; [|reflexivity].
    by apply receive_catchup_complete_connecting.
  - intros c h1 Hnot Hfin.
    assert (c = call_receive_catchup_complete \/ c <> call_receive_catchup_complete)
      as [|Hc] by (destruct c; (by left) || (right; discriminate)); [done|].
    exfalso. revert Hfin.
    apply (wp_final _ _ _ _ (step_never_connects ndebug tv c h1 Hk Hc Hnot)).
    auto.
  - apply receive_saved_lsa_state.
  - intros Hinv Hst Hhs Hmain.
    destruct (wp_no_fault _ _ _
                (connect_active_completes ndebug tv srv_chn unsent_lsa h Hk Hinv Hst Hhs Hmain))
      as (e & h' & Hconn & ->).
    by exists h'.
Qed.

Lemma ats_catchup_gating_witness :
  exists h',
    connect false active_view good_channel NULL_LSA (new_connection_handler (Node 7001 "ps"))
    = Ok NO_ERROR h' /\
    m_state h' = CONNECTING /\
    is_connected h' = false /\
    m_prior_sender_sink_hook_func h' = true /\
    (exists host port,
        g_pushed h' = Request SEND_START_CATCH_UP (payload_catch_up host port NULL_LSA)
                      :: g_pushed (new_connection_handler (Node 7001 "ps"))) /\
    exists h'',
      ATS.receive_catchup_complete false h' = Ok tt h'' /\ m_state h'' = CONNECTED.
Proof.
  destruct (ats_catchup_gating false active_view good_channel NULL_LSA
              (new_connection_handler (Node 7001 "ps")) eq_refl) as (Hgate & _ & _ & Htotal).
  destruct (Htotal eq_refl eq_refl eq_refl (or_introl eq_refl)) as [h' Hconn].
  exists h'. split; [exact Hconn|]. exact (Hgate h' Hconn).
Defined.

(** ** C9: the saved LSA of a handler *)

Lemma step_saved_lsa ndebug tv c h :
  wp (step ndebug tv c) (fun _ h' => m_saved_lsa h' = m_saved_lsa h)
     (fun h' => m_saved_lsa h' = m_saved_lsa h) h.
Proof.
  destruct c; wp_go.
  all: try (destruct (tv_kind tv); wp_go).
  all: reflexivity.
Qed.

Lemma receive_saved_lsa_unfold ndebug saved_lsa h g :
  ATS.receive_saved_lsa ndebug saved_lsa (h, g)
  = if ndebug || lsa_geb saved_lsa (m_saved_lsa h)
    then
      if lsa_gtb saved_lsa (m_saved_lsa h)
      then Ok tt (set_m_saved_lsa saved_lsa h,
                  LogGlobal false (m_ps_consensus_flushed_lsa g) (S (g_notified g)))
      else Ok tt (h, g)
    else Fault assertion_failure (h, g).
Proof.
  unfold ATS.receive_saved_lsa, get_saved_lsa. rewrite bind_gets.
  unfold bind at 1, assert. cbn [fst snd].
  destruct (ndebug || lsa_geb saved_lsa (m_saved_lsa h)); [|reflexivity].
  unfold ret at 1. rewrite bind_gets. cbn [fst snd].
  destruct (lsa_gtb saved_lsa (m_saved_lsa h)); reflexivity.
Qed.

(** C9. The saved LSA of a handler starts at [NULL_LSA] and never decreases:
    no call on the handler changes it, and an inbound [SEND_SAVED_LSA (lsa)]
    stores [lsa] and wakes the flush waiters exactly when [lsa] is strictly
    greater than the stored value, and otherwise changes nothing. The
    handler asserts that [lsa] is not below the stored value: with
    assertions compiled in, it runs to completion only then. *)
Theorem saved_lsa_monotone (ndebug : bool) (n : node) (saved_lsa : log_lsa)
    (h : connection_handler) (g : log_global) :
  m_saved_lsa (new_connection_handler n) = NULL_LSA /\
  lsa_le (m_saved_lsa h)
         (m_saved_lsa (final (ATS.receive_saved_lsa ndebug saved_lsa (h, g))).1) /\
  (forall tv c, m_saved_lsa (final (step ndebug tv c h)) = m_saved_lsa h) /\
  (ndebug = false ->
   (completed (ATS.receive_saved_lsa ndebug saved_lsa (h, g)) = true
    <-> lsa_le (m_saved_lsa h) saved_lsa)) /\
  (lsa_gtb saved_lsa (m_saved_lsa h) = true ->
   ATS.receive_saved_lsa ndebug saved_lsa (h, g)
   = Ok tt (set_m_saved_lsa saved_lsa h,
            LogGlobal false (m_ps_consensus_flushed_lsa g) (S (g_notified g)))) /\
  (lsa_gtb saved_lsa (m_saved_lsa h) = false ->
   final (ATS.receive_saved_lsa ndebug saved_lsa (h, g)) = (h, g)).
Proof.
  rewrite receive_saved_lsa_unfold.
  split; [reflexivity|]. split; [|split; [|split; [|split]]].
  - destruct (ndebug || _); [|cbn; reflexivity].
    destruct (lsa_gtb saved_lsa (m_saved_lsa h)) eqn:Hgt; [|cbn; reflexivity].
    cbn. by apply lsa_gtb_true in Hgt as [Hle _].
  - intros tv c. apply (wp_final _ _ _ _ (step_saved_lsa ndebug tv c h)). auto.
  - intros ->. cbn [orb]. rewrite <- lsa_geb_true.
    destruct (lsa_geb saved_lsa (m_saved_lsa h)); [|cbn; split; discriminate].
    destruct (lsa_gtb saved_lsa (m_saved_lsa h)); cbn; done.
  - intros Hgt. rewrite Hgt.
    assert (Hge : lsa_geb saved_lsa (m_saved_lsa h) = true).
    { apply lsa_geb_true. by apply lsa_gtb_true in Hgt as [Hle _]. }
    by rewrite Hge, orb_true_r.
  - intros Hgt. rewrite Hgt. by destruct (ndebug || _).
Qed.

Lemma saved_lsa_monotone_witness :
  completed (ATS.receive_saved_lsa false (LSA 5 0)
               (example_handler CONNECTED (LSA 9 0), new_log_global)) = false /\
  ATS.receive_saved_lsa false (LSA 10 0) (example_handler CONNECTED (LSA 9 0), new_log_global)
  = Ok tt (example_handler CONNECTED (LSA 10 0), LogGlobal false NULL_LSA 1) /\
  final (ATS.receive_saved_lsa false (LSA 9 0)
           (example_handler CONNECTED (LSA 9 0), new_log_global))
  = (example_handler CONNECTED (LSA 9 0), new_log_global) /\
  final (ATS.receive_saved_lsa true (LSA 5 0)
           (example_handler CONNECTED (LSA 9 0), new_log_global))
  = (example_handler CONNECTED (LSA 9 0), new_log_global).
Proof.
  destruct (saved_lsa_monotone false (Node 7001 "ps") (LSA 5 0)
              (example_handler CONNECTED (LSA 9 0)) new_log_global)
    as (_ & _ & _ & Hreq & _ & _).
  destruct (saved_lsa_monotone false (Node 7001 "ps") (LSA 10 0)
              (example_handler CONNECTED (LSA 9 0)) new_log_global)
    as (_ & _ & _ & _ & Hstore & _).
  destruct (saved_lsa_monotone false (Node 7001 "ps") (LSA 9 0)
              (example_handler CONNECTED (LSA 9 0)) new_log_global)
    as (_ & _ & _ & _ & _ & Hsame).
  destruct (saved_lsa_monotone true (Node 7001 "ps") (LSA 5 0)
              (example_handler CONNECTED (LSA 9 0)) new_log_global)
    as (_ & _ & _ & _ & _ & Hless).
  split; [|split; [|split]].
  - destruct (completed _) eqn:Hc; [|reflexivity].
    pose proof (proj1 (Hreq eq_refl) eq_refl) as Hle. vm_compute in Hle.
    discriminate Hle.
  - apply Hstore. reflexivity.
  - apply Hsame. reflexivity.
  - apply Hless. reflexivity.
Defined.

(** ** The loops of the request paths end *)

Lemma on_ts_inv {A} (m : M tran_server A) w a w' :
  on_ts m w = Ok a w' -> exists ts', m (w_ts w) = Ok a ts' /\ w' = set_w_ts ts' w.
Proof.
  unfold on_ts, zoom. destruct (m (w_ts w)) as [a' ts'|]; [|discriminate].
  intros [= <- <-]. eauto.
Qed.

Lemma interfere_interference ndebug w w' :
  interfere ndebug w = Ok tt w' -> w_interference w' = tail (w_interference w).
Proof.
  unfold interfere, bind, gets. destruct (w_interference w) as [|item l] eqn:Hl.
  - intros [= <-]. by rewrite Hl.
  - unfold modify. destruct item as [[i c]|].
    + destruct (bool_decide _).
      * intros H. apply on_ts_events in H as [_ H]. exact H.
      * by intros [= <-].
    + by intros [= <-].
Qed.

Lemma reset_main_connection_Ok_inv ts rc ts' :
  TranServer.reset_main_connection ts = Ok rc ts' ->
  rc <> ER_CONN_NO_PAGE_SERVER_AVAILABLE ->
  exists j conn,
    m_main_conn ts' = Some j /\
    m_page_server_conn_vec ts' !! j = Some conn /\
    is_connected conn = true.
Proof.
  unfold TranServer.reset_main_connection. rewrite bind_gets.
  destruct (list_find _ _) as [[j conn]|] eqn:Hfind.
  - rewrite bind_gets. apply list_find_Some in Hfind as (Hj & Hc & _).
    destruct (bool_decide (m_main_conn ts = Some j)) eqn:Hcur; cbn [negb].
    + intros [= <- <-] _. apply bool_decide_eq_true in Hcur.
      exists j, conn. split_and!; [done|done|]. by apply Is_true_true.
    + rewrite bind_modify. intros [= <- <-] _.
      exists j, conn. split_and!; [done|done|]. by apply Is_true_true.
  - intros [= <- <-]. done.
Qed.

(** An iteration of [push_request] that goes round again leaves a connected
    main connection, and has let the other threads act three times. *)
Lemma push_request_body_Continue ndebug reqid p w w' :
  TranServer.push_request_body ndebug reqid p w = Ok Continue w' ->
  w_interference w' = tail (tail (tail (w_interference w))) /\
  exists j conn,
    m_main_conn (w_ts w') = Some j /\
    m_page_server_conn_vec (w_ts w') !! j = Some conn /\
    is_connected conn = true.
Proof.
  unfold TranServer.push_request_body. intros H.
  bind_inv H as [] w1 E1. apply interfere_interference in E1 as I1.
  bind_inv H as i w2 E2. apply main_conn_index_inv in E2 as [-> _].
  bind_inv H as err w3 E3. apply on_ts_events in E3 as [_ I3].
  rewrite bind_modify in H.
  destruct (negb (bool_decide (err = NO_ERROR))); [|discriminate].
  bind_inv H as [] w4 E4. apply interfere_interference in E4 as I4.
  bind_inv H as j w5 E5. apply main_conn_index_inv in E5 as [-> _].
  bind_inv H as connected w6 E6. apply on_ts_events in E6 as [_ I6].
  rewrite bind_modify in H.
  destruct (negb connected); [|discriminate].
  bind_inv H as [] w7 E7. apply interfere_interference in E7 as I7.
  bind_inv H as rc w8 E8. apply on_ts_inv in E8 as (ts' & Hreset & ->).
  rewrite bind_modify in H.
  destruct (bool_decide (rc = ER_CONN_NO_PAGE_SERVER_AVAILABLE)) eqn:Hrc; [discriminate|].
  injection H as <-. apply bool_decide_eq_false in Hrc.
  split.
  - cbn in I1, I3, I4, I6, I7 |- *. congruence.
  - cbn. by eapply reset_main_connection_Ok_inv.
Qed.

Lemma push_request_body_connected ndebug reqid p w j conn w' :
  w_interference w = [] ->
  m_main_conn (w_ts w) = Some j ->
  m_page_server_conn_vec (w_ts w) !! j = Some conn ->
  is_connected conn = true ->
  TranServer.push_request_body ndebug reqid p w <> Ok Continue w'.
Proof.
  intros Hq Hmain Hj Hc. unfold TranServer.push_request_body.
  bind_step (interfere_quiet ndebug w Hq).
  bind_step (main_conn_index_some w j Hmain).
  unfold bind at 1. unfold on_ts, zoom, at_handler. rewrite Hj.
  unfold push_request at 1. rewrite bind_gets.
  unfold is_connected in Hc. rewrite Hc. cbn [negb].
  unfold bind at 1. unfold conn_push at 1. rewrite bind_gets.
  destruct (m_conn conn); [|discriminate].
  cbn. discriminate.
Qed.

Lemma send_receive_body_Continue ndebug reqid p w w' :
  TranServer.send_receive_body ndebug reqid p w = Ok Continue w' ->
  w_interference w' = tail (tail (tail (w_interference w))) /\
  exists j conn,
    m_main_conn (w_ts w') = Some j /\
    m_page_server_conn_vec (w_ts w') !! j = Some conn /\
    is_connected conn = true.
Proof.
  unfold TranServer.send_receive_body. intros H.
  bind_inv H as [] w1 E1. apply interfere_interference in E1 as I1.
  bind_inv H as i w2 E2. apply main_conn_index_inv in E2 as [-> _].
  rewrite bind_gets, bind_modify in H.
  bind_inv H as [err payload_out] w3 E3. apply on_ts_events in E3 as [_ I3].
  rewrite bind_modify in H.
  destruct (negb (bool_decide (err = NO_ERROR))); [|discriminate].
  bind_inv H as [] w4 E4. apply interfere_interference in E4 as I4.
  bind_inv H as j w5 E5. apply main_conn_index_inv in E5 as [-> _].
  bind_inv H as connected w6 E6. apply on_ts_events in E6 as [_ I6].
  rewrite bind_modify in H.
  destruct (negb connected); [|discriminate].
  bind_inv H as [] w7 E7. apply interfere_interference in E7 as I7.
  bind_inv H as rc w8 E8. apply on_ts_inv in E8 as (ts' & Hreset & ->).
  rewrite bind_modify in H.
  destruct (bool_decide (rc = ER_CONN_NO_PAGE_SERVER_AVAILABLE)) eqn:Hrc; [discriminate|].
  injection H as <-. apply bool_decide_eq_false in Hrc.
  split.
  - cbn in I1, I3, I4, I6, I7 |- *. congruence.
  - cbn. by eapply reset_main_connection_Ok_inv.
Qed.

Lemma send_receive_body_connected ndebug reqid p w j conn w' :
  w_interference w = [] ->
  m_main_conn (w_ts w) = Some j ->
  m_page_server_conn_vec (w_ts w) !! j = Some conn ->
  is_connected conn = true ->
  TranServer.send_receive_body ndebug reqid p w <> Ok Continue w'.
Proof.
  intros Hq Hmain Hj Hc. unfold TranServer.send_receive_body.
  bind_step (interfere_quiet ndebug w Hq).
  bind_step (main_conn_index_some w j Hmain).
  rewrite bind_gets, bind_modify.
  unfold bind at 1. unfold on_ts at 1, zoom, at_handler. cbn [w_ts next_round_trip]. rewrite Hj.
  unfold send_receive at 1. rewrite bind_gets.
  pose proof Hc as Hc'. unfold is_connected in Hc'. rewrite Hc'. cbn [negb].
  unfold bind at 1. unfold conn_send_recv at 1. rewrite bind_gets.
  destruct (m_conn conn); [|discriminate].
  rewrite bind_modify. unfold ret at 1.
  set (conn' := record_push (Request reqid p) conn).
  set (ts' := set_m_page_server_conn_vec (<[j:=conn']> (m_page_server_conn_vec (w_ts w))) (w_ts w)).
  assert (Hj' : m_page_server_conn_vec ts' !! j = Some conn').
  { unfold ts'. cbn. apply list_lookup_insert_eq. by eapply lookup_lt_Some. }
  destruct (negb (bool_decide ((w_reply w (w_round_trips w)).1 = NO_ERRORS))).
  - unfold ret at 1. cbn beta iota. rewrite bind_modify.
    rewrite bool_decide_false by done. cbn [negb].
    set (w1 := record_event _ _).
    assert (Hq1 : w_interference w1 = []) by exact Hq.
    assert (Hmain1 : m_main_conn (w_ts w1) = Some j) by exact Hmain.
    bind_step (interfere_quiet ndebug w1 Hq1).
    bind_step (main_conn_index_some w1 j Hmain1).
    bind_step (on_ts_Ok _ w1 _ _ (at_handler_gets (w_ts w1) j conn' is_connected Hj')).
    rewrite bind_modify.
    change (is_connected conn') with (is_connected conn). rewrite Hc. cbn [negb].
    discriminate.
  - unfold ret at 1. cbn beta iota. rewrite bind_modify.
    rewrite bool_decide_true by done. cbn [negb]. discriminate.
Qed.

(** Once the other threads are at rest, the loops of the request paths end
    within two iterations. *)
Lemma request_paths_quiet ndebug reqid p w fuel :
  w_interference w = [] ->
  (exists o, TranServer.push_request (S (S fuel)) ndebug reqid p w = Some o) /\
  (exists o, TranServer.send_receive (S (S fuel)) ndebug reqid p w = Some o).
Proof.
  intros Hq. split.
  - unfold TranServer.push_request. cbn [iterate].
    destruct (TranServer.push_request_body ndebug reqid p w) as [[|r] w1|f w1] eqn:H1; eauto.
    apply push_request_body_Continue in H1 as (Hq1 & j & conn & Hmain & Hj & Hc).
    rewrite Hq in Hq1. cbn in Hq1.
    destruct (TranServer.push_request_body ndebug reqid p w1) as [[|r] w2|f w2] eqn:H2; eauto.
    by eapply push_request_body_connected in H2.
  - unfold TranServer.send_receive. cbn [iterate].
    destruct (TranServer.send_receive_body ndebug reqid p w) as [[|r] w1|f w1] eqn:H1; eauto.
    apply send_receive_body_Continue in H1 as (Hq1 & j & conn & Hmain & Hj & Hc).
    rewrite Hq in Hq1. cbn in Hq1.
    destruct (TranServer.send_receive_body ndebug reqid p w1) as [[|r] w2|f w2] eqn:H2; eauto.
    by eapply send_receive_body_connected in H2.
Qed.

(** With [n] turns of the other threads left, [n + 2] iterations are enough. *)
Lemma request_paths_terminate ndebug reqid p n : forall w,
  (List.length (w_interference w) <= n)%nat ->
  (exists o, TranServer.push_request (S (S n)) ndebug reqid p w = Some o) /\
  (exists o, TranServer.send_receive (S (S n)) ndebug reqid p w = Some o).
Proof.
  induction n as [|n IH]; intros w Hlen.
  - apply request_paths_quiet. destruct (w_interference w); [done|simpl in Hlen; lia].
  - destruct (w_interference w) as [|item l] eqn:Hl; [by apply request_paths_quiet|].
    simpl in Hlen. split.
    + unfold TranServer.push_request. cbn [iterate].
      destruct (TranServer.push_request_body ndebug reqid p w) as [[|r] w1|f w1] eqn:H1; eauto.
      apply push_request_body_Continue in H1 as (Hq1 & _). rewrite Hl in Hq1. cbn in Hq1.
      apply IH. rewrite Hq1. destruct l as [|? [|? ?]]; cbn in *; lia.
    + unfold TranServer.send_receive. cbn [iterate].
      destruct (TranServer.send_receive_body ndebug reqid p w) as [[|r] w1|f w1] eqn:H1; eauto.
      apply send_receive_body_Continue in H1 as (Hq1 & _). rewrite Hl in Hq1. cbn in Hq1.
      apply IH. rewrite Hq1. destruct l as [|? [|? ?]]; cbn in *; lia.
Qed.

(** ** C8: the request paths *)

Lemma at_handler_inv {A} i (m : M connection_handler A) ts a ts' :
  at_handler i m ts = Ok a ts' ->
  exists h h',
    m_page_server_conn_vec ts !! i = Some h /\ m h = Ok a h' /\
    ts' = set_m_page_server_conn_vec (<[i:=h']> (m_page_server_conn_vec ts)) ts.
Proof.
  unfold at_handler. destruct (m_page_server_conn_vec ts !! i) as [h|]; [|discriminate].
  destruct (m h) as [a' h'|] eqn:Hm; [|discriminate].
  intros [= <- <-]. eauto.
Qed.

Lemma reset_main_connection_result ts rc ts' :
  TranServer.reset_main_connection ts = Ok rc ts' ->
  (rc = NO_ERROR /\ TranServer.is_page_server_connected ts' = true) \/
  (rc = ER_CONN_NO_PAGE_SERVER_AVAILABLE /\ ts' = ts /\
   TranServer.is_page_server_connected ts = false).
Proof.
  unfold TranServer.reset_main_connection, TranServer.is_page_server_connected.
  rewrite bind_gets.
  destruct (list_find _ _) as [[j conn]|] eqn:Hfind.
  - rewrite bind_gets. apply list_find_Some in Hfind as (Hj & Hc & _).
    assert (Hex : existsb is_connected (m_page_server_conn_vec ts) = true).
    { apply existsb_exists. exists conn. split.
      - apply list_elem_of_In. by eapply list_elem_of_lookup_2.
      - by apply Is_true_true. }
    destruct (bool_decide (m_main_conn ts = Some j)); cbn [negb].
    + intros [= <- <-]. by left.
    + rewrite bind_modify. intros [= <- <-]. by left.
  - intros [= <- <-]. right. split_and!; [done|done|].
    apply list_find_None in Hfind.
    apply not_true_is_false. intros Hex. apply existsb_exists in Hex as (conn & Hin & Hc).
    apply list_elem_of_In in Hin.
    rewrite Forall_forall in Hfind. apply (Hfind conn Hin). by apply Is_true_true.
Qed.

Lemma handler_push_request_result reqid p h e h' :
  push_request reqid p h = Ok e h' ->
  (e = NO_ERROR /\ is_connected h' = true /\ head (g_pushed h') = Some (Request reqid p)) \/
  e = ER_CONN_PAGE_SERVER_CANNOT_BE_REACHED.
Proof.
  unfold push_request. rewrite bind_gets.
  destruct (bool_decide (m_state h = CONNECTED)) eqn:Hst; cbn [negb].
  - intros H. bind_inv H as [] h1 E1.
    unfold conn_push in E1. rewrite bind_gets in E1.
    destruct (m_conn h); [|discriminate].
    injection E1 as <-. injection H as <- <-. left.
    split_and!; [done| |done].
    unfold is_connected. cbn. exact Hst.
  - intros [= <- <-]. by right.
Qed.

(** What a turn of the other threads leaves as it was. *)
Lemma interfere_inv ndebug w w' :
  interfere ndebug w = Ok tt w' ->
  g_events w' = g_events w /\
  w_interference w' = tail (w_interference w) /\
  w_reply w' = w_reply w /\
  w_round_trips w' = w_round_trips w /\
  m_main_conn (w_ts w') = m_main_conn (w_ts w) /\
  List.length (m_page_server_conn_vec (w_ts w'))
  = List.length (m_page_server_conn_vec (w_ts w)) /\
  forall i, (forall c, head (w_interference w) <> Some (Some (i, c))) ->
            m_page_server_conn_vec (w_ts w') !! i = m_page_server_conn_vec (w_ts w) !! i.
Proof.
  unfold interfere. rewrite bind_gets.
  destruct (w_interference w) as [|item l] eqn:Hl.
  - intros [= <-]. rewrite Hl. done.
  - rewrite bind_modify. destruct item as [[j c]|].
    + rewrite bind_gets. cbn [w_ts set_w_interference].
      destruct (bool_decide _).
      * intros H. apply on_ts_inv in H as (ts' & H & ->).
        apply at_handler_inv in H as (h & h' & Hj & _ & ->).
        cbn. split_and!; try done; [by rewrite length_insert|].
        intros i Hi. apply list_lookup_insert_ne. intros <-. by apply (Hi c).
      * intros [= <-]. done.
    + intros [= <-]. done.
Qed.

Lemma at_handler_frame {A} i (m : M connection_handler A) ts a ts' :
  at_handler i m ts = Ok a ts' ->
  m_main_conn ts' = m_main_conn ts /\
  exists h h',
    m_page_server_conn_vec ts !! i = Some h /\ m h = Ok a h' /\
    m_page_server_conn_vec ts' !! i = Some h'.
Proof.
  intros H. apply at_handler_inv in H as (h & h' & Hi & Hm & ->).
  split; [done|]. exists h, h'. split_and!; [done|done|].
  cbn. apply list_lookup_insert_eq. by eapply lookup_lt_Some.
Qed.

Lemma reset_main_connection_inv ts rc ts' :
  TranServer.reset_main_connection ts = Ok rc ts' ->
  m_page_server_conn_vec ts' = m_page_server_conn_vec ts /\
  ((rc = NO_ERROR /\ main_is_first_connected ts') \/
   (rc = ER_CONN_NO_PAGE_SERVER_AVAILABLE /\ ts' = ts /\
    TranServer.is_page_server_connected ts = false)).
Proof.
  intros H. pose proof (reset_main_connection_result _ _ _ H) as Hres.
  revert H. unfold TranServer.reset_main_connection, main_is_first_connected.
  rewrite bind_gets.
  destruct (list_find _ _) as [[j conn]|] eqn:Hfind.
  - rewrite bind_gets.
    destruct (bool_decide (m_main_conn ts = Some j)) eqn:Hcur; cbn [negb].
    + intros [= <- <-]. apply bool_decide_eq_true in Hcur.
      split; [done|]. left. split; [done|]. by exists j, conn.
    + rewrite bind_modify. intros [= <- <-].
      split; [done|]. left. split; [done|]. by exists j, conn.
  - intros [= <- <-]. split; [done|]. right.
    destruct Hres as [[? _]|?]; [done|done].
Qed.

Lemma not_connected_at ts i :
  TranServer.is_page_server_connected ts = false ->
  (i < List.length (m_page_server_conn_vec ts))%nat ->
  connected_at ts i false.
Proof.
  unfold TranServer.is_page_server_connected. intros Hnone Hi.
  destruct (lookup_lt_is_Some_2 _ _ Hi) as [h Hh]. exists h. split; [done|].
  apply not_true_is_false. intros Hc.
  assert (existsb is_connected (m_page_server_conn_vec ts) = true); [|congruence].
  apply existsb_exists. exists h. split; [|done].
  apply list_elem_of_In. by eapply list_elem_of_lookup_2.
Qed.

Lemma leaves_alone_head w w1 w2 i :
  leaves_alone w 2 i ->
  w_interference w1 = tail (w_interference w) ->
  w_interference w2 = tail (w_interference w1) ->
  forall c, head (w_interference w2) <> Some (Some (i, c)).
Proof.
  unfold leaves_alone. intros H H1 H2 c. rewrite H2, H1.
  specialize (H c). destruct (w_interference w) as [|a [|b [|d l]]]; cbn in *; try done.
  all: try (intros [= E]; by rewrite E in H).
Qed.

Lemma not_leaves_alone_head w w1 i :
  w_interference w1 = tail (w_interference w) ->
  ~ (forall c, head (w_interference w1) <> Some (Some (i, c))) ->
  ~ leaves_alone w 1 i.
Proof.
  unfold leaves_alone. intros H1 Hn H. apply Hn. intros c. rewrite H1.
  specialize (H c). destruct (w_interference w) as [|a [|b l]]; cbn in *; try done.
  all: try (intros [= E]; by rewrite E in H).
Qed.

Lemma push_request_body_iteration ndebug reqid p w c w' :
  TranServer.push_request_body ndebug reqid p w = Ok c w' ->
  push_request_iteration reqid p w w' c.
Proof.
  unfold TranServer.push_request_body, push_request_iteration. intros H.
  bind_inv H as [] w1 E1.
  apply interfere_inv in E1 as (Ev1 & I1 & _ & _ & M1 & L1 & _).
  bind_inv H as i w2 E2. apply main_conn_index_inv in E2 as [-> Hmain].
  exists i. split; [congruence|].
  bind_inv H as err w3 E3.
  apply on_ts_inv in E3 as (ts3 & E3 & ->).
  apply at_handler_frame in E3 as (M3 & h & h' & Hi & E3 & Hi').
  pose proof (handler_push_request_result _ _ _ _ _ E3) as Hres.
  rewrite bind_modify in H.
  destruct Hres as [(-> & Hc & Hp)| ->].
  - rewrite bool_decide_true in H by done. cbn [negb] in H.
    injection H as <- <-. left. cbn. split_and!; [by rewrite Ev1|done|congruence|].
    exists h'. done.
  - replace (bool_decide (ER_CONN_PAGE_SERVER_CANNOT_BE_REACHED = NO_ERROR)) with false in H
      by (symmetry; by apply bool_decide_eq_false).
    cbn [negb] in H. right.
    assert (Hrefused : h' = h /\ is_connected h = false).
    { revert E3. unfold push_request. rewrite bind_gets. unfold is_connected.
      destruct (bool_decide (m_state h = CONNECTED)); cbn [negb].
      - intros E. bind_inv E as [] h1 E'. discriminate E.
      - by intros [= <-]. }
    destruct Hrefused as [-> Hnc].
    set (w3 := record_event _ _) in H.
    bind_inv H as [] w4 E4.
    apply interfere_inv in E4 as (Ev4 & I4 & _ & _ & M4 & L4 & F4).
    bind_inv H as j w5 E5. apply main_conn_index_inv in E5 as [-> Hmain4].
    assert (j = i) as ->.
    { cbn in M4. rewrite M4, M3, Hmain in Hmain4. by injection Hmain4. }
    bind_inv H as connected w6 E6.
    apply on_ts_inv in E6 as (ts6 & E6 & ->).
    apply at_handler_inv in E6 as (h4 & h4' & Hi4 & E6 & ->).
    injection E6 as <- <-.
    rewrite list_insert_id in H by done. rewrite set_m_page_server_conn_vec_id in H.
    rewrite set_w_ts_id in H.
    rewrite bind_modify in H.
    destruct (is_connected h4) eqn:Hc4; cbn [negb] in H.
    + injection H as <- <-. left. cbn.
      split_and!; [by rewrite Ev4; cbn; rewrite Ev1|done|cbn in M4; congruence|by exists h4|].
      eapply (not_leaves_alone_head w w1 i); [exact I1|].
      intros Hleave. cbn in F4. rewrite (F4 i Hleave) in Hi4.
      rewrite Hi' in Hi4. injection Hi4 as <-. congruence.
    + right.
      set (w5 := record_event _ _) in H.
      bind_inv H as [] w7 E7.
      apply interfere_inv in E7 as (Ev7 & I7 & _ & _ & M7 & L7 & F7).
      bind_inv H as rc w8 E8. apply on_ts_inv in E8 as (ts8 & E8 & ->).
      apply reset_main_connection_inv in E8 as (V8 & Hreset).
      rewrite bind_modify in H.
      assert (Hev : g_events w7 = [ev_is_connected i false;
                                   ev_push_request i ER_CONN_PAGE_SERVER_CANNOT_BE_REACHED]
                                  ++ g_events w).
      { rewrite Ev7. cbn. rewrite Ev4. cbn. by rewrite Ev1. }
      assert (Halone : leaves_alone w 2 i -> connected_at ts8 i false).
      { intros Hl. exists h4. split; [|done]. rewrite V8.
        rewrite (F7 i); [exact Hi4|].
        eapply (leaves_alone_head w w1 w4); [exact Hl|exact I1|exact I4]. }
      destruct Hreset as [[-> Hfirst]|(-> & -> & Hnone)].
      * replace (bool_decide (NO_ERROR = ER_CONN_NO_PAGE_SERVER_AVAILABLE)) with false in H
          by (symmetry; by apply bool_decide_eq_false).
        injection H as <- <-. right. cbn.
        split_and!; [by rewrite Hev|done|done|exact Halone].
      * rewrite bool_decide_true in H by done. injection H as <- <-. left. cbn.
        split_and!; [by rewrite Hev|done|cbn in M4, M7; congruence| |done].
        apply not_connected_at; [done|].
        apply lookup_lt_Some in Hi4. cbn in L7. rewrite L7. exact Hi4.
Qed.

Lemma handler_send_receive_effect reqid p reply h r h' :
  send_receive reqid p reply h = Ok r h' ->
  (r = (NO_ERROR, Some reply.2) /\ reply.1 = NO_ERRORS /\
   is_connected h' = true /\ head (g_pushed h') = Some (Request reqid p)) \/
  r = (ER_CONN_PAGE_SERVER_CANNOT_BE_REACHED, None).
Proof.
  unfold send_receive. rewrite bind_gets.
  destruct (bool_decide (m_state h = CONNECTED)) eqn:Hst; cbn [negb].
  - intros H. bind_inv H as e h1 E1.
    unfold conn_send_recv in E1. rewrite bind_gets in E1.
    destruct (m_conn h); [|discriminate]. rewrite bind_modify in E1.
    injection E1 as <- <-.
    destruct (bool_decide (reply.1 = NO_ERRORS)) eqn:He; cbn [negb] in H.
    + injection H as <- <-. left. apply bool_decide_eq_true in He.
      split_and!; [done|done| |done]. unfold is_connected. cbn. exact Hst.
    + injection H as <- <-. by right.
  - intros [= <- <-]. by right.
Qed.

Lemma send_receive_body_iteration ndebug reqid p w c w' :
  TranServer.send_receive_body ndebug reqid p w = Ok c w' ->
  send_receive_iteration reqid p w w' c.
Proof.
  unfold TranServer.send_receive_body, send_receive_iteration. intros H.
  bind_inv H as [] w1 E1.
  apply interfere_inv in E1 as (Ev1 & I1 & R1 & T1 & M1 & L1 & _).
  bind_inv H as i w2 E2. apply main_conn_index_inv in E2 as [-> Hmain].
  exists i. split; [congruence|].
  rewrite bind_gets, bind_modify in H.
  bind_inv H as [err payload_out] w3 E3.
  apply on_ts_inv in E3 as (ts3 & E3 & ->).
  apply at_handler_frame in E3 as (M3 & h & h' & Hi & E3 & Hi').
  pose proof (handler_send_receive_effect _ _ _ _ _ _ E3) as Hres.
  cbn [w_ts next_round_trip] in M3, Hi, Hi'.
  rewrite bind_modify in H.
  destruct Hres as [([= -> ->] & Hrep & Hc & Hp)|[= -> ->]].
  - rewrite bool_decide_true in H by done. cbn [negb] in H.
    injection H as <- <-. cbn. split; [by rewrite T1|]. left.
    rewrite <- R1, <- T1.
    split_and!; [by rewrite Ev1|done|done|congruence|].
    exists h'. done.
  - replace (bool_decide (ER_CONN_PAGE_SERVER_CANNOT_BE_REACHED = NO_ERROR)) with false in H
      by (symmetry; by apply bool_decide_eq_false).
    cbn [negb] in H.
    set (w3 := record_event _ _) in H.
    bind_inv H as [] w4 E4.
    apply interfere_inv in E4 as (Ev4 & I4 & R4 & T4 & M4 & L4 & F4).
    bind_inv H as j w5 E5. apply main_conn_index_inv in E5 as [-> Hmain4].
    assert (j = i) as ->.
    { cbn in M4. rewrite M4, M3, Hmain in Hmain4. by injection Hmain4. }
    bind_inv H as connected w6 E6.
    apply on_ts_inv in E6 as (ts6 & E6 & ->).
    apply at_handler_inv in E6 as (h4 & h4' & Hi4 & E6 & ->).
    injection E6 as <- <-.
    rewrite list_insert_id in H by done. rewrite set_m_page_server_conn_vec_id in H.
    rewrite set_w_ts_id in H.
    rewrite bind_modify in H.
    destruct (is_connected h4) eqn:Hc4; cbn [negb] in H.
    + injection H as <- <-. cbn. split; [cbn in T4; by rewrite T4, T1|]. right. left.
      split_and!; [by rewrite Ev4; cbn; rewrite Ev1|done|cbn in M4; congruence|by exists h4].
    + set (w5 := record_event _ _) in H.
      bind_inv H as [] w7 E7.
      apply interfere_inv in E7 as (Ev7 & I7 & R7 & T7 & M7 & L7 & F7).
      bind_inv H as rc w8 E8. apply on_ts_inv in E8 as (ts8 & E8 & ->).
      apply reset_main_connection_inv in E8 as (V8 & Hreset).
      rewrite bind_modify in H.
      assert (Hev : g_events w7 = [ev_is_connected i false;
                                   ev_send_receive i ER_CONN_PAGE_SERVER_CANNOT_BE_REACHED]
                                  ++ g_events w).
      { rewrite Ev7. cbn. rewrite Ev4. cbn. by rewrite Ev1. }
      assert (Hrt : w_round_trips w7 = S (w_round_trips w)).
      { cbn in T7, T4. by rewrite T7, T4, T1. }
      assert (Halone : leaves_alone w 2 i -> connected_at ts8 i false).
      { intros Hl. exists h4. split; [|done]. rewrite V8.
        rewrite (F7 i); [exact Hi4|].
        eapply (leaves_alone_head w w1 w4); [exact Hl|exact I1|exact I4]. }
      destruct Hreset as [[-> Hfirst]|(-> & -> & Hnone)].
      * replace (bool_decide (NO_ERROR = ER_CONN_NO_PAGE_SERVER_AVAILABLE)) with false in H
          by (symmetry; by apply bool_decide_eq_false).
        injection H as <- <-. cbn. split; [exact Hrt|]. right. right. right.
        split_and!; [by rewrite Hev|done|done|exact Halone].
      * rewrite bool_decide_true in H by done. injection H as <- <-. cbn.
        split; [exact Hrt|]. right. right. left.
        split_and!; [by rewrite Hev|done|cbn in M4, M7; congruence| |done].
        apply not_connected_at; [done|].
        apply lookup_lt_Some in Hi4. cbn in L7. rewrite L7. exact Hi4.
Qed.

(** C8. In [push_request] and in [send_receive], every iteration of the loop
    calls the handler that is the main connection, and one that runs to
    completion is of one of four kinds. The call succeeds: the loop ends.
    The call fails and the main connection reports connected: the loop ends,
    and [reset_main_connection] is not invoked. The call fails, the main
    connection is not connected, and [reset_main_connection], which is then
    invoked, finds no page server: the loop ends, [push_request] returning
    nothing and [send_receive] returning
    [ER_CONN_NO_PAGE_SERVER_AVAILABLE]. Or [reset_main_connection] succeeds:
    the loop goes round again with the first connected handler as main
    connection. *)
Theorem request_paths_error_propagation (ndebug : bool) (reqid : tran_to_page_request)
    (p : payload) (w : world) :
  (forall c w', TranServer.push_request_body ndebug reqid p w = Ok c w' ->
     push_request_iteration reqid p w w' c /\
     forall fuel,
       TranServer.push_request (S fuel) ndebug reqid p w
       = match c with
         | Break r => Some (Ok r w')
         | Continue => TranServer.push_request fuel ndebug reqid p w'
         end) /\
  (forall c w', TranServer.send_receive_body ndebug reqid p w = Ok c w' ->
     send_receive_iteration reqid p w w' c /\
     forall fuel,
       TranServer.send_receive (S fuel) ndebug reqid p w
       = match c with
         | Break r => Some (Ok r w')
         | Continue => TranServer.send_receive fuel ndebug reqid p w'
         end).
Proof.
  split; intros c w' H.
  - split; [by apply (push_request_body_iteration ndebug)|].
    intros fuel. unfold TranServer.push_request.
    destruct c; [by apply iterate_Continue|by apply iterate_Break].
  - split; [by apply (send_receive_body_iteration ndebug)|].
    intros fuel. unfold TranServer.send_receive.
    destruct c; [by apply iterate_Continue|by apply iterate_Break].
Qed.

Lemma request_paths_error_propagation_witness :
  (exists w',
      TranServer.push_request_body false GET_BOOT_INFO (payload_bytes "boot") rotating_world
      = Ok Continue w' /\
      push_request_iteration GET_BOOT_INFO (payload_bytes "boot") rotating_world w' Continue /\
      TranServer.push_request 2 false GET_BOOT_INFO (payload_bytes "boot") rotating_world
      = TranServer.push_request 1 false GET_BOOT_INFO (payload_bytes "boot") w' /\
      g_events w' = [ev_reset_main_connection NO_ERROR; ev_is_connected 1 false;
                     ev_push_request 1 ER_CONN_PAGE_SERVER_CANNOT_BE_REACHED] /\
      m_main_conn (w_ts w') = Some 0%nat) /\
  (exists w',
      TranServer.push_request_body false GET_BOOT_INFO (payload_bytes "boot") catching_up_world
      = Ok (Break tt) w' /\
      push_request_iteration GET_BOOT_INFO (payload_bytes "boot") catching_up_world w'
                             (Break tt) /\
      TranServer.push_request 1 false GET_BOOT_INFO (payload_bytes "boot") catching_up_world
      = Some (Ok tt w') /\
      g_events w' = [ev_is_connected 0 true;
                     ev_push_request 0 ER_CONN_PAGE_SERVER_CANNOT_BE_REACHED]) /\
  (exists w',
      TranServer.send_receive_body false GET_BOOT_INFO (payload_bytes "boot")
        (quiet_world (example_server_in [IDLE; DISCONNECTING] (Some 1%nat)))
      = Ok (Break (ER_CONN_NO_PAGE_SERVER_AVAILABLE, None)) w' /\
      send_receive_iteration GET_BOOT_INFO (payload_bytes "boot")
        (quiet_world (example_server_in [IDLE; DISCONNECTING] (Some 1%nat))) w'
        (Break (ER_CONN_NO_PAGE_SERVER_AVAILABLE, None)) /\
      TranServer.send_receive 1 false GET_BOOT_INFO (payload_bytes "boot")
        (quiet_world (example_server_in [IDLE; DISCONNECTING] (Some 1%nat)))
      = Some (Ok (ER_CONN_NO_PAGE_SERVER_AVAILABLE, None) w')).
Proof.
  split; [|split].
  - eassert (H : TranServer.push_request_body false GET_BOOT_INFO (payload_bytes "boot")
                   rotating_world = Ok Continue _) by (vm_compute; reflexivity).
    eexists. split; [exact H|].
    destruct (proj1 (request_paths_error_propagation false GET_BOOT_INFO (payload_bytes "boot")
                       rotating_world) _ _ H) as [Hshape Hloop].
    split; [exact Hshape|]. split; [exact (Hloop 1%nat)|]. split; reflexivity.
  - eassert (H : TranServer.push_request_body false GET_BOOT_INFO (payload_bytes "boot")
                   catching_up_world = Ok (Break tt) _) by (vm_compute; reflexivity).
    eexists. split; [exact H|].
    destruct (proj1 (request_paths_error_propagation false GET_BOOT_INFO (payload_bytes "boot")
                       catching_up_world) _ _ H) as [Hshape Hloop].
    split; [exact Hshape|]. split; [exact (Hloop 0%nat)|]. reflexivity.
  - eassert (H : TranServer.send_receive_body false GET_BOOT_INFO (payload_bytes "boot")
                   (quiet_world (example_server_in [IDLE; DISCONNECTING] (Some 1%nat)))
                 = Ok (Break (ER_CONN_NO_PAGE_SERVER_AVAILABLE, None)) _)
      by (vm_compute; reflexivity).
    eexists. split; [exact H|].
    destruct (proj2 (request_paths_error_propagation false GET_BOOT_INFO (payload_bytes "boot")
                       (quiet_world (example_server_in [IDLE; DISCONNECTING] (Some 1%nat))))
                _ _ H) as [Hshape Hloop].
    split; [exact Hshape|]. exact (Hloop 0%nat).
Defined.

(** * Further properties *)

(** ** The invariant of a handler *)


Lemma handler_wf_not_pending tv h :
  handler_wf tv h = true ->
  m_state h = CONNECTED \/ m_state h = CONNECTING ->
  is_pending (m_disconn_future h) = false.
Proof.
  unfold handler_wf. intros Hwf. apply andb_true_iff in Hwf as [Hinv _].
  by apply handler_inv_not_pending.
Qed.

Lemma bind_assoc {St A B C} (m : M St A) (f : A -> M St B) (g : B -> M St C) s :
  bind (bind m f) g s = bind m (fun a => bind (f a) g) s.
Proof. unfold bind. by destruct (m s). Qed.

(** The parts are those of the calls. *)
Lemma connect_parts ndebug tv srv_chn unsent_lsa h :
  connect ndebug tv srv_chn unsent_lsa h
  = (do e <- connect_locked ndebug tv srv_chn;
     if bool_decide (e = NO_ERROR)
     then
       do _ <- transition_begin ndebug tv;
       do _ <- transition_end ndebug tv unsent_lsa;
       ret NO_ERROR
     else ret e) h.
Proof.
  unfold connect, connect_locked, transition_begin, transition_end,
    transition_to_connected, ATS.transition_to_connected, PTS.transition_to_connected,
    add_sink, request_catch_up, ps_conn_error_lambda, set_connection,
    ATS.send_start_catch_up_request, push_request_regardless_of_state, conn_push.
  generalize (bool_decide (chn_connect srv_chn = NO_ERRORS)).
  generalize (bool_decide (chn_send_int srv_chn = NO_ERRORS)).
  generalize (bool_decide ((chn_recv_int srv_chn).1 = NO_ERRORS)).
  generalize (bool_decide ((chn_recv_int srv_chn).2 = int_wrap (tv_conn_type tv))).
  intros b4 b3 b2 b1.
  destruct (get_main_connection_info tv) as [[res hostname] port].
  destruct h as [n st cn fut saved hook ws sp pu].
  destruct (tv_kind tv), (lsa_is_null unsent_lsa), ndebug, st, cn, hook, b1, b2, b3, b4, res;
    reflexivity.
Qed.

Lemma teardown_parts ndebug tv with_disc_msg h :
  teardown ndebug tv with_disc_msg h
  = (do _ <- on_disconnecting tv;
     do _ <- conn_stop_incoming_communication_thread;
     teardown_locked ndebug tv with_disc_msg) h.
Proof. reflexivity. Qed.

Lemma recv_error_handler_parts ndebug error_code h :
  recv_error_handler ndebug error_code h
  = (do _ <- disconnect_async ndebug false; get_channel_id) h.
Proof. reflexivity. Qed.

Lemma send_error_handler_parts ndebug error_code h :
  ignore (send_error_handler ndebug error_code) h
  = (do _ <- get_channel_id;
     if bool_decide (error_code = CONNECTION_CLOSED)
     then disconnect_async ndebug false
     else ret tt) h.
Proof.
  unfold send_error_handler, ignore.
  destruct (bool_decide (error_code = CONNECTION_CLOSED)).
  - unfold bind. destruct (get_channel_id h) as [[] h1|]; [|reflexivity].
    by destruct (disconnect_async ndebug false h1) as [[] h2|].
  - unfold bind. by destruct (get_channel_id h) as [[] h1|].
Qed.













(** X21. The prior-sender sink of a handler can outlive its connection: when
    the error callback of the receiving thread runs between the two halves
    of [connect ()] and the teardown job it starts runs [on_disconnecting ()]
    before [transition_to_connected ()] registers the handler, every part
    runs to completion, in either build, and the handler ends idle, without a
    connection, and still registered with the prior sender. The next message
    of the prior sender then dereferences the null [m_conn], and the next
    [connect ()] fails [assert (m_prior_sender_sink_hook_func == nullptr)]
    in a build with assertions. *)
Theorem sink_outlives_connection (ndebug : bool) (n : node) :
  exists h,
    run_parts ndebug active_view disconnected_while_connecting (new_connection_handler n)
    = Ok tt h /\
    parts_respect ndebug active_view disconnected_while_connecting (new_connection_handler n) /\
    m_state h = IDLE /\
    m_conn h = None /\
    m_prior_sender_sink_hook_func h = true /\
    (forall message, message <> EmptyString ->
       exists h', ATS.prior_sender_sink_hook ndebug message h = Fault null_dereference h') /\
    (ndebug = false ->
       exists h', connect ndebug active_view good_channel NULL_LSA h
                  = Fault assertion_failure h').
Proof.
  destruct n as [port host]. destruct ndebug.
  - eexists. split; [vm_compute; reflexivity|]. split; [vm_compute; tauto|].
    split; [reflexivity|]. split; [reflexivity|]. split; [reflexivity|].
    split; [|discriminate].
    intros message Hm. eexists. unfold ATS.prior_sender_sink_hook. reflexivity.
  - eexists. split; [vm_compute; reflexivity|]. split; [vm_compute; tauto|].
    split; [reflexivity|]. split; [reflexivity|]. split; [reflexivity|].
    split.
    + intros message Hm. eexists. unfold ATS.prior_sender_sink_hook, assert.
      destruct message; [done|]. reflexivity.
    + intros _. eexists. vm_compute. reflexivity.
Qed.

Lemma sink_outlives_connection_witness :
  exists h,
    run_parts false active_view disconnected_while_connecting
      (new_connection_handler (Node 7001 "ps")) = Ok tt h /\
    m_state h = IDLE /\
    m_conn h = None /\
    m_prior_sender_sink_hook_func h = true /\
    (exists h', ATS.prior_sender_sink_hook false "log" h = Fault null_dereference h') /\
    (exists h', connect false active_view good_channel NULL_LSA h
                = Fault assertion_failure h').
Proof.
  destruct (sink_outlives_connection false (Node 7001 "ps"))
    as (h & Hrun & _ & Hst & Hconn & Hhook & Hsink & Hconnect).
  exists h. split; [exact Hrun|]. split; [exact Hst|]. split; [exact Hconn|].
  split; [exact Hhook|]. split; [by apply Hsink|by apply Hconnect].
Defined.

(** ** Disconnecting *)

Lemma run_teardown_effect ndebug tv (b : bool) h :
  handler_wf tv h = true ->
  m_state h = CONNECTED \/ m_state h = CONNECTING ->
  wp (run_teardown ndebug tv)
     (fun _ h2 =>
        m_state h2 = IDLE /\ m_conn h2 = None /\
        m_prior_sender_sink_hook_func h2 = false /\
        m_disconn_future h2 = future_ready /\
        g_pushed h2
        = (if b
           then Request SEND_DISCONNECT_MSG (payload_int (int_wrap (tv_conn_type tv)))
                :: g_pushed h
           else g_pushed h) /\
        m_saved_lsa h2 = m_saved_lsa h /\ m_node h2 = m_node h)
     (fun _ => False) (spawn_future b (set_m_state DISCONNECTING h)).
Proof.
  intros Hinv Hst.
  destruct h as [n st cn fut saved hook ws sp pu].
  unfold handler_wf, handler_inv in Hinv. cbn in Hinv, Hst.
  unfold wp, run_teardown, teardown, on_disconnecting,
    ATS.on_disconnecting, PTS.on_disconnecting, conn_stop_incoming_communication_thread,
    get_channel_id, conn_push.
  generalize (int_wrap (tv_conn_type tv)). intros ct.
  destruct Hst as [-> | ->];
    (destruct cn as [[started running]|]; [|discriminate Hinv]);
    destruct (tv_kind tv), hook; cbn [negb] in Hinv; rewrite ?andb_false_r in Hinv;
    try discriminate Hinv; destruct b, ndebug; cbv; done.
Qed.

(** X3. Disconnecting a connected or connecting handler goes through
    [DISCONNECTING] to [IDLE]: [disconnect_async] moves the handler to
    [DISCONNECTING] at once, where every [push_request] is refused; the
    teardown job then runs without a fault, unregisters the handler from the
    prior sender, pushes [SEND_DISCONNECT_MSG] as the last request exactly
    when [with_disc_msg] was given, drops the connection and leaves the
    handler idle, with its node and its saved LSA untouched. *)
Theorem disconnect_then_teardown (ndebug : bool) (tv : ts_view) (b : bool)
    (h : connection_handler) :
  handler_wf tv h = true ->
  m_state h = CONNECTED \/ m_state h = CONNECTING ->
  exists h1 h2,
    disconnect_async ndebug b h = Ok tt h1 /\
    m_state h1 = DISCONNECTING /\
    (forall reqid p,
       push_request reqid p h1 = Ok ER_CONN_PAGE_SERVER_CANNOT_BE_REACHED h1) /\
    run_teardown ndebug tv h1 = Ok tt h2 /\
    m_state h2 = IDLE /\ m_conn h2 = None /\
    m_prior_sender_sink_hook_func h2 = false /\
    m_disconn_future h2 = future_ready /\
    g_pushed h2
    = (if b
       then Request SEND_DISCONNECT_MSG (payload_int (int_wrap (tv_conn_type tv))) :: g_pushed h
       else g_pushed h) /\
    m_saved_lsa h2 = m_saved_lsa h /\ m_node h2 = m_node h.
Proof.
  intros Hinv Hst.
  destruct (wp_no_fault _ _ _ (run_teardown_effect ndebug tv b h Hinv Hst))
    as ([] & h2 & Hrun & Hpost).
  exists (spawn_future b (set_m_state DISCONNECTING h)), h2.
  split; [apply disconnect_async_spawns; [done|by eapply handler_wf_not_pending]|].
  split; [reflexivity|].
  split; [intros; reflexivity|].
  split; [exact Hrun|exact Hpost].
Qed.

Lemma disconnect_then_teardown_witness :
  exists h1 h2,
    disconnect_async false true (example_handler CONNECTED NULL_LSA) = Ok tt h1 /\
    m_state h1 = DISCONNECTING /\
    (forall reqid p,
       push_request reqid p h1 = Ok ER_CONN_PAGE_SERVER_CANNOT_BE_REACHED h1) /\
    run_teardown false active_view h1 = Ok tt h2 /\
    m_state h2 = IDLE /\ m_conn h2 = None /\
    m_prior_sender_sink_hook_func h2 = false /\
    m_disconn_future h2 = future_ready /\
    g_pushed h2
    = (if true
       then Request SEND_DISCONNECT_MSG (payload_int (int_wrap (tv_conn_type active_view)))
            :: g_pushed (example_handler CONNECTED NULL_LSA)
       else g_pushed (example_handler CONNECTED NULL_LSA)) /\
    m_saved_lsa h2 = m_saved_lsa (example_handler CONNECTED NULL_LSA) /\
    m_node h2 = m_node (example_handler CONNECTED NULL_LSA).
Proof.
  apply (disconnect_then_teardown false active_view true); [reflexivity|by left].
Defined.

(** ** What the request paths return *)







Lemma at_handler_push_request_connected ts i conn reqid p :
  m_page_server_conn_vec ts !! i = Some conn ->
  is_connected conn = true ->
  m_conn conn <> None ->
  at_handler i (push_request reqid p) ts
  = Ok NO_ERROR (set_m_page_server_conn_vec
                   (<[i := record_push (Request reqid p) conn]> (m_page_server_conn_vec ts)) ts).
Proof.
  intros Hi Hc Hconn. unfold at_handler. rewrite Hi.
  unfold push_request, bind, gets, conn_push. unfold is_connected in Hc. rewrite Hc.
  cbn [negb]. unfold bind, gets. destruct (m_conn conn); [reflexivity|done].
Qed.

(** X5. With no other thread acting on the handlers, [push_request] hands
    the request to exactly one connection, once, or to none: to the main
    connection when it is connected; otherwise to the first connected
    handler, which becomes the main connection; and when no handler is
    connected the request is dropped, the handlers and the main connection
    being left as they were and the caller being told nothing. *)
Theorem push_request_delivery (fuel : nat) (ndebug : bool) (reqid : tran_to_page_request)
    (p : payload) (w : world) (i : nat) (hi : connection_handler) :
  w_interference w = [] ->
  m_main_conn (w_ts w) = Some i ->
  m_page_server_conn_vec (w_ts w) !! i = Some hi ->
  Forall (fun h => is_connected h = true -> m_conn h <> None)
         (m_page_server_conn_vec (w_ts w)) ->
  exists w',
    TranServer.push_request (S (S fuel)) ndebug reqid p w = Some (Ok tt w') /\
    match list_find (fun conn => is_connected conn) (m_page_server_conn_vec (w_ts w)) with
    | Some (k, _) =>
        delivered_to reqid p (if is_connected hi then i else k) (w_ts w) (w_ts w')
    | None => w_ts w' = w_ts w
    end.
Proof.
  intros Hquiet Hmain Hi Hconn.
  unfold TranServer.push_request.
  destruct (is_connected hi) eqn:Hc.
  - (* the main connection is connected *)
    assert (Hnn : m_conn hi <> None).
    { rewrite Forall_forall in Hconn. apply Hconn; [|done]. by eapply list_elem_of_lookup_2. }
    eexists. split.
    + apply iterate_Break. unfold TranServer.push_request_body.
      bind_step (interfere_quiet ndebug w Hquiet).
      bind_step (main_conn_index_some w i Hmain).
      bind_step (on_ts_Ok _ w _ _ (at_handler_push_request_connected _ i hi reqid p Hi Hc Hnn)).
      rewrite bind_modify. rewrite bool_decide_true by done. reflexivity.
    + destruct (list_find _ _) as [[k hk]|] eqn:Hfind.
      * exists hi. cbn. split_and!; done.
      * apply list_find_None in Hfind. rewrite Forall_forall in Hfind.
        exfalso. apply (Hfind hi); [by eapply list_elem_of_lookup_2|by rewrite Hc].
  - (* the main connection is not connected *)
    set (w1 := record_event (ev_push_request i ER_CONN_PAGE_SERVER_CANNOT_BE_REACHED) w).
    set (w2 := record_event (ev_is_connected i false) w1).
    assert (Hprefix : forall (k : error_code -> M world (control unit)),
               bind (interfere ndebug)
                 (fun _ => bind main_conn_index
                   (fun i => bind (on_ts (at_handler i (push_request reqid p)))
                     (fun err_code =>
                        bind (modify (record_event (ev_push_request i err_code)))
                          (fun _ =>
                             if negb (bool_decide (err_code = NO_ERROR))
                             then
                               bind (interfere ndebug)
                                 (fun _ => bind main_conn_index
                                   (fun i => bind (on_ts (at_handler i (gets is_connected)))
                                     (fun connected =>
                                        bind (modify (record_event (ev_is_connected i connected)))
                                          (fun _ =>
                                             if negb connected
                                             then bind (interfere ndebug)
                                                    (fun _ => bind (on_ts TranServer.reset_main_connection) k)
                                             else ret (Break tt)))))
                             else ret (Break tt))))) w
               = bind (on_ts TranServer.reset_main_connection) k w2).
    { intros k.
      bind_step (interfere_quiet ndebug w Hquiet).
      bind_step (main_conn_index_some w i Hmain).
      bind_step (on_ts_Ok _ w _ _ (at_handler_push_request_not_connected _ i hi reqid p Hi Hc)).
      rewrite set_w_ts_same by reflexivity. rewrite bind_modify.
      rewrite bool_decide_false by done. cbn [negb]. fold w1.
      bind_step (interfere_quiet ndebug w1 Hquiet).
      bind_step (main_conn_index_some w1 i Hmain).
      bind_step (on_ts_Ok _ w1 _ _ (at_handler_gets _ i hi is_connected Hi)).
      rewrite set_w_ts_same by reflexivity. rewrite bind_modify. rewrite Hc. cbn [negb].
      fold w2.
      bind_step (interfere_quiet ndebug w2 Hquiet). reflexivity. }
    destruct (list_find _ _) as [[k hk]|] eqn:Hfind.
    + (* rotation to the first connected handler *)
      pose proof Hfind as Hfind'.
      apply list_find_Some in Hfind' as (Hk & Hck & Hfirst).
      apply Is_true_true in Hck.
      assert (Hnn : m_conn hk <> None).
      { rewrite Forall_forall in Hconn. apply Hconn; [|done]. by eapply list_elem_of_lookup_2. }
      assert (Hreset : TranServer.reset_main_connection (w_ts w2)
                       = Ok NO_ERROR (set_m_main_conn (Some k) (w_ts w))).
      { apply reset_main_connection_some with (conn := hk); [exact Hk|exact Hck|].
        intros j conn' Hlt Hj. apply not_true_is_false. intros Hcj.
        apply (Hfirst j conn' Hj Hlt). by rewrite Hcj. }
      set (w3 := record_event (ev_reset_main_connection NO_ERROR)
                   (set_w_ts (set_m_main_conn (Some k) (w_ts w)) w2)).
      assert (H1 : TranServer.push_request_body ndebug reqid p w = Ok Continue w3).
      { unfold TranServer.push_request_body. rewrite Hprefix.
        bind_step (on_ts_Ok _ w2 _ _ Hreset). rewrite bind_modify.
        rewrite bool_decide_false by done. reflexivity. }
      rewrite (iterate_Continue _ _ _ _ H1).
      eexists. split.
      * apply iterate_Break. unfold TranServer.push_request_body.
        bind_step (interfere_quiet ndebug w3 Hquiet).
        bind_step (main_conn_index_some w3 k eq_refl).
        bind_step (on_ts_Ok _ w3 _ _
                     (at_handler_push_request_connected (w_ts w3) k hk reqid p Hk Hck Hnn)).
        rewrite bind_modify. rewrite bool_decide_true by done. reflexivity.
      * exists hk. cbn. split_and!; done.
    + (* no handler is connected *)
      assert (Hnone : forall conn, conn ∈ m_page_server_conn_vec (w_ts w2) ->
                                   is_connected conn = false).
      { apply list_find_None in Hfind. rewrite Forall_forall in Hfind.
        intros conn Hin. apply not_true_is_false. intros Hcc.
        apply (Hfind conn Hin). by rewrite Hcc. }
      eexists. split.
      * apply iterate_Break. unfold TranServer.push_request_body. rewrite Hprefix.
        bind_step (on_ts_Ok _ w2 _ _ (reset_main_connection_none _ Hnone)).
        rewrite bind_modify. rewrite bool_decide_true by done. reflexivity.
      * reflexivity.
Qed.

Lemma push_request_delivery_witness :
  exists w',
    TranServer.push_request 2 false SEND_LOG_PRIOR_LIST (payload_bytes "log")
      (quiet_world (example_server_in [DISCONNECTING; CONNECTED; CONNECTED] (Some 0%nat)))
    = Some (Ok tt w') /\
    delivered_to SEND_LOG_PRIOR_LIST (payload_bytes "log") 1
      (example_server_in [DISCONNECTING; CONNECTED; CONNECTED] (Some 0%nat)) (w_ts w').
Proof.
  apply (push_request_delivery 0 false SEND_LOG_PRIOR_LIST (payload_bytes "log")
           (quiet_world (example_server_in [DISCONNECTING; CONNECTED; CONNECTED] (Some 0%nat)))
           0%nat (example_handler DISCONNECTING NULL_LSA)).
  - reflexivity.
  - reflexivity.
  - reflexivity.
  - repeat constructor; cbn; done.
Defined.

(** ** The consensus LSA and the quorum *)

(** X22. Let N be the number of handlers (one that fits an [int]),
    q = N / 2 + 1 and S the saved LSAs of the connected handlers, and let the
    logging of the quorum be off, or the message for the log be shorter than
    the buffer of 1024 bytes it is built in. When |S| < q the consensus LSA
    is [NULL_LSA]; otherwise it is the element at index |S| - q of S sorted
    in ascending order, whichever way S is sorted. *)
Theorem compute_consensus_lsa_quorum (ndebug er_log_quorum_consensus : bool)
    (ts : tran_server) :
  Z.of_nat (List.length (m_page_server_conn_vec ts)) <= INT_MAX ->
  log_fits er_log_quorum_consensus (m_page_server_conn_vec ts) ->
  let N := List.length (m_page_server_conn_vec ts) in
  let q := (N / 2 + 1)%nat in
  let S := connected_saved_lsa (m_page_server_conn_vec ts) in
  ((List.length S < q)%nat ->
   ActiveTranServer.compute_consensus_lsa ndebug er_log_quorum_consensus ts
   = Ok NULL_LSA ts) /\
  ((q <= List.length S)%nat ->
   forall sorted, Sorted lsa_le sorted -> sorted ≡ₚ S ->
   exists consensus_lsa,
     sorted !! (List.length S - q)%nat = Some consensus_lsa /\
     ActiveTranServer.compute_consensus_lsa ndebug er_log_quorum_consensus ts
     = Ok consensus_lsa ts).
Proof.
  intros Hmax Hfit N q S.
  rewrite (compute_consensus_lsa_fits ndebug er_log_quorum_consensus ts Hmax Hfit).
  fold N q S. split.
  - intros Hlt. destruct (Nat.leb_spec q (List.length S)); [lia|reflexivity].
  - intros Hge sorted Hsorted Hperm.
    destruct (Nat.leb_spec q (List.length S)); [|lia].
    rewrite (std_sort_unique S sorted Hsorted Hperm).
    assert (Hlen : List.length sorted = List.length S) by (rewrite Hperm; reflexivity).
    destruct (lookup_lt_is_Some_2 sorted (List.length S - q)%nat) as [v Hv]; [lia|].
    exists v. rewrite Hv. split; reflexivity.
Qed.

Lemma compute_consensus_lsa_quorum_witness :
  ActiveTranServer.compute_consensus_lsa false true (example_server 5 [5; 5; 6; 9; 10])
    = Ok (LSA 6 0) (example_server 5 [5; 5; 6; 9; 10]) /\
  ActiveTranServer.compute_consensus_lsa false true (example_server 2 [9; 10])
    = Ok (LSA 9 0) (example_server 2 [9; 10]) /\
  ActiveTranServer.compute_consensus_lsa false true (example_server 5 [5; 6; 9; 10])
    = Ok (LSA 6 0) (example_server 5 [5; 6; 9; 10]) /\
  ActiveTranServer.compute_consensus_lsa false true (example_server 3 [9; 10])
    = Ok (LSA 9 0) (example_server 3 [9; 10]) /\
  ActiveTranServer.compute_consensus_lsa false true (example_server 3 [100])
    = Ok NULL_LSA (example_server 3 [100]) /\
  ActiveTranServer.compute_consensus_lsa true false (crowded_server 100)
    = Ok (LSA 123456789 0) (crowded_server 100).
Proof.
  assert (Hex : forall ndebug er_log ts,
             Z.of_nat (List.length (m_page_server_conn_vec ts)) <= INT_MAX ->
             log_fits er_log (m_page_server_conn_vec ts) ->
             (List.length (m_page_server_conn_vec ts) / 2 + 1
              <= List.length (connected_saved_lsa (m_page_server_conn_vec ts)))%nat ->
             Sorted lsa_le (connected_saved_lsa (m_page_server_conn_vec ts)) ->
             forall v,
               connected_saved_lsa (m_page_server_conn_vec ts)
                 !! (List.length (connected_saved_lsa (m_page_server_conn_vec ts))
                     - (List.length (m_page_server_conn_vec ts) / 2 + 1))%nat
               = Some v ->
               ActiveTranServer.compute_consensus_lsa ndebug er_log ts = Ok v ts).
  { intros ndebug er_log ts Hmax Hfit Hq Hsorted v Hv.
    destruct (compute_consensus_lsa_quorum ndebug er_log ts Hmax Hfit) as [_ Hmet].
    destruct (Hmet Hq _ Hsorted (reflexivity _)) as [v' [Hv' Heq]].
    rewrite Hv in Hv'. injection Hv' as <-. exact Heq. }
  refine (conj _ (conj _ (conj _ (conj _ (conj _ _))))).
  - apply Hex; [vm_compute; discriminate | right; vm_compute; reflexivity
               | vm_compute; lia | | reflexivity].
    vm_compute. repeat constructor.
  - apply Hex; [vm_compute; discriminate | right; vm_compute; reflexivity
               | vm_compute; lia | | reflexivity].
    vm_compute. repeat constructor.
  - apply Hex; [vm_compute; discriminate | right; vm_compute; reflexivity
               | vm_compute; lia | | reflexivity].
    vm_compute. repeat constructor.
  - apply Hex; [vm_compute; discriminate | right; vm_compute; reflexivity
               | vm_compute; lia | | reflexivity].
    vm_compute. repeat constructor.
  - apply (compute_consensus_lsa_quorum false true (example_server 3 [100])).
    + vm_compute. discriminate.
    + right. vm_compute. reflexivity.
    + vm_compute. lia.
  - apply Hex; [vm_compute; discriminate | by left | vm_compute; lia | | reflexivity].
    vm_compute. repeat constructor.
Defined.

Lemma agreeing_connected_saved_lsa l vec :
  agreeing l vec = List.length (filter (lsa_le l) (connected_saved_lsa vec)).
Proof.
  unfold agreeing, connected_saved_lsa.
  induction vec as [|conn vec IH]; [reflexivity|].
  rewrite !filter_cons. destruct (is_connected conn) eqn:Hc; cbn [andb].
  - rewrite (decide_True (P := Is_true true)) by exact I.
    rewrite fmap_cons, filter_cons.
    destruct (lsa_geb (get_saved_lsa conn) l) eqn:Hge.
    + rewrite decide_True by exact I.
      rewrite decide_True by (by apply lsa_geb_true).
      cbn [List.length]. by rewrite IH.
    + rewrite decide_False by exact id.
      rewrite decide_False; [exact IH|].
      intros Hle. apply lsa_geb_true in Hle. congruence.
  - rewrite decide_False by exact id.
    rewrite (decide_False (P := Is_true false)) by exact id. exact IH.
Qed.

Lemma filter_length_all {A} (P : A -> Prop) `{!forall x, Decision (P x)} (l : list A) :
  Forall P l -> List.length (filter P l) = List.length l.
Proof.
  induction 1 as [|x l Hx _ IH]; [reflexivity|].
  rewrite filter_cons, decide_True by done. cbn [List.length]. by rewrite IH.
Qed.

Lemma filter_length_none {A} (P : A -> Prop) `{!forall x, Decision (P x)} (l : list A) :
  Forall (fun x => ~ P x) l -> List.length (filter P l) = 0%nat.
Proof.
  induction 1 as [|x l Hx _ IH]; [reflexivity|].
  by rewrite filter_cons, decide_False.
Qed.

Lemma sorted_split (s : list log_lsa) k c :
  Sorted lsa_le s -> s !! k = Some c ->
  Forall (fun x => lsa_le x c) (take k s) /\ Forall (lsa_le c) (drop (S k) s).
Proof.
  intros Hs Hk. apply Sorted_StronglySorted in Hs; [|apply _].
  rewrite <- (take_drop_middle s k c Hk) in Hs.
  split.
  - apply Forall_forall. intros x Hx.
    apply (StronglySorted_app_1_elem_of _ _ _ x c Hs Hx). apply list_elem_of_here.
  - apply StronglySorted_app_1_r in Hs. by apply StronglySorted_cons in Hs as [? _].
Qed.

Lemma sorted_count_ge (s : list log_lsa) k c :
  Sorted lsa_le s -> s !! k = Some c ->
  (List.length s - k <= List.length (filter (lsa_le c) s))%nat.
Proof.
  intros Hs Hk. destruct (sorted_split s k c Hs Hk) as [_ Hhi].
  rewrite <- (take_drop_middle s k c Hk) at 2.
  rewrite filter_app, filter_cons, decide_True by reflexivity.
  rewrite length_app. cbn [List.length].
  rewrite (filter_length_all _ _ Hhi), length_drop. lia.
Qed.

Lemma sorted_count_gt (s : list log_lsa) k c l :
  Sorted lsa_le s -> s !! k = Some c -> lsa_gtb l c = true ->
  (List.length (filter (lsa_le l) s) < List.length s - k)%nat.
Proof.
  intros Hs Hk Hgt. destruct (sorted_split s k c Hs Hk) as [Hlo _].
  apply lsa_gtb_true in Hgt as [Hcl Hne].
  assert (Hc : ~ lsa_le l c).
  { intros Hlc. apply Hne. by apply (anti_symm lsa_le). }
  pose proof (lookup_lt_Some _ _ _ Hk) as Hlt.
  rewrite <- (take_drop_middle s k c Hk) at 1.
  rewrite filter_app, filter_cons, decide_False by exact Hc.
  rewrite length_app, filter_length_none.
  - pose proof (length_filter (lsa_le l) (drop (S k) s)) as Hle.
    rewrite length_drop in Hle. lia.
  - eapply Forall_impl; [exact Hlo|]. intros x Hx Hlx. apply Hc. by etrans.
Qed.

Lemma compute_consensus_lsa_met ndebug er_log ts :
  Z.of_nat (List.length (m_page_server_conn_vec ts)) <= INT_MAX ->
  log_fits er_log (m_page_server_conn_vec ts) ->
  (List.length (m_page_server_conn_vec ts) / 2 + 1
   <= List.length (connected_saved_lsa (m_page_server_conn_vec ts)))%nat ->
  exists c,
    std_sort (connected_saved_lsa (m_page_server_conn_vec ts))
      !! (List.length (connected_saved_lsa (m_page_server_conn_vec ts))
          - (List.length (m_page_server_conn_vec ts) / 2 + 1))%nat = Some c /\
    ActiveTranServer.compute_consensus_lsa ndebug er_log ts = Ok c ts.
Proof.
  intros Hmax Hfit Hge.
  rewrite (compute_consensus_lsa_fits ndebug er_log ts Hmax Hfit).
  destruct (Nat.leb_spec (List.length (m_page_server_conn_vec ts) / 2 + 1)
              (List.length (connected_saved_lsa (m_page_server_conn_vec ts)))); [|lia].
  destruct (lookup_lt_is_Some_2 (std_sort (connected_saved_lsa (m_page_server_conn_vec ts)))
              (List.length (connected_saved_lsa (m_page_server_conn_vec ts))
               - (List.length (m_page_server_conn_vec ts) / 2 + 1))%nat) as [v Hv].
  { rewrite std_sort_length. lia. }
  exists v. rewrite Hv. split; reflexivity.
Qed.

Lemma compute_consensus_lsa_agreed ndebug er_log (ts : tran_server) :
  Z.of_nat (List.length (m_page_server_conn_vec ts)) <= INT_MAX ->
  log_fits er_log (m_page_server_conn_vec ts) ->
  (List.length (m_page_server_conn_vec ts) / 2 + 1
   <= List.length (connected_saved_lsa (m_page_server_conn_vec ts)))%nat ->
  exists c,
    ActiveTranServer.compute_consensus_lsa ndebug er_log ts = Ok c ts /\
    c ∈ connected_saved_lsa (m_page_server_conn_vec ts) /\
    (List.length (m_page_server_conn_vec ts) / 2 + 1
     <= agreeing c (m_page_server_conn_vec ts))%nat /\
    forall l, lsa_gtb l c = true ->
      (agreeing l (m_page_server_conn_vec ts)
       < List.length (m_page_server_conn_vec ts) / 2 + 1)%nat.
Proof.
  intros Hmax Hfit Hge.
  destruct (compute_consensus_lsa_met ndebug er_log ts Hmax Hfit Hge) as (c & Hc & Hrun).
  set (N := List.length (m_page_server_conn_vec ts)) in *.
  set (S := connected_saved_lsa (m_page_server_conn_vec ts)) in *.
  assert (Hsorted : Sorted lsa_le (std_sort S)) by apply (Sorted_merge_sort lsa_le).
  assert (Hperm : std_sort S ≡ₚ S) by apply merge_sort_Permutation.
  assert (Hlen : List.length (std_sort S) = List.length S) by (by rewrite Hperm).
  exists c. split; [exact Hrun|]. split; [|split].
  - rewrite <- Hperm. by eapply list_elem_of_lookup_2.
  - rewrite agreeing_connected_saved_lsa. fold S. rewrite <- Hperm.
    pose proof (sorted_count_ge _ _ _ Hsorted Hc). lia.
  - intros l Hl. rewrite agreeing_connected_saved_lsa. fold S. rewrite <- Hperm.
    pose proof (sorted_count_gt _ _ _ l Hsorted Hc Hl). lia.
Qed.

(** X6. When the quorum is met (the number of handlers fitting an [int],
    and the message for the log its buffer when the logging of the quorum is
    on), the function returns, and the consensus LSA is the saved LSA of a
    connected handler, at least a quorum of connected handlers have saved up
    to it, and it is the greatest LSA of which this is true: for any greater
    LSA, fewer connected handlers than the quorum have saved that far. *)
Theorem consensus_lsa_agreed_by_quorum (ndebug er_log_quorum_consensus : bool)
    (ts : tran_server) :
  Z.of_nat (List.length (m_page_server_conn_vec ts)) <= INT_MAX ->
  log_fits er_log_quorum_consensus (m_page_server_conn_vec ts) ->
  (List.length (m_page_server_conn_vec ts) / 2 + 1
   <= List.length (connected_saved_lsa (m_page_server_conn_vec ts)))%nat ->
  exists c,
    ActiveTranServer.compute_consensus_lsa ndebug er_log_quorum_consensus ts = Ok c ts /\
    c ∈ connected_saved_lsa (m_page_server_conn_vec ts) /\
    (List.length (m_page_server_conn_vec ts) / 2 + 1
     <= agreeing c (m_page_server_conn_vec ts))%nat /\
    forall l, lsa_gtb l c = true ->
      (agreeing l (m_page_server_conn_vec ts)
       < List.length (m_page_server_conn_vec ts) / 2 + 1)%nat.
Proof.
  intros Hmax Hfit Hge.
  destruct (compute_consensus_lsa_met ndebug er_log_quorum_consensus ts Hmax Hfit Hge)
    as (c & Hc & Hrun).
  pose proof (Sorted_merge_sort lsa_le (connected_saved_lsa (m_page_server_conn_vec ts)))
    as Hsorted.
  pose proof (merge_sort_Permutation lsa_le (connected_saved_lsa (m_page_server_conn_vec ts)))
    as Hperm.
  fold (std_sort (connected_saved_lsa (m_page_server_conn_vec ts))) in Hsorted, Hperm.
  assert (Hlen : List.length (std_sort (connected_saved_lsa (m_page_server_conn_vec ts)))
                 = List.length (connected_saved_lsa (m_page_server_conn_vec ts))).
  { by rewrite Hperm. }
  exists c. split; [exact Hrun|]. split; [|split].
  - rewrite <- Hperm. by eapply list_elem_of_lookup_2.
  - rewrite agreeing_connected_saved_lsa, <- Hperm.
    pose proof (sorted_count_ge _ _ _ Hsorted Hc). lia.
  - intros l Hl. rewrite agreeing_connected_saved_lsa, <- Hperm.
    pose proof (sorted_count_gt _ _ _ l Hsorted Hc Hl). lia.
Qed.

Lemma consensus_lsa_agreed_by_quorum_witness :
  exists c,
    ActiveTranServer.compute_consensus_lsa false true (example_server 5 [10; 5; 9; 6]%Z)
    = Ok c (example_server 5 [10; 5; 9; 6]%Z) /\
    c ∈ connected_saved_lsa (m_page_server_conn_vec (example_server 5 [10; 5; 9; 6]%Z)) /\
    (List.length (m_page_server_conn_vec (example_server 5 [10; 5; 9; 6]%Z)) / 2 + 1
     <= agreeing c (m_page_server_conn_vec (example_server 5 [10; 5; 9; 6]%Z)))%nat /\
    forall l, lsa_gtb l c = true ->
      (agreeing l (m_page_server_conn_vec (example_server 5 [10; 5; 9; 6]%Z))
       < List.length (m_page_server_conn_vec (example_server 5 [10; 5; 9; 6]%Z)) / 2 + 1)%nat.
Proof.
  apply (consensus_lsa_agreed_by_quorum false true (example_server 5 [10; 5; 9; 6]%Z)).
  - vm_compute. discriminate.
  - right. vm_compute. reflexivity.
  - vm_compute. lia.
Defined.

(** ** The consensus LSA over time *)

Lemma agreeing_grows l vec vec' :
  grows vec vec' -> (agreeing l vec <= agreeing l vec')%nat.
Proof.
  unfold agreeing. induction 1 as [|h h' vec vec' Hh _ IH]; [done|].
  rewrite !filter_cons.
  destruct (is_connected h) eqn:Hc; cbn [andb].
  - destruct (Hh eq_refl) as [-> Hle]. cbn [andb].
    destruct (lsa_geb (get_saved_lsa h) l) eqn:Hge.
    + rewrite decide_True by exact I.
      assert (Hge' : lsa_geb (get_saved_lsa h') l = true).
      { apply lsa_geb_true. apply lsa_geb_true in Hge. by etrans. }
      rewrite Hge', decide_True by exact I. cbn [List.length]. lia.
    + rewrite decide_False by exact id.
      destruct (decide _); cbn [List.length]; lia.
  - rewrite (decide_False (P := Is_true false)) by exact id.
    destruct (decide _); cbn [List.length]; lia.
Qed.

Lemma connected_saved_lsa_grows vec vec' :
  grows vec vec' ->
  (List.length (connected_saved_lsa vec) <= List.length (connected_saved_lsa vec'))%nat.
Proof.
  unfold connected_saved_lsa. rewrite !length_fmap.
  induction 1 as [|h h' vec vec' Hh _ IH]; [done|].
  rewrite !filter_cons.
  destruct (is_connected h) eqn:Hc.
  - destruct (Hh eq_refl) as [-> _].
    rewrite !decide_True by exact I. cbn [List.length]. lia.
  - rewrite decide_False by exact id.
    destruct (decide _); cbn [List.length]; lia.
Qed.

Lemma lsa_gtb_total a b : lsa_le a b \/ lsa_gtb a b = true.
Proof.
  unfold lsa_le, lsa_leb. destruct (lsa_gtb a b); [by right|by left].
Qed.

(** X7. The consensus LSA does not go back as long as no connected handler
    leaves [CONNECTED] and no saved LSA goes back: if the quorum is met on
    the handlers as they are, it is still met on the handlers as they are
    later, and the consensus LSA computed later is at least the one computed
    now (both computations return when the logging of the quorum is off or
    their messages for the log fit the buffer). This is what
    [wait_for_ps_flushed_lsa] asserts of two successive values of
    [m_ps_consensus_flushed_lsa]. *)
Theorem consensus_lsa_monotone (ndebug er_log_quorum_consensus : bool)
    (ts ts' : tran_server) :
  Z.of_nat (List.length (m_page_server_conn_vec ts)) <= INT_MAX ->
  log_fits er_log_quorum_consensus (m_page_server_conn_vec ts) ->
  log_fits er_log_quorum_consensus (m_page_server_conn_vec ts') ->
  (List.length (m_page_server_conn_vec ts) / 2 + 1
   <= List.length (connected_saved_lsa (m_page_server_conn_vec ts)))%nat ->
  grows (m_page_server_conn_vec ts) (m_page_server_conn_vec ts') ->
  exists c c',
    ActiveTranServer.compute_consensus_lsa ndebug er_log_quorum_consensus ts = Ok c ts /\
    ActiveTranServer.compute_consensus_lsa ndebug er_log_quorum_consensus ts' = Ok c' ts' /\
    lsa_le c c'.
Proof.
  intros Hmax Hfit Hfit' Hq Hgrows.
  pose proof (Forall2_length _ _ _ Hgrows) as Hlen.
  pose proof (connected_saved_lsa_grows _ _ Hgrows) as Hconn.
  destruct (compute_consensus_lsa_agreed ndebug er_log_quorum_consensus ts Hmax Hfit Hq)
    as (c & Hc & _ & Hagree & _).
  destruct (compute_consensus_lsa_agreed ndebug er_log_quorum_consensus ts')
    as (c' & Hc' & _ & _ & Hmaximal).
  { by rewrite <- Hlen. }
  { exact Hfit'. }
  { rewrite <- Hlen. lia. }
  exists c, c'. split_and!; [done|done|].
  destruct (lsa_gtb_total c c') as [Hle|Hgt]; [exact Hle|].
  specialize (Hmaximal c Hgt).
  pose proof (agreeing_grows c _ _ Hgrows). rewrite <- Hlen in Hmaximal. lia.
Qed.

Lemma consensus_lsa_monotone_witness :
  exists c c',
    ActiveTranServer.compute_consensus_lsa false true (example_server 3 [4; 7]%Z)
    = Ok c (example_server 3 [4; 7]%Z) /\
    ActiveTranServer.compute_consensus_lsa false true (example_server 3 [9; 7; 8]%Z)
    = Ok c' (example_server 3 [9; 7; 8]%Z) /\
    lsa_le c c'.
Proof.
  apply (consensus_lsa_monotone false true
           (example_server 3 [4; 7]%Z) (example_server 3 [9; 7; 8]%Z)).
  - vm_compute. discriminate.
  - right. vm_compute. reflexivity.
  - right. vm_compute. reflexivity.
  - vm_compute. lia.
  - repeat constructor; vm_compute; try discriminate; intros _; split; reflexivity.
Defined.

(** ** The nodes registered *)

Lemma find_from_substring_first c s : forall i,
  find_from c s 0 = Some i -> find_from c (String.substring 0 i s) 0 = None.
Proof.
  induction s as [|c' s IH]; intros i; simpl; [discriminate|].
  destruct (bool_decide (c' = c)) eqn:Hc.
  - intros [= <-]. reflexivity.
  - rewrite find_from_shift. destruct (find_from c s 0) as [j|] eqn:Hj; [|discriminate].
    intros [= <-]. simpl. rewrite Hc, find_from_shift, (IH j eq_refl). reflexivity.
Qed.

Lemma find_from_substring_none c s : forall n m,
  find_from c s 0 = None -> find_from c (String.substring n m s) 0 = None.
Proof.
  induction s as [|c' s IH]; intros n m; simpl.
  - by destruct n, m.
  - destruct (bool_decide (c' = c)) eqn:Hc; [discriminate|].
    rewrite find_from_shift. destruct (find_from c s 0) eqn:Hj; [discriminate|].
    intros _. destruct n as [|n], m as [|m]; simpl; try reflexivity.
    + rewrite Hc, find_from_shift, (IH 0%nat m eq_refl). reflexivity.
    + by apply IH.
    + by apply IH.
Qed.

Lemma tokens_without_comma s : Forall (fun t => find_from "," t 0 = None) (tokens s).
Proof.
  induction s as [|c s IH]; simpl.
  - by constructor.
  - destruct (bool_decide (c = ","%char)) eqn:Hc.
    + by constructor.
    + destruct (tokens s) as [|t ts]; [by repeat constructor; simpl; rewrite Hc|].
      apply Forall_cons in IH as [Ht Hts]. constructor; [|exact Hts].
      simpl. by rewrite Hc, find_from_shift, Ht.
Qed.

Lemma parse_host_port_well_formed t n :
  find_from "," t 0 = None -> parse_host_port t = Some n -> well_formed_node n.
Proof.
  unfold parse_host_port, well_formed_node. intros Hcomma.
  destruct (find_from ":" t 0) as [i|] eqn:Hi; [|discriminate].
  destruct (i =? 0)%nat eqn:Hi0; [discriminate|]. cbn [orb].
  destruct (S i =? String.length t)%nat; [discriminate|].
  destruct (stoi _) as [port|]; [|discriminate].
  destruct (Z.leb_spec 1 port); [|discriminate].
  destruct (Z.leb_spec port 65535); [|discriminate].
  intros [= <-]. cbn. split_and!; try lia.
  - apply Nat.eqb_neq in Hi0. apply find_from_bound in Hi as Hb.
    destruct t as [|c t]; [simpl in Hb; lia|].
    destruct i as [|i]; [done|]. discriminate.
  - by apply find_from_substring_first.
  - by apply find_from_substring_none.
Qed.

Lemma omap_parse_well_formed toks :
  Forall (fun t => find_from "," t 0 = None) toks ->
  Forall well_formed_node (omap parse_host_port toks).
Proof.
  induction 1 as [|t toks Ht _ IH]; [constructor|].
  cbn [omap list_omap]. destruct (parse_host_port t) as [n|] eqn:Hn; [|exact IH].
  constructor; [|exact IH]. by eapply parse_host_port_well_formed.
Qed.

Lemma forallb_parse_nonempty toks :
  toks <> [] ->
  forallb (fun t => bool_decide (is_Some (parse_host_port t))) toks = true ->
  omap parse_host_port toks <> [].
Proof.
  destruct toks as [|t toks]; [done|]. intros _. cbn [forallb omap list_omap].
  intros H. apply andb_true_iff in H as [H _]. apply bool_decide_eq_true in H as [n ->].
  done.
Qed.

Lemma tokens_nonempty s : tokens s <> [].
Proof.
  destruct s as [|c s]; simpl; [done|].
  destruct (bool_decide _); [done|]. by destruct (tokens s).
Qed.

Lemma tokens_length s : (List.length (tokens s) <= S (String.length s))%nat.
Proof.
  induction s as [|c s IH]; simpl; [lia|].
  destruct (bool_decide _); cbn [List.length]; [lia|].
  destruct (tokens s); cbn [List.length] in *; lia.
Qed.

Lemma omap_length {A B} (f : A -> option B) (l : list A) :
  (List.length (omap f l) <= List.length l)%nat.
Proof.
  induction l as [|a l IH]; [done|]. cbn [omap list_omap].
  destruct (f a); cbn [List.length]; lia.
Qed.

Lemma register_connection_handlers_appends (hosts : string) (ts : tran_server) :
  Z.of_nat (String.length hosts) < SIZE_MAX ->
  exists exit_code ns,
    TranServer.register_connection_handlers hosts ts
    = Some (Ok exit_code
              (set_m_page_server_conn_vec
                 (m_page_server_conn_vec ts ++ (new_connection_handler <$> ns)) ts)) /\
    Forall well_formed_node ns /\
    (exit_code = NO_ERROR -> ns <> []) /\
    (exit_code = NO_ERROR \/ exit_code = ER_HOST_PORT_PARAMETER) /\
    (List.length ns <= S (String.length hosts))%nat.
Proof.
  intros Hlen. unfold TranServer.register_connection_handlers.
  rewrite (colon_check_spec hosts Hlen).
  destruct (colon_misplaced hosts).
  - exists ER_HOST_PORT_PARAMETER, [].
    split_and!; [|constructor|done|by right|cbn [List.length]; lia].
    cbn [fmap list_fmap]. rewrite app_nil_r. by rewrite set_m_page_server_conn_vec_id.
  - rewrite register_connection_handlers_loop_spec by (trivial; lia).
    rewrite register_each_spec.
    2: { intros t Ht. apply tokens_length_le in Ht. lia. }
    eexists _, (omap parse_host_port (tokens hosts)). split; [reflexivity|].
    split; [apply omap_parse_well_formed, tokens_without_comma|].
    assert (Hb : (List.length (omap parse_host_port (tokens hosts))
                  <= S (String.length hosts))%nat).
    { pose proof (omap_length parse_host_port (tokens hosts)).
      pose proof (tokens_length hosts). lia. }
    destruct (forallb _ _) eqn:Hall.
    + split_and!; [|by left|exact Hb].
      intros _. apply forallb_parse_nonempty; [apply tokens_nonempty|done].
    + split_and!; [done|by right|exact Hb].
Qed.

(** X8. [register_connection_handlers] always returns, and touches nothing
    but the end of the vector of handlers: it appends new, idle handlers, each
    for a node with a port between 1 and 65535 and a host name that is not
    empty and holds neither a colon nor a comma; and when it returns
    [NO_ERROR] it has appended at least one. *)
Theorem registered_nodes_well_formed (hosts : string) (ts : tran_server) :
  Z.of_nat (String.length hosts) < SIZE_MAX ->
  exists exit_code ns,
    TranServer.register_connection_handlers hosts ts
    = Some (Ok exit_code
              (set_m_page_server_conn_vec
                 (m_page_server_conn_vec ts ++ (new_connection_handler <$> ns)) ts)) /\
    Forall well_formed_node ns /\
    (exit_code = NO_ERROR -> ns <> []) /\
    (exit_code = NO_ERROR \/ exit_code = ER_HOST_PORT_PARAMETER).
Proof.
  intros Hlen.
  destruct (register_connection_handlers_appends hosts ts Hlen)
    as (exit_code & ns & Hrun & Hwf & Hne & Hcode & _).
  exists exit_code, ns. done.
Qed.

Lemma registered_nodes_well_formed_witness :
  exists exit_code ns,
    TranServer.register_connection_handlers "ps1:7001,bad,ps2:7002" (empty_server ACTIVE)
    = Some (Ok exit_code
              (set_m_page_server_conn_vec
                 (m_page_server_conn_vec (empty_server ACTIVE) ++ (new_connection_handler <$> ns))
                 (empty_server ACTIVE))) /\
    Forall well_formed_node ns /\
    (exit_code = NO_ERROR -> ns <> []) /\
    (exit_code = NO_ERROR \/ exit_code = ER_HOST_PORT_PARAMETER).
Proof.
  apply (registered_nodes_well_formed "ps1:7001,bad,ps2:7002" (empty_server ACTIVE)).
  vm_compute. reflexivity.
Defined.

(** ** Connecting the handlers of a server *)

Lemma wp_mono {St A} (m : M St A) (Q Q' : A -> St -> Prop) (E E' : St -> Prop) s :
  wp m Q E s ->
  (forall a s', Q a s' -> Q' a s') ->
  (forall s', E s' -> E' s') ->
  wp m Q' E' s.
Proof. unfold wp. destruct (m s); eauto. Qed.

Lemma wp_at_handler {A} i (m : M connection_handler A) Q E ts h :
  m_page_server_conn_vec ts !! i = Some h ->
  wp m (fun a h' => Q a (set_m_page_server_conn_vec (<[i:=h']> (m_page_server_conn_vec ts)) ts))
     (fun h' => E (set_m_page_server_conn_vec (<[i:=h']> (m_page_server_conn_vec ts)) ts)) h ->
  wp (at_handler i m) Q E ts.
Proof.
  unfold wp, at_handler. intros ->. by destruct (m h).
Qed.

(** The rule of the [for] loop: [I k acc s] holds of the local variables and
    the state before iteration [k], [Q] when the function returns from inside
    the loop. *)
Lemma for_each_index_wp {St A B} (I : nat -> A -> St -> Prop) (Q : B -> St -> Prop)
    (E : St -> Prop) (body : nat -> A -> M St (A + B)) n : forall i acc s,
  I i acc s ->
  (forall k acc s, (i <= k < i + n)%nat -> I k acc s ->
     wp (body k acc)
        (fun r s' => match r with inl acc' => I (S k) acc' s' | inr b => Q b s' end) E s) ->
  wp (for_each_index n i body acc)
     (fun r s' => match r with inl acc' => I (i + n)%nat acc' s' | inr b => Q b s' end) E s.
Proof.
  induction n as [|n IH]; intros i acc s HI Hbody; cbn [for_each_index].
  - apply wp_ret. by rewrite Nat.add_0_r.
  - apply wp_bind. eapply wp_mono; [apply Hbody; [lia|exact HI]| |done].
    intros [acc'|b] s' Hr; cbn beta iota.
    + replace (i + S n)%nat with (S i + n)%nat by lia.
      apply IH; [exact Hr|]. intros k acc0 s0 Hk. apply Hbody. lia.
    + by apply wp_ret.
Qed.

(** Replacing a handler by one for the same node does not change what the
    handlers see of the server. *)
Lemma view_insert ts i h h' :
  m_page_server_conn_vec ts !! i = Some h ->
  m_node h' = m_node h ->
  view (set_m_page_server_conn_vec (<[i:=h']> (m_page_server_conn_vec ts)) ts) = view ts.
Proof.
  intros Hi Hnode. unfold view. cbn. f_equal.
  destruct (m_main_conn ts) as [j|]; [|reflexivity]. cbn.
  destruct (decide (j = i)) as [->|Hne].
  - rewrite list_lookup_insert_eq by (by eapply lookup_lt_Some).
    rewrite Hi. cbn. by rewrite Hnode.
  - by rewrite list_lookup_insert_ne.
Qed.

Lemma connect_outcome ndebug tv srv_chn unsent_lsa h :
  handler_wf tv h = true ->
  m_state h = IDLE ->
  tv_kind tv = PASSIVE \/ lsa_is_null unsent_lsa = true \/ tv_main_connection tv <> None ->
  wp (connect ndebug tv srv_chn unsent_lsa)
     (fun e h' =>
        e = (if handshake_failed tv srv_chn then ER_NET_PAGESERVER_CONNECTION else NO_ERROR) /\
        connect_result tv (handshake_failed tv srv_chn) h h')
     (fun _ => False) h.
Proof.
  intros Hinv Hst Hready.
  destruct h as [n st cn fut saved hook ws sp pu]. cbn in Hst. subst st.
  unfold handler_wf, handler_inv in Hinv. cbn in Hinv.
  apply andb_true_iff in Hinv as [Hinv Hkind].
  apply andb_true_iff in Hinv as [Hinv Hhook].
  apply andb_true_iff in Hinv as [Hcn Hfut].
  apply bool_decide_eq_true in Hcn. subst cn.
  apply negb_true_iff in Hhook. subst hook.
  assert (Hf : fut = future_invalid \/ fut = future_ready).
  { destruct fut; [by left|discriminate Hfut|by right]. }
  clear Hfut.
  unfold wp, connect, connect_result, handshake_failed, handler_wf, handler_inv.
  rewrite bind_gets. cbn [m_state]. unfold assert at 1.
  rewrite bool_decide_true by done. rewrite orb_true_r, bind_ret, bind_modify.
  destruct (bool_decide (chn_connect srv_chn = NO_ERRORS)); cbn [negb orb];
    [|cbn; destruct Hf as [-> | ->]; by destruct (tv_kind tv)].
  destruct (bool_decide (chn_send_int srv_chn = NO_ERRORS)); cbn [negb orb];
    [|cbn; destruct Hf as [-> | ->]; by destruct (tv_kind tv)].
  destruct (bool_decide ((chn_recv_int srv_chn).1 = NO_ERRORS)); cbn [negb orb];
    [|cbn; destruct Hf as [-> | ->]; by destruct (tv_kind tv)].
  destruct (bool_decide ((chn_recv_int srv_chn).2 = int_wrap (tv_conn_type tv))); cbn [negb orb];
    [|cbn; destruct Hf as [-> | ->]; by destruct (tv_kind tv)].
  unfold set_connection, transition_to_connected.
  destruct (tv_kind tv) eqn:Hk.
  - unfold ATS.transition_to_connected, ATS.send_start_catch_up_request,
      push_request_regardless_of_state, conn_push, get_main_connection_info.
    destruct Hready as [?|[Hn|Hm]]; [congruence| |].
    + rewrite Hn. destruct ndebug, Hf as [-> | ->]; cbv; done.
    + destruct (tv_main_connection tv) as [mn|]; [|done].
      destruct (lsa_is_null unsent_lsa), ndebug, Hf as [-> | ->]; cbv; done.
  - unfold PTS.transition_to_connected.
    destruct ndebug, Hf as [-> | ->]; cbv; done.
Qed.

(** ** Connecting at boot *)






(** ** The page-server connector *)

Lemma wp_bind_Ok {St A B} (m : M St A) (k : A -> M St B) Q E s a s' :
  m s = Ok a s' -> wp (k a) Q E s' -> wp (bind m k) Q E s.
Proof. unfold wp, bind. by intros ->. Qed.

Lemma try_connect_loop ndebug peers unsent terminate_seen ts tv :
  view ts = tv ->
  Forall (fun h => handler_wf tv h = true) (m_page_server_conn_vec ts) ->
  tv_kind tv = PASSIVE \/ (forall i, lsa_is_null (unsent i) = true) \/
    tv_main_connection tv <> None ->
  wp (for_each_index (List.length (m_page_server_conn_vec ts)) 0
        (TranServer.try_connect_body ndebug peers unsent terminate_seen) false)
     (fun r ts' =>
        view ts' = tv /\
        m_main_conn ts' = m_main_conn ts /\
        List.length (m_page_server_conn_vec ts') = List.length (m_page_server_conn_vec ts) /\
        exists k,
          (k <= List.length (m_page_server_conn_vec ts))%nat /\
          (forall j, (k <= j)%nat ->
             m_page_server_conn_vec ts' !! j = m_page_server_conn_vec ts !! j) /\
          (forall j h, (j < k)%nat -> m_page_server_conn_vec ts !! j = Some h ->
             exists h', m_page_server_conn_vec ts' !! j = Some h' /\ visited tv peers j h h') /\
          match r with
          | inl newly_connected =>
              k = List.length (m_page_server_conn_vec ts) /\
              (forall j, (j < k)%nat -> terminate_seen j = false) /\
              (newly_connected = true <->
               newly_connectable tv peers k (m_page_server_conn_vec ts))
          | inr _ =>
              (0 < k)%nat /\ terminate_seen (pred k) = true /\
              (forall j, (j < pred k)%nat -> terminate_seen j = false)
          end)
     (fun _ => False) ts.
Proof.
  intros Hview Hall Hready.
  set (vec := m_page_server_conn_vec ts) in *.
  set (frame := fun (k : nat) (ts' : tran_server) =>
              view ts' = tv /\
              m_main_conn ts' = m_main_conn ts /\
              List.length (m_page_server_conn_vec ts') = List.length vec /\
              (forall j, (k <= j)%nat -> m_page_server_conn_vec ts' !! j = vec !! j) /\
              (forall j h, (j < k)%nat -> vec !! j = Some h ->
                 exists h', m_page_server_conn_vec ts' !! j = Some h' /\
                            visited tv peers j h h')).
  set (I := fun (k : nat) (newly : bool) (ts' : tran_server) =>
              frame k ts' /\
              (forall j, (j < k)%nat -> terminate_seen j = false) /\
              (newly = true <-> newly_connectable tv peers k vec)).
  set (Q := fun (_ : unit) (ts' : tran_server) =>
              exists k, (0 < k <= List.length vec)%nat /\ frame k ts' /\
                        terminate_seen (pred k) = true /\
                        (forall j, (j < pred k)%nat -> terminate_seen j = false)).
  eapply wp_mono; [apply (for_each_index_wp I Q (fun _ => False))| |done].
  - unfold I, frame, newly_connectable. split_and!; try done; try (intros; lia).
    split; [done|]. intros (j & h & Hj & _). lia.
  - intros k newly ts' Hk ((Hv & Hmain & Hlen & Hsuffix & Hprefix) & Hterm & Hnewly).
    unfold TranServer.try_connect_body.
    destruct (lookup_lt_is_Some_2 vec k) as [h Hh]; [lia|].
    assert (Hh' : m_page_server_conn_vec ts' !! k = Some h) by (by rewrite Hsuffix).
    eapply wp_bind_Ok; [by apply at_handler_gets|].
    rewrite Forall_forall in Hall.
    pose proof (Hall h (list_elem_of_lookup_2 _ _ _ Hh)) as Hwf.
    assert (Hstep : forall h1 newly1,
              visited tv peers k h h1 ->
              m_node h1 = m_node h ->
              (newly1 = true <-> newly_connectable tv peers (S k) vec) ->
              wp (if terminate_seen k then ret (inr tt) else ret (inl newly1))
                 (fun r s' => match r with inl acc' => I (S k) acc' s' | inr b => Q b s' end)
                 (fun _ => False)
                 (set_m_page_server_conn_vec (<[k:=h1]> (m_page_server_conn_vec ts')) ts')).
    { intros h1 newly1 Hvis Hnode Hnewly1.
      assert (Hframe : frame (S k)
                (set_m_page_server_conn_vec (<[k:=h1]> (m_page_server_conn_vec ts')) ts')).
      { unfold frame. split_and!.
        - by rewrite (view_insert ts' k h h1 Hh').
        - exact Hmain.
        - cbn. by rewrite length_insert.
        - intros j Hj. cbn. rewrite list_lookup_insert_ne by lia. apply Hsuffix. lia.
        - intros j h0 Hj Hj0. cbn. destruct (decide (j = k)) as [->|Hne].
          + rewrite list_lookup_insert_eq by (by eapply lookup_lt_Some).
            exists h1. split; [done|]. congruence.
          + rewrite list_lookup_insert_ne by done. apply Hprefix; [lia|done]. }
      destruct (terminate_seen k) eqn:Hts; apply wp_ret.
      - exists (S k). split_and!; [lia|lia|exact Hframe|exact Hts|exact Hterm].
      - split_and!; [exact Hframe| |exact Hnewly1].
        intros j Hj. destruct (decide (j = k)) as [->|]; [done|]. apply Hterm. lia. }
    destruct (is_idle h) eqn:Hidle.
    + apply wp_bind, wp_bind, wp_gets. rewrite Hv.
      apply wp_bind. eapply wp_at_handler; [exact Hh'|].
      eapply wp_mono;
        [apply (connect_outcome ndebug tv (peers k) (unsent k) h Hwf)| |done].
      { unfold is_idle in Hidle. by apply bool_decide_eq_true in Hidle. }
      { destruct Hready as [?|[Hn|?]]; auto. }
      intros e h1 [-> Hres]. cbn beta.
      assert (Hvis : visited tv peers k h h1) by (unfold visited; by rewrite Hidle).
      assert (Hnode : m_node h1 = m_node h) by (by destruct Hres).
      destruct (handshake_failed tv (peers k)) eqn:Hfail.
      * rewrite bool_decide_false by done. apply wp_ret. apply Hstep; [done|done|].
        rewrite Hnewly. unfold newly_connectable. split.
        -- intros (j & h0 & Hj & Hrest). exists j, h0. split; [lia|done].
        -- intros (j & h0 & Hj & Hj0 & Hi0 & Hok).
           destruct (decide (j = k)) as [->|]; [congruence|].
           exists j, h0. split; [lia|done].
      * rewrite bool_decide_true by done. apply wp_ret. apply Hstep; [done|done|].
        split; [|done]. intros _. exists k, h. split; [lia|done].
    + apply wp_bind, wp_ret.
      replace ts' with (set_m_page_server_conn_vec (<[k:=h]> (m_page_server_conn_vec ts')) ts')
        at 1.
      2: { rewrite list_insert_id by done. apply set_m_page_server_conn_vec_id. }
      apply Hstep; [unfold visited; by rewrite Hidle|done|].
      rewrite Hnewly. unfold newly_connectable. split.
      * intros (j & h0 & Hj & Hrest). exists j, h0. split; [lia|done].
      * intros (j & h0 & Hj & Hj0 & Hi0 & Hok).
        destruct (decide (j = k)) as [->|]; [congruence|].
        exists j, h0. split; [lia|done].
  - intros [newly|[]] ts'.
    + intros ((Hv & Hmain & Hlen & Hsuffix & Hprefix) & Hterm & Hnewly).
      rewrite Nat.add_0_l in *. split_and!; try done.
      exists (List.length vec). split_and!; try done.
    + intros (k & Hk & (Hv & Hmain & Hlen & Hsuffix & Hprefix) & Hseen & Hterm).
      split_and!; try done. exists k. split_and!; try done; lia.
Qed.

Lemma reset_main_connection_cases ts :
  (exists i c,
      m_page_server_conn_vec ts !! i = Some c /\ is_connected c = true /\
      (forall j c', (j < i)%nat -> m_page_server_conn_vec ts !! j = Some c' ->
                    is_connected c' = false) /\
      TranServer.reset_main_connection ts = Ok NO_ERROR (set_m_main_conn (Some i) ts)) \/
  ((forall c, c ∈ m_page_server_conn_vec ts -> is_connected c = false) /\
   TranServer.reset_main_connection ts = Ok ER_CONN_NO_PAGE_SERVER_AVAILABLE ts).
Proof.
  destruct (list_find (fun conn => is_connected conn) (m_page_server_conn_vec ts))
    as [[i c]|] eqn:Hfind.
  - left. apply list_find_Some in Hfind as (Hi & Hc & Hfirst).
    assert (Hc' : is_connected c = true) by (by apply Is_true_true).
    assert (Hf : forall j c', (j < i)%nat -> m_page_server_conn_vec ts !! j = Some c' ->
                              is_connected c' = false).
    { intros j c' Hj Hj'. specialize (Hfirst j c' Hj' Hj).
      by destruct (is_connected c'). }
    exists i, c. split_and!; try done. by apply reset_main_connection_some with c.
  - right. apply list_find_None in Hfind. rewrite Forall_forall in Hfind.
    assert (Hn : forall c, c ∈ m_page_server_conn_vec ts -> is_connected c = false).
    { intros c Hc. specialize (Hfind c Hc). by destruct (is_connected c). }
    split; [exact Hn|]. by apply reset_main_connection_none.
Qed.

Lemma is_page_server_connected_true ts :
  TranServer.is_page_server_connected ts = true <->
  exists c, c ∈ m_page_server_conn_vec ts /\ is_connected c = true.
Proof.
  unfold TranServer.is_page_server_connected. rewrite existsb_exists.
  split; intros (c & Hc & ?); exists c; (split; [by apply list_elem_of_In|done]).
Qed.

Lemma is_page_server_connected_false ts :
  TranServer.is_page_server_connected ts = false <->
  forall c, c ∈ m_page_server_conn_vec ts -> is_connected c = false.
Proof.
  rewrite <- not_true_iff_false, is_page_server_connected_true. split.
  - intros Hn c Hc. destruct (is_connected c) eqn:E; [|done]. destruct Hn. eauto.
  - intros Hall (c & Hc & E). rewrite (Hall c Hc) in E. done.
Qed.

Lemma visited_connected tv peers j h h' :
  visited tv peers j h h' -> is_connected h = true -> h' = h.
Proof.
  unfold visited, is_connected, is_idle. intros Hv Hc. apply bool_decide_eq_true in Hc.
  rewrite bool_decide_false in Hv by congruence. exact Hv.
Qed.

(** The state of a handler after its visit, from its state before. *)
Lemma visited_state tv peers j h h' :
  visited tv peers j h h' ->
  m_state h' = if is_idle h
               then if handshake_failed tv (peers j) then IDLE
                    else state_after_handshake (tv_kind tv)
               else m_state h.
Proof.
  unfold visited. destruct (is_idle h); [|by intros ->]. by intros (_ & _ & _ & ->).
Qed.

(** X10. A pass of the connector during which termination is not requested
    (on handlers that satisfy their invariant; on an active transaction
    server, with a handler connected already) runs to completion. It leaves
    every handler that was not idle exactly as it was, and has called
    [connect ()] on every idle one, which is idle again when the handshake
    failed and connecting (connected, on a passive transaction server) when
    it went well. When a handshake went well, the main connection is reset
    to the first connected handler; when none did, it is left as it was. *)
Theorem try_connect_to_all_ps_pass (ndebug : bool) (peers : nat -> server_channel)
    (unsent : nat -> log_lsa) (terminate_seen : nat -> bool) (ts : tran_server) :
  Forall (fun h => handler_wf (view ts) h = true) (m_page_server_conn_vec ts) ->
  connect_ready ts unsent ->
  (forall j, (j < List.length (m_page_server_conn_vec ts))%nat -> terminate_seen j = false) ->
  m_kind ts = PASSIVE \/ TranServer.is_page_server_connected ts = true ->
  exists ts',
    TranServer.try_connect_to_all_ps ndebug peers unsent terminate_seen ts = Ok tt ts' /\
    List.length (m_page_server_conn_vec ts') = List.length (m_page_server_conn_vec ts) /\
    (forall j h, m_page_server_conn_vec ts !! j = Some h ->
       exists h', m_page_server_conn_vec ts' !! j = Some h' /\
                  visited (view ts) peers j h h') /\
    (newly_connectable (view ts) peers (List.length (m_page_server_conn_vec ts))
       (m_page_server_conn_vec ts) ->
     exists i c,
       m_main_conn ts' = Some i /\ m_page_server_conn_vec ts' !! i = Some c /\
       is_connected c = true /\
       forall j c', (j < i)%nat -> m_page_server_conn_vec ts' !! j = Some c' ->
                    is_connected c' = false) /\
    (~ newly_connectable (view ts) peers (List.length (m_page_server_conn_vec ts))
         (m_page_server_conn_vec ts) ->
     m_main_conn ts' = m_main_conn ts).
Proof.
  intros Hall Hready Hterm Hconn.
  unfold TranServer.try_connect_to_all_ps. rewrite bind_gets.
  destruct (wp_no_fault _ _ _
              (try_connect_loop ndebug peers unsent terminate_seen ts (view ts) eq_refl
                 Hall Hready))
    as (r & ts1 & Hrun & Hv & Hmain & Hlen & k & Hk & Hsuffix & Hprefix & Hr).
  unfold bind at 1. rewrite Hrun.
  destruct r as [newly|[]].
  2: { destruct Hr as (Hk0 & Hseen & _). rewrite Hterm in Hseen by lia. discriminate. }
  destruct Hr as (-> & _ & Hnewly).
  assert (Hvis : forall j h, m_page_server_conn_vec ts !! j = Some h ->
            exists h', m_page_server_conn_vec ts1 !! j = Some h' /\
                       visited (view ts) peers j h h').
  { intros j h Hj. apply Hprefix; [by eapply lookup_lt_Some|done]. }
  destruct newly.
  - assert (Hnc := proj1 Hnewly eq_refl).
    destruct (reset_main_connection_cases ts1)
      as [(i & c & Hi & Hc & Hfirst & Hreset)|[Hnone Hreset]].
    + unfold bind. rewrite Hreset. rewrite bool_decide_true by done. cbn [negb].
      exists (set_m_main_conn (Some i) ts1). split_and!; try done.
      intros _. exists i, c. done.
    + exfalso. destruct Hconn as [Hp|Hc].
      * destruct Hnc as (j & h & Hj & Hjh & Hidle & Hok).
        destruct (Hvis j h Hjh) as (h' & Hj' & Hv').
        apply visited_state in Hv'. rewrite Hidle, Hok in Hv'.
        change (tv_kind (view ts)) with (m_kind ts) in Hv'. rewrite Hp in Hv'.
        specialize (Hnone h' (list_elem_of_lookup_2 _ _ _ Hj')).
        unfold is_connected in Hnone. rewrite Hv' in Hnone. done.
      * apply is_page_server_connected_true in Hc as (c & Hin & Hc).
        apply list_elem_of_lookup_1 in Hin as [j Hj].
        destruct (Hvis j c Hj) as (h' & Hj' & Hv').
        apply visited_connected in Hv'; [|done]. subst h'.
        rewrite (Hnone c (list_elem_of_lookup_2 _ _ _ Hj')) in Hc. done.
  - exists ts1. split_and!; try done.
    intros Hn. apply Hnewly in Hn. discriminate.
Qed.

Lemma try_connect_to_all_ps_pass_witness :
  exists ts',
    TranServer.try_connect_to_all_ps false (fun _ => good_channel) (fun _ => NULL_LSA)
      (fun _ => false)
      (TranServer PASSIVE "db" 1 [example_handler DISCONNECTING NULL_LSA;
                                  example_handler IDLE NULL_LSA] None) = Ok tt ts' /\
    List.length (m_page_server_conn_vec ts') = 2%nat /\
    (forall j h,
       [example_handler DISCONNECTING NULL_LSA; example_handler IDLE NULL_LSA] !! j = Some h ->
       exists h', m_page_server_conn_vec ts' !! j = Some h' /\
                  visited (TsView PASSIVE "db" 1 None) (fun _ => good_channel) j h h') /\
    (newly_connectable (TsView PASSIVE "db" 1 None) (fun _ => good_channel) 2
       [example_handler DISCONNECTING NULL_LSA; example_handler IDLE NULL_LSA] ->
     exists i c,
       m_main_conn ts' = Some i /\ m_page_server_conn_vec ts' !! i = Some c /\
       is_connected c = true /\
       forall j c', (j < i)%nat -> m_page_server_conn_vec ts' !! j = Some c' ->
                    is_connected c' = false) /\
    (~ newly_connectable (TsView PASSIVE "db" 1 None) (fun _ => good_channel) 2
         [example_handler DISCONNECTING NULL_LSA; example_handler IDLE NULL_LSA] ->
     m_main_conn ts' = None).
Proof.
  apply (try_connect_to_all_ps_pass false (fun _ => good_channel) (fun _ => NULL_LSA)
           (fun _ => false)
           (TranServer PASSIVE "db" 1 [example_handler DISCONNECTING NULL_LSA;
                                       example_handler IDLE NULL_LSA] None)).
  - repeat constructor.
  - by left.
  - reflexivity.
  - by left.
Defined.

(** X11. Once a pass of the connector sees that termination is requested, in
    iteration [k], it returns at once: the handlers after [k] are not looked
    at, [reset_main_connection] is not called and the main connection is left
    as it was, even when a handler has just been connected. *)
Theorem try_connect_to_all_ps_stops (ndebug : bool) (peers : nat -> server_channel)
    (unsent : nat -> log_lsa) (terminate_seen : nat -> bool) (ts : tran_server) (k : nat) :
  Forall (fun h => handler_wf (view ts) h = true) (m_page_server_conn_vec ts) ->
  connect_ready ts unsent ->
  (k < List.length (m_page_server_conn_vec ts))%nat ->
  terminate_seen k = true ->
  (forall j, (j < k)%nat -> terminate_seen j = false) ->
  exists ts',
    TranServer.try_connect_to_all_ps ndebug peers unsent terminate_seen ts = Ok tt ts' /\
    m_main_conn ts' = m_main_conn ts /\
    (forall j, (k < j)%nat ->
       m_page_server_conn_vec ts' !! j = m_page_server_conn_vec ts !! j) /\
    (forall j h, (j <= k)%nat -> m_page_server_conn_vec ts !! j = Some h ->
       exists h', m_page_server_conn_vec ts' !! j = Some h' /\
                  visited (view ts) peers j h h').
Proof.
  intros Hall Hready Hk Hseen Hbefore.
  unfold TranServer.try_connect_to_all_ps. rewrite bind_gets.
  destruct (wp_no_fault _ _ _
              (try_connect_loop ndebug peers unsent terminate_seen ts (view ts) eq_refl
                 Hall Hready))
    as (r & ts1 & Hrun & Hv & Hmain & Hlen & k' & Hk' & Hsuffix & Hprefix & Hr).
  unfold bind at 1. rewrite Hrun.
  destruct r as [newly|[]].
  { destruct Hr as (-> & Hnone & _). rewrite Hnone in Hseen by done. discriminate. }
  destruct Hr as (Hpos & Hseen' & Hbefore').
  assert (Heq : pred k' = k).
  { destruct (Nat.lt_trichotomy (pred k') k) as [Hlt|[Heq|Hgt]]; [|done|].
    - rewrite (Hbefore _ Hlt) in Hseen'. discriminate.
    - rewrite (Hbefore' _ Hgt) in Hseen. discriminate. }
  exists ts1. split_and!; try done.
  - intros j Hj. apply Hsuffix. lia.
  - intros j h Hj Hjh. apply Hprefix; [lia|done].
Qed.

Lemma try_connect_to_all_ps_stops_witness :
  exists ts',
    TranServer.try_connect_to_all_ps false (fun _ => good_channel) (fun _ => NULL_LSA)
      (fun _ => true) (example_server_in [IDLE; IDLE] None) = Ok tt ts' /\
    m_main_conn ts' = m_main_conn (example_server_in [IDLE; IDLE] None) /\
    (forall j, (0 < j)%nat ->
       m_page_server_conn_vec ts' !! j
       = m_page_server_conn_vec (example_server_in [IDLE; IDLE] None) !! j) /\
    (forall j h, (j <= 0)%nat ->
       m_page_server_conn_vec (example_server_in [IDLE; IDLE] None) !! j = Some h ->
       exists h', m_page_server_conn_vec ts' !! j = Some h' /\
                  visited (view (example_server_in [IDLE; IDLE] None))
                    (fun _ => good_channel) j h h').
Proof.
  apply (try_connect_to_all_ps_stops false (fun _ => good_channel) (fun _ => NULL_LSA)
           (fun _ => true) (example_server_in [IDLE; IDLE] None) 0).
  - repeat constructor.
  - right. by left.
  - cbn. lia.
  - reflexivity.
  - intros j Hj. lia.
Defined.

(** X12. On an active transaction server none of whose handlers is
    connected, a pass of the connector that connects a handler finds no main
    connection to select when no catchup-complete message arrives before the
    end of the pass, the new handler being only [CONNECTING]: in a build with
    assertions the pass ends in its [assert (false)], in a build without it
    returns with the main connection as it was. *)
Theorem try_connect_to_all_ps_active (ndebug : bool) (peers : nat -> server_channel)
    (unsent : nat -> log_lsa) (terminate_seen : nat -> bool) (ts : tran_server) :
  Forall (fun h => handler_wf (view ts) h = true) (m_page_server_conn_vec ts) ->
  connect_ready ts unsent ->
  (forall j, (j < List.length (m_page_server_conn_vec ts))%nat -> terminate_seen j = false) ->
  m_kind ts = ACTIVE ->
  TranServer.is_page_server_connected ts = false ->
  newly_connectable (view ts) peers (List.length (m_page_server_conn_vec ts))
    (m_page_server_conn_vec ts) ->
  exists ts',
    TranServer.try_connect_to_all_ps ndebug peers unsent terminate_seen ts
    = (if ndebug then Ok tt ts' else Fault assertion_failure ts') /\
    m_main_conn ts' = m_main_conn ts /\
    TranServer.is_page_server_connected ts' = false.
Proof.
  intros Hall Hready Hterm Hkind Hnone Hnc.
  unfold TranServer.try_connect_to_all_ps. rewrite bind_gets.
  destruct (wp_no_fault _ _ _
              (try_connect_loop ndebug peers unsent terminate_seen ts (view ts) eq_refl
                 Hall Hready))
    as (r & ts1 & Hrun & Hv & Hmain & Hlen & k & Hk & Hsuffix & Hprefix & Hr).
  unfold bind at 1. rewrite Hrun.
  destruct r as [newly|[]].
  2: { destruct Hr as (Hk0 & Hseen & _). rewrite Hterm in Hseen by lia. discriminate. }
  destruct Hr as (-> & _ & Hnewly).
  rewrite (proj2 Hnewly Hnc).
  assert (Hnone1 : forall c, c ∈ m_page_server_conn_vec ts1 -> is_connected c = false).
  { intros c' Hin. apply list_elem_of_lookup_1 in Hin as [j Hj].
    assert (Hjl : (j < List.length (m_page_server_conn_vec ts))%nat).
    { rewrite <- Hlen. by eapply lookup_lt_Some. }
    destruct (lookup_lt_is_Some_2 _ _ Hjl) as [h Hh].
    destruct (Hprefix j h Hjl Hh) as (h' & Hj' & Hv').
    rewrite Hj in Hj'. injection Hj' as <-.
    apply visited_state in Hv'. unfold is_connected. apply bool_decide_eq_false.
    rewrite Hv'. change (tv_kind (view ts)) with (m_kind ts). rewrite Hkind.
    destruct (is_idle h) eqn:Hidle.
    - by destruct (handshake_failed _ _).
    - rewrite is_page_server_connected_false in Hnone.
      specialize (Hnone h (list_elem_of_lookup_2 _ _ _ Hh)).
      unfold is_connected in Hnone. by apply bool_decide_eq_false in Hnone. }
  exists ts1. unfold bind. rewrite (reset_main_connection_none ts1 Hnone1).
  rewrite bool_decide_false by done. cbn [negb].
  split_and!; [by destruct ndebug|done|by apply is_page_server_connected_false].
Qed.

Lemma try_connect_to_all_ps_active_witness :
  exists ts',
    TranServer.try_connect_to_all_ps false (fun _ => good_channel) (fun _ => NULL_LSA)
      (fun _ => false) (example_server_in [IDLE] None)
    = (if false then Ok tt ts' else Fault assertion_failure ts') /\
    m_main_conn ts' = m_main_conn (example_server_in [IDLE] None) /\
    TranServer.is_page_server_connected ts' = false.
Proof.
  apply (try_connect_to_all_ps_active false (fun _ => good_channel) (fun _ => NULL_LSA)
           (fun _ => false) (example_server_in [IDLE] None)).
  - repeat constructor.
  - right. by left.
  - reflexivity.
  - reflexivity.
  - reflexivity.
  - exists 0%nat, (example_handler IDLE NULL_LSA). split_and!; [cbn; lia|done|done|done].
Defined.

(** ** Disconnecting from all page servers *)

Lemma disconnect_async_total ndebug tv b h :
  handler_wf tv h = true ->
  disconnect_async ndebug b h
  = Ok tt (if bool_decide (m_state h = IDLE) || bool_decide (m_state h = DISCONNECTING)
           then h else spawn_future b (set_m_state DISCONNECTING h)).
Proof.
  intros Hwf. destruct (m_state h) eqn:Hst; cbn [bool_decide decide_rel orb].
  - apply disconnect_async_no_op. by left.
  - apply disconnect_async_spawns; [by right|]. eapply handler_wf_not_pending; eauto.
  - apply disconnect_async_spawns; [by left|]. eapply handler_wf_not_pending; eauto.
  - apply disconnect_async_no_op. by right.
Qed.

Lemma wait_async_disconnection_effect ndebug tv h :
  handler_wf tv h = true ->
  m_state h = IDLE \/ m_state h = DISCONNECTING ->
  wp (wait_async_disconnection ndebug tv)
     (fun _ h' =>
        m_node h' = m_node h /\ m_saved_lsa h' = m_saved_lsa h /\
        m_state h' = IDLE /\ m_conn h' = None /\
        m_disconn_future h' = future_invalid /\
        m_prior_sender_sink_hook_func h' = false /\
        g_pushed h'
        = match m_disconn_future h with
          | future_pending true =>
              Request SEND_DISCONNECT_MSG (payload_int (int_wrap (tv_conn_type tv)))
              :: g_pushed h
          | _ => g_pushed h
          end)
     (fun _ => False) h.
Proof.
  intros Hinv Hst.
  destruct h as [n st cn fut saved hook ws sp pu].
  unfold handler_wf, handler_inv in Hinv. cbn in Hinv, Hst.
  unfold wp, wait_async_disconnection, teardown, on_disconnecting,
    ATS.on_disconnecting, PTS.on_disconnecting, conn_stop_incoming_communication_thread,
    get_channel_id, conn_push.
  generalize (int_wrap (tv_conn_type tv)). intros ct.
  destruct Hst as [-> | ->].
  - destruct cn; [discriminate Hinv|].
    destruct fut as [|b|]; [|discriminate Hinv|];
      destruct hook; try discriminate Hinv; destruct ndebug; cbv; done.
  - destruct cn as [[started running]|]; [|discriminate Hinv].
    destruct fut as [|b|]; [discriminate Hinv| |discriminate Hinv].
    destruct (tv_kind tv), hook; try discriminate Hinv; destruct b, ndebug; cbv; done.
Qed.

(** A loop that calls a member function on each handler in turn: when the
    call on a handler that satisfies [P] runs to completion and makes of [h]
    a handler [h'] for the same node with [R h h'], the loop runs to
    completion and relates every handler to what it was. *)
Lemma handlers_loop (P : connection_handler -> Prop)
    (R : connection_handler -> connection_handler -> Prop)
    (body : nat -> unit -> M tran_server (unit + Empty_set)) ts tv :
  (forall k ts' h,
      view ts' = tv -> m_page_server_conn_vec ts' !! k = Some h -> P h ->
      wp (body k tt)
         (fun r ts'' =>
            exists h', R h h' /\ m_node h' = m_node h /\
                       ts'' = set_m_page_server_conn_vec
                                (<[k:=h']> (m_page_server_conn_vec ts')) ts')
         (fun _ => False) ts') ->
  view ts = tv ->
  Forall P (m_page_server_conn_vec ts) ->
  wp (for_each_index (List.length (m_page_server_conn_vec ts)) 0 body tt)
     (fun _ ts' =>
        view ts' = tv /\
        m_main_conn ts' = m_main_conn ts /\
        List.length (m_page_server_conn_vec ts') = List.length (m_page_server_conn_vec ts) /\
        forall j h, m_page_server_conn_vec ts !! j = Some h ->
          exists h', m_page_server_conn_vec ts' !! j = Some h' /\ R h h')
     (fun _ => False) ts.
Proof.
  intros Hbody Hview Hall.
  set (vec := m_page_server_conn_vec ts) in *.
  set (I := fun (k : nat) (_ : unit) (ts' : tran_server) =>
              view ts' = tv /\
              m_main_conn ts' = m_main_conn ts /\
              List.length (m_page_server_conn_vec ts') = List.length vec /\
              (forall j, (k <= j)%nat -> m_page_server_conn_vec ts' !! j = vec !! j) /\
              (forall j h, (j < k)%nat -> vec !! j = Some h ->
                 exists h', m_page_server_conn_vec ts' !! j = Some h' /\ R h h')).
  eapply wp_mono;
    [apply (for_each_index_wp I (fun (_ : Empty_set) _ => False) (fun _ => False))| |done].
  - unfold I. split_and!; try done. intros; lia.
  - intros k [] ts' Hk (Hv & Hmain & Hlen & Hsuffix & Hprefix).
    destruct (lookup_lt_is_Some_2 vec k) as [h Hh]; [lia|].
    assert (Hh' : m_page_server_conn_vec ts' !! k = Some h) by (by rewrite Hsuffix).
    rewrite Forall_forall in Hall.
    eapply wp_mono;
      [apply (Hbody k ts' h Hv Hh' (Hall h (list_elem_of_lookup_2 _ _ _ Hh)))| |done].
    intros [[]|[]] ts'' (h' & HR & Hnode & ->). unfold I. split_and!.
    + by rewrite (view_insert ts' k h h' Hh').
    + exact Hmain.
    + cbn. by rewrite length_insert.
    + intros j Hj. cbn. rewrite list_lookup_insert_ne by lia. apply Hsuffix. lia.
    + intros j h0 Hj Hj0. cbn. destruct (decide (j = k)) as [->|Hne].
      * rewrite list_lookup_insert_eq by (by eapply lookup_lt_Some).
        exists h'. split; [done|]. congruence.
      * rewrite list_lookup_insert_ne by done. apply Hprefix; [lia|done].
  - intros [[]|[]] ts' (Hv & Hmain & Hlen & Hsuffix & Hprefix).
    split_and!; try done. intros j h Hj. apply Hprefix; [|done].
    rewrite Nat.add_0_l. by eapply lookup_lt_Some.
Qed.

Lemma disconnect_async_result_wf tv b h :
  handler_wf tv h = true ->
  handler_wf tv (if bool_decide (m_state h = IDLE) || bool_decide (m_state h = DISCONNECTING)
                 then h else spawn_future b (set_m_state DISCONNECTING h)) = true /\
  (m_state (if bool_decide (m_state h = IDLE) || bool_decide (m_state h = DISCONNECTING)
            then h else spawn_future b (set_m_state DISCONNECTING h)) = IDLE \/
   m_state (if bool_decide (m_state h = IDLE) || bool_decide (m_state h = DISCONNECTING)
            then h else spawn_future b (set_m_state DISCONNECTING h)) = DISCONNECTING).
Proof.
  unfold handler_wf, handler_inv.
  destruct h as [n st cn fut saved hook ws sp pu]. cbn [m_state].
  destruct (tv_kind tv), st, cn, fut, hook; cbv; auto.
Qed.

Lemma disconnect_all_handlers_effect ndebug ts :
  Forall (fun h => handler_wf (view ts) h = true) (m_page_server_conn_vec ts) ->
  wp (TranServer.disconnect_all_handlers ndebug)
     (fun _ ts' =>
        m_main_conn ts' = m_main_conn ts /\
        List.length (m_page_server_conn_vec ts') = List.length (m_page_server_conn_vec ts) /\
        forall j h, m_page_server_conn_vec ts !! j = Some h ->
          exists h', m_page_server_conn_vec ts' !! j = Some h' /\
                     disconnected (view ts) h h')
     (fun _ => False) ts.
Proof.
  intros Hall. unfold TranServer.disconnect_all_handlers.
  set (tv := view ts) in *.
  set (R1 := fun h h1 : connection_handler =>
               h1 = if bool_decide (m_state h = IDLE) || bool_decide (m_state h = DISCONNECTING)
                    then h else spawn_future true (set_m_state DISCONNECTING h)).
  set (R2 := fun h1 h2 : connection_handler =>
               m_node h2 = m_node h1 /\ m_saved_lsa h2 = m_saved_lsa h1 /\
               m_state h2 = IDLE /\ m_conn h2 = None /\
               m_disconn_future h2 = future_invalid /\
               m_prior_sender_sink_hook_func h2 = false /\
               g_pushed h2
               = match m_disconn_future h1 with
                 | future_pending true =>
                     Request SEND_DISCONNECT_MSG (payload_int (int_wrap (tv_conn_type tv)))
                     :: g_pushed h1
                 | _ => g_pushed h1
                 end).
  set (P2 := fun h1 : connection_handler =>
               handler_wf tv h1 = true /\ (m_state h1 = IDLE \/ m_state h1 = DISCONNECTING)).
  apply wp_bind, wp_gets. apply wp_bind.
  eapply wp_mono;
    [apply (handlers_loop (fun h => handler_wf tv h = true) R1 _ ts tv); [|done|exact Hall]
    | |done].
  { intros k ts' h Hv Hk Hwf. apply wp_bind. eapply wp_at_handler; [exact Hk|].
    unfold wp. rewrite (disconnect_async_total ndebug tv true h Hwf). cbn beta iota.
    eexists. split_and!; [reflexivity| |reflexivity].
    by destruct (bool_decide _ || bool_decide _). }
  intros _ ts1 (Hv1 & Hmain1 & Hlen1 & Hrel1). cbn beta.
  apply wp_bind, wp_gets. apply wp_bind.
  assert (Hall1 : Forall P2 (m_page_server_conn_vec ts1)).
  { apply Forall_lookup. intros j h1 Hj1.
    assert (Hjl : (j < List.length (m_page_server_conn_vec ts))%nat).
    { rewrite <- Hlen1. by eapply lookup_lt_Some. }
    destruct (lookup_lt_is_Some_2 _ _ Hjl) as [h Hh].
    destruct (Hrel1 j h Hh) as (h1' & Hj1' & HR1). rewrite Hj1 in Hj1'. injection Hj1' as <-.
    rewrite Forall_forall in Hall.
    pose proof (Hall h (list_elem_of_lookup_2 _ _ _ Hh)) as Hwf.
    unfold R1 in HR1. unfold P2. subst h1. by apply disconnect_async_result_wf. }
  eapply wp_mono; [apply (handlers_loop P2 R2 _ ts1 tv); [|done|exact Hall1]| |done].
  { intros k ts' h1 Hv Hk [Hwf Hst]. apply wp_bind, wp_gets. rewrite Hv.
    apply wp_bind. eapply wp_at_handler; [exact Hk|].
    eapply wp_mono; [apply (wait_async_disconnection_effect ndebug tv h1 Hwf Hst)| |done].
    intros [] h2 HR2. cbn beta. apply wp_ret. exists h2. split_and!; [exact HR2| |done].
    by destruct HR2. }
  intros _ ts2 (Hv2 & Hmain2 & Hlen2 & Hrel2). cbn beta. apply wp_ret.
  split_and!; [congruence|congruence|].
  intros j h Hh. destruct (Hrel1 j h Hh) as (h1 & Hj1 & HR1).
  destruct (Hrel2 j h1 Hj1) as (h2 & Hj2 & HR2).
  exists h2. split; [exact Hj2|].
  unfold R1 in HR1. unfold R2 in HR2. unfold disconnected, sends_disconnect_msg.
  rewrite Forall_forall in Hall.
  pose proof (Hall h (list_elem_of_lookup_2 _ _ _ Hh)) as Hwf.
  destruct HR2 as (Hn & Hs & Hst & Hc & Hf & Hhook & Hp). subst h1.
  destruct h as [n st cn fut saved hook ws sp pu].
  unfold handler_wf, handler_inv in Hwf. cbn in *.
  destruct st; cbn in *; split_and!; try done.
  - destruct fut; try done. by rewrite andb_false_r in Hwf.
  - destruct fut as [|b|]; try done.
Qed.

(** X13. [disconnect_all_page_servers], on handlers that satisfy their
    invariant, runs to completion in either build. It terminates the
    connector, destroying its daemon if it was running. Every handler ends
    idle, without a connection, with no teardown job outstanding and
    unregistered from the prior sender, and those that were connected or
    connecting have been sent [SEND_DISCONNECT_MSG] as their last request.
    The vector of handlers keeps its nodes, and the main connection is left
    pointing where it did. *)
Theorem disconnect_all_page_servers_effect (ndebug : bool) (s : server) :
  Forall (fun h => handler_wf (view (srv_ts s)) h = true)
         (m_page_server_conn_vec (srv_ts s)) ->
  exists s',
    disconnect_all_page_servers ndebug s = Ok tt s' /\
    PsConnector.m_terminate (m_ps_connector s') = true /\
    PsConnector.g_destroyed (m_ps_connector s')
    = (if PsConnector.m_terminate (m_ps_connector s)
       then PsConnector.g_destroyed (m_ps_connector s)
       else S (PsConnector.g_destroyed (m_ps_connector s))) /\
    m_main_conn (srv_ts s') = m_main_conn (srv_ts s) /\
    List.length (m_page_server_conn_vec (srv_ts s'))
    = List.length (m_page_server_conn_vec (srv_ts s)) /\
    forall j h, m_page_server_conn_vec (srv_ts s) !! j = Some h ->
      exists h', m_page_server_conn_vec (srv_ts s') !! j = Some h' /\
                 disconnected (view (srv_ts s)) h h'.
Proof.
  intros Hall.
  destruct (wp_no_fault _ _ _ (disconnect_all_handlers_effect ndebug (srv_ts s) Hall))
    as ([] & ts' & Hrun & Hmain & Hlen & Hrel).
  destruct s as [ts [term created destroyed]]. cbn [srv_ts m_ps_connector] in *.
  unfold disconnect_all_page_servers.
  assert (Hterm : zoom m_ps_connector (fun c s => Server (srv_ts s) c) PsConnector.terminate
                    (Server ts (PsConnector.Make term created destroyed))
                  = Ok tt (Server ts (PsConnector.Make true created
                                        (if term then destroyed else S destroyed)))).
  { by destruct term. }
  rewrite (bind_Ok _ _ _ _ _ Hterm). unfold zoom. cbn [srv_ts m_ps_connector].
  rewrite Hrun. eexists. split; [reflexivity|]. cbn. split_and!; try done.
Qed.

Lemma disconnect_all_page_servers_effect_witness :
  exists s',
    disconnect_all_page_servers false
      (Server (example_server_in [CONNECTED; IDLE; CONNECTING] (Some 0%nat))
              (PsConnector.Make false 1 0)) = Ok tt s' /\
    PsConnector.m_terminate (m_ps_connector s') = true /\
    PsConnector.g_destroyed (m_ps_connector s')
    = (if false then 0%nat else 1%nat) /\
    m_main_conn (srv_ts s') = Some 0%nat /\
    List.length (m_page_server_conn_vec (srv_ts s')) = 3%nat /\
    forall j h,
      m_page_server_conn_vec (example_server_in [CONNECTED; IDLE; CONNECTING] (Some 0%nat)) !! j
      = Some h ->
      exists h', m_page_server_conn_vec (srv_ts s') !! j = Some h' /\
                 disconnected (view (example_server_in [CONNECTED; IDLE; CONNECTING]
                                       (Some 0%nat))) h h'.
Proof.
  apply (disconnect_all_page_servers_effect false
           (Server (example_server_in [CONNECTED; IDLE; CONNECTING] (Some 0%nat))
                   (PsConnector.Make false 1 0))).
  repeat constructor.
Defined.

(** ** Waiting for the page servers to flush *)

Lemma grows_refl vec : grows vec vec.
Proof. apply Forall2_same_length_lookup. split; [done|]. intros i h h' H1 H2 Hc.
  rewrite H1 in H2. injection H2 as <-. done. Qed.

Lemma grows_trans vec1 vec2 vec3 : grows vec1 vec2 -> grows vec2 vec3 -> grows vec1 vec3.
Proof.
  unfold grows. intros H12 H23.
  revert vec3 H23. induction H12 as [|h1 h2 vec1 vec2 Hh _ IH]; intros vec3 H23.
  - by inversion H23.
  - inversion H23 as [|? h3 ? vec3' Hh' H23']; subst. constructor; [|by apply IH].
    intros Hc. destruct (Hh Hc) as [Hc2 Hle]. destruct (Hh' Hc2) as [Hc3 Hle'].
    split; [done|by etrans].
Qed.

Lemma grows_insert vec i h h' :
  vec !! i = Some h ->
  (is_connected h = true -> is_connected h' = true /\ lsa_le (get_saved_lsa h) (get_saved_lsa h')) ->
  grows vec (<[i:=h']> vec).
Proof.
  intros Hi Hh. apply Forall2_same_length_lookup. split; [by rewrite length_insert|].
  intros j x y Hx Hy. destruct (decide (j = i)) as [->|Hne].
  - rewrite list_lookup_insert_eq in Hy by (by eapply lookup_lt_Some).
    injection Hy as <-. rewrite Hi in Hx. injection Hx as <-. exact Hh.
  - rewrite list_lookup_insert_ne in Hy by done. rewrite Hx in Hy. injection Hy as <-.
    intros Hc. done.
Qed.

Lemma agreeing_antitone l1 l2 vec :
  lsa_le l1 l2 -> (agreeing l2 vec <= agreeing l1 vec)%nat.
Proof.
  intros Hle. unfold agreeing. induction vec as [|h vec IH]; [done|].
  rewrite !filter_cons. destruct (is_connected h); cbn [andb].
  - destruct (lsa_geb (get_saved_lsa h) l2) eqn:H2.
    + assert (H1 : lsa_geb (get_saved_lsa h) l1 = true).
      { apply lsa_geb_true. apply lsa_geb_true in H2. by etrans. }
      rewrite H1, !decide_True by exact I. cbn [List.length]. lia.
    + rewrite (decide_False (P := Is_true false)) by exact id.
      destruct (decide _); cbn [List.length]; lia.
  - rewrite !(decide_False (P := Is_true false)) by exact id. exact IH.
Qed.

Lemma quorum_saved_grows l vec vec' :
  grows vec vec' -> quorum_saved l vec -> quorum_saved l vec'.
Proof.
  unfold quorum_saved. intros Hg Hq. pose proof (agreeing_grows l _ _ Hg).
  rewrite <- (Forall2_length _ _ _ Hg). lia.
Qed.

Lemma quorum_saved_antitone l1 l2 vec :
  lsa_le l1 l2 -> quorum_saved l2 vec -> quorum_saved l1 vec.
Proof.
  unfold quorum_saved. intros Hle Hq. pose proof (agreeing_antitone l1 l2 vec Hle). lia.
Qed.

Lemma flush_inv_grows vec0 flushed0 w vec' :
  flush_inv vec0 flushed0 w ->
  grows (m_page_server_conn_vec (fw_ts w)) vec' ->
  flush_inv vec0 flushed0
    (FlushWorld (set_m_page_server_conn_vec vec' (fw_ts w)) (fw_log w) (fw_inbound w)).
Proof.
  intros [Hg Hf] Hg'. split; cbn.
  - by eapply grows_trans.
  - destruct Hf as [?|Hq]; [by left|right]. by eapply quorum_saved_grows.
Qed.

Lemma deliver_saved_lsa_inv ndebug i saved_lsa vec0 flushed0 w :
  flush_inv vec0 flushed0 w ->
  wp (deliver_saved_lsa ndebug i saved_lsa)
     (fun _ w' => flush_inv vec0 flushed0 w') (fun _ => True) w.
Proof.
  intros Hinv. unfold wp, deliver_saved_lsa.
  destruct (m_page_server_conn_vec (fw_ts w) !! i) as [h|] eqn:Hi; [|exact Hinv].
  rewrite receive_saved_lsa_unfold.
  destruct (ndebug || _); [|done].
  destruct (lsa_gtb saved_lsa (m_saved_lsa h)) eqn:Hgt; cbn [fst snd].
  - apply (flush_inv_grows vec0 flushed0
             (FlushWorld (fw_ts w)
                (LogGlobal false (m_ps_consensus_flushed_lsa (fw_log w))
                           (S (g_notified (fw_log w)))) (fw_inbound w))).
    + exact Hinv.
    + cbn. apply grows_insert with h; [done|]. intros Hc. split; [exact Hc|].
      apply lsa_gtb_true in Hgt as [Hle _]. exact Hle.
  - apply (flush_inv_grows vec0 flushed0 w); [exact Hinv|].
    rewrite list_insert_id by done. apply grows_refl.
Qed.

Lemma inbound_inv ndebug vec0 flushed0 w :
  flush_inv vec0 flushed0 w ->
  wp (inbound ndebug) (fun _ w' => flush_inv vec0 flushed0 w') (fun _ => True) w.
Proof.
  intros Hinv. unfold inbound. apply wp_bind, wp_gets.
  destruct (fw_inbound w) as [|[[i l]|] rest]; [by apply wp_ret| |].
  - apply wp_bind, wp_modify. by apply deliver_saved_lsa_inv.
  - apply wp_bind, wp_modify. by apply wp_ret.
Qed.

(** Whenever [compute_consensus_lsa] returns, the server is as before and
    what is returned is [NULL_LSA] or an LSA that a quorum has saved. *)
Lemma compute_consensus_lsa_quorum_saved ndebug er_log ts c ts' :
  Z.of_nat (List.length (m_page_server_conn_vec ts)) <= INT_MAX ->
  ActiveTranServer.compute_consensus_lsa ndebug er_log ts = Ok c ts' ->
  ts' = ts /\ (c = NULL_LSA \/ quorum_saved c (m_page_server_conn_vec ts)).
Proof.
  intros Hmax Hrun.
  apply compute_consensus_lsa_returns in Hrun as [-> Hrun]; [|exact Hmax].
  split; [reflexivity|].
  destruct (le_lt_dec (List.length (m_page_server_conn_vec ts) / 2 + 1)
              (List.length (connected_saved_lsa (m_page_server_conn_vec ts)))) as [Hge|Hlt].
  - destruct (compute_consensus_lsa_agreed ndebug false ts Hmax (or_introl eq_refl) Hge)
      as (c' & Hc & _ & Hq & _).
    rewrite Hrun in Hc. injection Hc as <-. by right.
  - rewrite (compute_consensus_lsa_fits ndebug false ts Hmax (or_introl eq_refl)) in Hrun.
    destruct (Nat.leb_spec (List.length (m_page_server_conn_vec ts) / 2 + 1)
                (List.length (connected_saved_lsa (m_page_server_conn_vec ts)))); [lia|].
    injection Hrun as <-. by left.
Qed.

Lemma iterate_inv {St A} (J : St -> Prop) (Q : A -> St -> Prop) (body : M St (control A)) :
  (forall s, J s ->
     wp body (fun c s' => match c with Continue => J s' | Break a => Q a s' end)
        (fun _ => True) s) ->
  forall fuel s a s', J s -> iterate fuel body s = Some (Ok a s') -> Q a s'.
Proof.
  intros Hbody. induction fuel as [|fuel IH]; intros s a s' HJ; [discriminate|].
  cbn [iterate]. specialize (Hbody s HJ). unfold wp in Hbody.
  destruct (body s) as [[|a0] s1|]; [|by intros [= <- <-]|discriminate].
  by apply IH.
Qed.

Lemma wait_for_ps_flushed_lsa_body_inv ndebug er_log flush_lsa vec0 flushed0 w :
  Z.of_nat (List.length vec0) <= INT_MAX ->
  flush_inv vec0 flushed0 w ->
  wp (wait_for_ps_flushed_lsa_body ndebug er_log flush_lsa)
     (fun c w' =>
        flush_inv vec0 flushed0 w' /\
        match c with
        | Continue => True
        | Break _ => lsa_ltb (m_ps_consensus_flushed_lsa (fw_log w')) flush_lsa = false
        end)
     (fun _ => True) w.
Proof.
  intros Hmax Hinv. unfold wait_for_ps_flushed_lsa_body.
  apply wp_bind. eapply wp_mono; [by apply inbound_inv| |done].
  intros [] w1 Hinv1. cbn beta. apply wp_bind, wp_gets.
  destruct (lsa_ltb _ flush_lsa) eqn:Hlt; [|by apply wp_ret].
  apply wp_bind. eapply wp_mono; [by apply inbound_inv| |done].
  intros [] w2 Hinv2. cbn beta. apply wp_bind, wp_gets. apply wp_bind, wp_modify.
  set (w3 := set_fw_log _ w2).
  assert (Hinv3 : flush_inv vec0 flushed0 w3) by exact Hinv2.
  destruct (m_ps_lsa_up_to_date (fw_log w2)); cbn [negb].
  - apply wp_bind. eapply wp_mono; [by apply inbound_inv| |done].
    intros [] w4 Hinv4. by apply wp_ret.
  - apply wp_bind. eapply wp_mono; [by apply inbound_inv| |done].
    intros [] w4 Hinv4. cbn beta.
    apply wp_bind. unfold wp at 1, zoom.
    destruct (ActiveTranServer.compute_consensus_lsa ndebug er_log (fw_ts w4))
      as [c ts'|f ts'] eqn:Hc; [|done].
    apply compute_consensus_lsa_quorum_saved in Hc as [-> Hq].
    2: { destruct Hinv4 as [Hg _]. by rewrite <- (Forall2_length _ _ _ Hg). }
    replace (set_fw_ts (fw_ts w4) w4) with w4 by (by destruct w4).
    destruct (bool_decide (c = NULL_LSA)) eqn:Hnull; [by apply wp_ret|].
    apply bool_decide_eq_false in Hnull. destruct Hq as [?|Hq]; [done|].
    apply wp_bind, wp_gets. apply wp_bind, wp_assert; [|done]. intros _.
    apply wp_bind, wp_modify. apply wp_ret. split; [|done].
    destruct Hinv4 as [Hg _]. split; [exact Hg|]. right. exact Hq.
Qed.

(** X14. When [wait_for_ps_flushed_lsa (flush_lsa)] returns, at least a
    quorum of the connected page servers have saved the log up to
    [flush_lsa], and [m_ps_consensus_flushed_lsa] is at least [flush_lsa]:
    this holds whatever [SEND_SAVED_LSA] messages arrive in the meantime, in
    either build and with or without the logging of the quorum, as long as
    the handlers stay connected, provided the flushed LSA the waiter finds is
    below [flush_lsa] or was itself saved by a quorum. *)
Theorem wait_for_ps_flushed_lsa_quorum (fuel : nat) (ndebug er_log_quorum_consensus : bool)
    (flush_lsa : log_lsa) (w w' : flush_world) :
  Z.of_nat (List.length (m_page_server_conn_vec (fw_ts w))) <= INT_MAX ->
  lsa_ltb (m_ps_consensus_flushed_lsa (fw_log w)) flush_lsa = true \/
    quorum_saved (m_ps_consensus_flushed_lsa (fw_log w)) (m_page_server_conn_vec (fw_ts w)) ->
  wait_for_ps_flushed_lsa fuel ndebug er_log_quorum_consensus flush_lsa w
  = Some (Ok tt w') ->
  quorum_saved flush_lsa (m_page_server_conn_vec (fw_ts w')) /\
  lsa_le flush_lsa (m_ps_consensus_flushed_lsa (fw_log w')) /\
  grows (m_page_server_conn_vec (fw_ts w)) (m_page_server_conn_vec (fw_ts w')).
Proof.
  intros Hmax Hinit Hrun.
  set (vec0 := m_page_server_conn_vec (fw_ts w)) in *.
  set (flushed0 := m_ps_consensus_flushed_lsa (fw_log w)) in *.
  assert (Hinv0 : flush_inv vec0 flushed0 w) by (split; [apply grows_refl|by left]).
  pose proof (iterate_inv (flush_inv vec0 flushed0)
                (fun _ w' => flush_inv vec0 flushed0 w' /\
                             lsa_ltb (m_ps_consensus_flushed_lsa (fw_log w')) flush_lsa = false)
                (wait_for_ps_flushed_lsa_body ndebug er_log_quorum_consensus flush_lsa))
    as Hiter.
  destruct (Hiter (fun s Hs => ltac:(
              eapply wp_mono;
                [apply (wait_for_ps_flushed_lsa_body_inv ndebug er_log_quorum_consensus
                          flush_lsa vec0 flushed0 s Hmax Hs)
                | intros [|[]] s' [? ?]; done
                | done])) fuel w tt w' Hinv0 Hrun) as [[Hg Hf] Hge].
  assert (Hle : lsa_le flush_lsa (m_ps_consensus_flushed_lsa (fw_log w'))).
  { unfold lsa_le, lsa_leb, lsa_gtb. by rewrite Hge. }
  split_and!; [|exact Hle|exact Hg].
  apply (quorum_saved_antitone _ _ _ Hle).
  destruct Hf as [Heq|Hq]; [|exact Hq]. rewrite Heq in *.
  destruct Hinit as [Hlt|Hq0]; [congruence|]. by eapply quorum_saved_grows.
Qed.

Lemma wait_for_ps_flushed_lsa_quorum_witness :
  exists w',
    wait_for_ps_flushed_lsa 3 false true (LSA 9 0)
      (FlushWorld (example_server 3 [4; 10]%Z) new_log_global
                  [None; Some (0%nat, LSA 9 5)]) = Some (Ok tt w') /\
    quorum_saved (LSA 9 0) (m_page_server_conn_vec (fw_ts w')) /\
    lsa_le (LSA 9 0) (m_ps_consensus_flushed_lsa (fw_log w')) /\
    grows (m_page_server_conn_vec (example_server 3 [4; 10]%Z))
          (m_page_server_conn_vec (fw_ts w')).
Proof.
  eexists. split; [vm_compute; reflexivity|].
  eapply (wait_for_ps_flushed_lsa_quorum 3 false true (LSA 9 0)
            (FlushWorld (example_server 3 [4; 10]%Z) new_log_global
                        [None; Some (0%nat, LSA 9 5)])).
  - vm_compute. discriminate.
  - left. reflexivity.
  - vm_compute. reflexivity.
Defined.

Lemma inbound_quiet ndebug w : fw_inbound w = [] -> inbound ndebug w = Ok tt w.
Proof. unfold inbound. rewrite bind_gets. by intros ->. Qed.

(** X15. The waiter that finds the flag [m_ps_lsa_up_to_date] down
    recomputes the consensus LSA itself: when that LSA is not [NULL_LSA] and
    reaches [flush_lsa], [wait_for_ps_flushed_lsa] returns without sleeping,
    with the consensus LSA stored in [m_ps_consensus_flushed_lsa] and the
    flag up (in a build with assertions, provided the LSA stored before is
    not greater). *)
Theorem wait_for_ps_flushed_lsa_recomputes (fuel : nat)
    (ndebug er_log_quorum_consensus : bool)
    (flush_lsa consensus_lsa : log_lsa) (w : flush_world) :
  fw_inbound w = [] ->
  m_ps_lsa_up_to_date (fw_log w) = false ->
  lsa_ltb (m_ps_consensus_flushed_lsa (fw_log w)) flush_lsa = true ->
  ActiveTranServer.compute_consensus_lsa ndebug er_log_quorum_consensus (fw_ts w)
  = Ok consensus_lsa (fw_ts w) ->
  consensus_lsa <> NULL_LSA ->
  lsa_le flush_lsa consensus_lsa ->
  ndebug = true \/ lsa_le (m_ps_consensus_flushed_lsa (fw_log w)) consensus_lsa ->
  wait_for_ps_flushed_lsa (S (S fuel)) ndebug er_log_quorum_consensus flush_lsa w
  = Some (Ok tt (set_fw_log (LogGlobal true consensus_lsa (g_notified (fw_log w))) w)).
Proof.
  intros Hquiet Hflag Hlt Hc Hnull Hreach Hassert.
  unfold wait_for_ps_flushed_lsa.
  destruct w as [ts [u flushed n] l]. cbn [fw_ts fw_log fw_inbound m_ps_consensus_flushed_lsa m_ps_lsa_up_to_date]
    in Hquiet, Hflag, Hlt, Hc, Hassert. subst l u.
  assert (H1 : wait_for_ps_flushed_lsa_body ndebug er_log_quorum_consensus flush_lsa
                 (FlushWorld ts (LogGlobal false flushed n) [])
               = Ok Continue (FlushWorld ts (LogGlobal true consensus_lsa n) [])).
  { unfold wait_for_ps_flushed_lsa_body, inbound, bind, gets, modify, ret, zoom.
    cbn -[ActiveTranServer.compute_consensus_lsa lsa_ltb lsa_leb bool_decide assert].
    rewrite Hlt. cbn -[ActiveTranServer.compute_consensus_lsa lsa_ltb lsa_leb bool_decide assert].
    rewrite Hc. rewrite bool_decide_false by done.
    unfold assert. cbn -[lsa_leb].
    replace (ndebug || lsa_leb flushed consensus_lsa) with true; [reflexivity|].
    destruct Hassert as [-> | Hle]; [done|]. unfold lsa_le in Hle.
    by rewrite Hle, orb_true_r. }
  assert (H2 : wait_for_ps_flushed_lsa_body ndebug er_log_quorum_consensus flush_lsa
                 (FlushWorld ts (LogGlobal true consensus_lsa n) [])
               = Ok (Break tt) (FlushWorld ts (LogGlobal true consensus_lsa n) [])).
  { unfold wait_for_ps_flushed_lsa_body, inbound, bind, gets, modify, ret.
    cbn -[lsa_ltb].
    unfold lsa_le, lsa_leb, lsa_gtb in Hreach. apply negb_true_iff in Hreach.
    by rewrite Hreach. }
  cbn [set_fw_log fw_ts fw_log fw_inbound g_notified].
  rewrite (iterate_Continue _ _ _ _ H1). by apply iterate_Break.
Qed.

Lemma wait_for_ps_flushed_lsa_recomputes_witness :
  wait_for_ps_flushed_lsa 2 false true (LSA 9 0)
    (FlushWorld (example_server 3 [9; 10]%Z) new_log_global [])
  = Some (Ok tt (set_fw_log (LogGlobal true (LSA 9 0) (g_notified new_log_global))
                            (FlushWorld (example_server 3 [9; 10]%Z) new_log_global []))).
Proof.
  apply (wait_for_ps_flushed_lsa_recomputes 0 false true (LSA 9 0) (LSA 9 0)
           (FlushWorld (example_server 3 [9; 10]%Z) new_log_global [])).
  - reflexivity.
  - reflexivity.
  - reflexivity.
  - vm_compute. reflexivity.
  - discriminate.
  - reflexivity.
  - right. reflexivity.
Defined.

(** X16. The waiter that finds the flag [m_ps_lsa_up_to_date] up while the
    flushed LSA is below [flush_lsa] never computes the consensus LSA
    itself: it waits, and as long as no [SEND_SAVED_LSA] message arrives it
    does not return, whatever the handlers have saved. *)
Theorem wait_for_ps_flushed_lsa_sleeps (fuel : nat) (ndebug er_log_quorum_consensus : bool)
    (flush_lsa : log_lsa) (w : flush_world) :
  fw_inbound w = [] ->
  m_ps_lsa_up_to_date (fw_log w) = true ->
  lsa_ltb (m_ps_consensus_flushed_lsa (fw_log w)) flush_lsa = true ->
  wait_for_ps_flushed_lsa fuel ndebug er_log_quorum_consensus flush_lsa w = None.
Proof.
  intros Hquiet Hflag Hlt. unfold wait_for_ps_flushed_lsa.
  destruct w as [ts [u flushed n] l]. cbn [fw_ts fw_log fw_inbound m_ps_consensus_flushed_lsa m_ps_lsa_up_to_date]
    in Hquiet, Hflag, Hlt. subst l u.
  assert (Hbody : wait_for_ps_flushed_lsa_body ndebug er_log_quorum_consensus flush_lsa
                    (FlushWorld ts (LogGlobal true flushed n) [])
                  = Ok Continue (FlushWorld ts (LogGlobal true flushed n) [])).
  { unfold wait_for_ps_flushed_lsa_body, inbound, bind, gets, modify, ret.
    cbn -[lsa_ltb]. by rewrite Hlt. }
  induction fuel as [|fuel IH]; [reflexivity|].
  by rewrite (iterate_Continue _ _ _ _ Hbody).
Qed.

Lemma wait_for_ps_flushed_lsa_sleeps_witness :
  wait_for_ps_flushed_lsa 50 false true (LSA 9 0)
    (FlushWorld (example_server 3 [9; 10]%Z) (LogGlobal true NULL_LSA 0) []) = None.
Proof.
  apply (wait_for_ps_flushed_lsa_sleeps 50 false true (LSA 9 0)
           (FlushWorld (example_server 3 [9; 10]%Z) (LogGlobal true NULL_LSA 0) []));
    reflexivity.
Defined.

(** ** The handler of asynchronous disconnections *)

Lemma disconnect_loop_step_inv {T} (s : AsyncDisconnectHandler.t T) :
  buffer_inv s ->
  buffer_inv (AsyncDisconnectHandler.disconnect_loop_step s) /\
  held (AsyncDisconnectHandler.disconnect_loop_step s) = held s /\
  AsyncDisconnectHandler.m_terminate (AsyncDisconnectHandler.disconnect_loop_step s) = AsyncDisconnectHandler.m_terminate s.
Proof.
  unfold buffer_inv, held, AsyncDisconnectHandler.disconnect_loop_step.
  destruct s as [term queue buffer pc destroyed]. cbn.
  intros [-> | ->].
  - destruct buffer as [|front rest]; cbn; split_and!; auto.
    by rewrite <- app_assoc.
  - destruct pc; cbn; split_and!; auto.
    destruct (negb _ || term); cbn; auto.
    + destruct (negb _ || term); cbn; [by rewrite app_nil_r|done].
    + by destruct (negb _ || term).
Qed.

Lemma join_inv {T} fuel : forall (s s' : AsyncDisconnectHandler.t T),
  AsyncDisconnectHandler.join fuel s = Some s' ->
  buffer_inv s ->
  buffer_inv s' /\ held s' = held s /\ AsyncDisconnectHandler.m_terminate s' = AsyncDisconnectHandler.m_terminate s /\
  AsyncDisconnectHandler.loop s' = AsyncDisconnectHandler.returned.
Proof.
  induction fuel as [|fuel IH]; intros s s'; cbn [AsyncDisconnectHandler.join].
  - destruct (AsyncDisconnectHandler.loop s) eqn:Hpc; try discriminate. by intros [= <-].
  - destruct (AsyncDisconnectHandler.loop s) eqn:Hpc; try (by intros [= <-]).
    all: intros Hj Hinv; destruct (disconnect_loop_step_inv s Hinv) as (Hb & Hh & Ht);
      destruct (IH _ _ Hj Hb) as (Hb' & Hh' & Ht' & Hr); split_and!; congruence.
Qed.

Lemma run_held {T} fuel ndebug (evs : list (AsyncDisconnectHandler.event T)) : forall s o,
  buffer_inv s ->
  AsyncDisconnectHandler.run fuel ndebug evs s = Some o ->
  held (final o) = held s ++ (if AsyncDisconnectHandler.m_terminate s then [] else accepted evs).
Proof.
  induction evs as [|ev evs IH]; intros s o Hinv; cbn [AsyncDisconnectHandler.run accepted].
  - intros [= <-]. cbn. by destruct (AsyncDisconnectHandler.m_terminate s); rewrite app_nil_r.
  - destruct ev as [handler| |].
    + unfold AsyncDisconnectHandler.disconnect. rewrite bind_gets.
      destruct (AsyncDisconnectHandler.m_terminate s) eqn:Hterm; cbn [negb].
      * unfold assert. destruct ndebug; cbn [orb].
        -- intros Hrun. rewrite (IH _ _ Hinv Hrun). by rewrite Hterm.
        -- intros [= <-]. cbn. by rewrite app_nil_r.
      * unfold modify. intros Hrun. apply IH in Hrun; [|exact Hinv].
        rewrite Hrun. cbn. rewrite Hterm.
        unfold held. cbn. by rewrite <- !app_assoc.
    + intros Hrun. destruct (disconnect_loop_step_inv s Hinv) as (Hb & Hh & Ht).
      rewrite (IH _ _ Hb Hrun). by rewrite Hh, Ht.
    + unfold AsyncDisconnectHandler.terminate.
      destruct (AsyncDisconnectHandler.join fuel _) as [s1|] eqn:Hj; [|discriminate].
      apply join_inv in Hj as (Hb & Hh & Ht & _); [|exact Hinv].
      cbn in Ht.
      assert (Hheld : held s1 = held s) by (rewrite Hh; reflexivity).
      unfold assert. destruct (ndebug || _).
      * intros Hrun. rewrite (IH _ _ Hb Hrun). rewrite Ht, app_nil_r, Hheld.
        by destruct (AsyncDisconnectHandler.m_terminate s); rewrite app_nil_r.
      * intros [= <-]. cbn. rewrite Hheld.
        by destruct (AsyncDisconnectHandler.m_terminate s); rewrite app_nil_r.
Qed.

(** X17. Whatever the interleaving of the calls of [disconnect ()], the
    steps of the loop and the calls of [terminate ()], no handler accepted by
    [disconnect ()] is lost or destroyed twice, and the handlers are
    destroyed in the order in which they were given: the handlers destroyed,
    followed by those of the work buffer and those of the queue, are the
    handlers given to [disconnect ()] before termination, in order. *)
Theorem disconnect_queue_fifo {T} (fuel : nat) (ndebug : bool)
    (evs : list (AsyncDisconnectHandler.event T))
    (o : outcome (AsyncDisconnectHandler.t T) unit) :
  AsyncDisconnectHandler.run fuel ndebug evs AsyncDisconnectHandler.new = Some o ->
  AsyncDisconnectHandler.g_destroyed (final o)
  ++ AsyncDisconnectHandler.disconnect_work_buffer (final o)
  ++ AsyncDisconnectHandler.m_disconnect_queue (final o)
  = accepted evs.
Proof.
  intros Hrun. apply run_held in Hrun; [exact Hrun|]. by right.
Qed.

Lemma disconnect_queue_fifo_witness :
  exists o,
    AsyncDisconnectHandler.run 10 false
      [AsyncDisconnectHandler.ev_disconnect 1%nat; AsyncDisconnectHandler.ev_loop_step;
       AsyncDisconnectHandler.ev_loop_step; AsyncDisconnectHandler.ev_disconnect 2%nat;
       AsyncDisconnectHandler.ev_loop_step; AsyncDisconnectHandler.ev_disconnect 3%nat]
      AsyncDisconnectHandler.new = Some o /\
    AsyncDisconnectHandler.g_destroyed (final o)
    ++ AsyncDisconnectHandler.disconnect_work_buffer (final o)
    ++ AsyncDisconnectHandler.m_disconnect_queue (final o)
    = accepted
        [AsyncDisconnectHandler.ev_disconnect 1%nat; AsyncDisconnectHandler.ev_loop_step;
         AsyncDisconnectHandler.ev_loop_step; AsyncDisconnectHandler.ev_disconnect 2%nat;
         AsyncDisconnectHandler.ev_loop_step; AsyncDisconnectHandler.ev_disconnect 3%nat].
Proof.
  eexists. split; [reflexivity|].
  eapply (disconnect_queue_fifo 10 false). reflexivity.
Defined.

Lemma assert_if {St} ndebug cond (s : St) :
  assert ndebug cond s = if ndebug || cond then Ok tt s else Fault assertion_failure s.
Proof. unfold assert. by destruct (ndebug || cond). Qed.

Lemma join_returned {T} fuel (s : AsyncDisconnectHandler.t T) :
  AsyncDisconnectHandler.loop s = AsyncDisconnectHandler.returned ->
  AsyncDisconnectHandler.join fuel s = Some s.
Proof. intros H. destruct fuel; cbn; by rewrite H. Qed.

Lemma join_drain {T} (k : nat) (buffer : list T) : forall queue destroyed,
  AsyncDisconnectHandler.join (List.length buffer + 2 + k) (AsyncDisconnectHandler.Make true queue buffer AsyncDisconnectHandler.at_drain destroyed)
  = Some (AsyncDisconnectHandler.Make true queue [] AsyncDisconnectHandler.returned (destroyed ++ buffer)).
Proof.
  induction buffer as [|front rest IH]; intros queue destroyed.
  - cbn [List.length Nat.add AsyncDisconnectHandler.join AsyncDisconnectHandler.loop
         AsyncDisconnectHandler.disconnect_loop_step
         AsyncDisconnectHandler.disconnect_work_buffer AsyncDisconnectHandler.m_terminate
         AsyncDisconnectHandler.m_disconnect_queue AsyncDisconnectHandler.g_destroyed negb].
    rewrite join_returned by done. by rewrite app_nil_r.
  - cbn [List.length Nat.add AsyncDisconnectHandler.join AsyncDisconnectHandler.loop]. cbn [AsyncDisconnectHandler.disconnect_loop_step AsyncDisconnectHandler.loop
      AsyncDisconnectHandler.disconnect_work_buffer AsyncDisconnectHandler.m_terminate AsyncDisconnectHandler.m_disconnect_queue AsyncDisconnectHandler.g_destroyed].
    rewrite IH. by rewrite <- app_assoc.
Qed.

(** X18. [terminate ()] returns once the thread of the loop has: the
    handlers of the work buffer have all been destroyed, and those of the
    queue too when the thread was in [wait_for]; but when the thread was
    emptying the work buffer or about to test the condition of the [while],
    the handlers queued in the meantime stay in the queue, and
    [assert (m_disconnect_queue.empty ())] holds only if there are none. *)
Theorem terminate_drains {T} (ndebug : bool) (s : AsyncDisconnectHandler.t T) :
  buffer_inv s ->
  exists s',
    AsyncDisconnectHandler.terminate
      (List.length (AsyncDisconnectHandler.disconnect_work_buffer s)
       + List.length (AsyncDisconnectHandler.m_disconnect_queue s) + 4) ndebug s
    = Some (if ndebug
               || bool_decide (List.length (AsyncDisconnectHandler.m_disconnect_queue s') = 0%nat)
            then Ok tt s' else Fault assertion_failure s') /\
    AsyncDisconnectHandler.m_terminate s' = true /\
    AsyncDisconnectHandler.loop s' = AsyncDisconnectHandler.returned /\
    AsyncDisconnectHandler.disconnect_work_buffer s' = [] /\
    AsyncDisconnectHandler.g_destroyed s'
    = AsyncDisconnectHandler.g_destroyed s
      ++ AsyncDisconnectHandler.disconnect_work_buffer s
      ++ match AsyncDisconnectHandler.loop s with
         | AsyncDisconnectHandler.at_wait_for => AsyncDisconnectHandler.m_disconnect_queue s
         | _ => []
         end /\
    AsyncDisconnectHandler.m_disconnect_queue s'
    = match AsyncDisconnectHandler.loop s with
      | AsyncDisconnectHandler.at_wait_for => []
      | _ => AsyncDisconnectHandler.m_disconnect_queue s
      end.
Proof.
  unfold buffer_inv, AsyncDisconnectHandler.terminate.
  destruct s as [term queue buffer pc destroyed].
  cbn [AsyncDisconnectHandler.loop AsyncDisconnectHandler.disconnect_work_buffer AsyncDisconnectHandler.m_disconnect_queue AsyncDisconnectHandler.g_destroyed
       AsyncDisconnectHandler.m_terminate].
  intros [-> | ->].
  - replace (List.length buffer + List.length queue + 4)%nat
      with (List.length buffer + 2 + (List.length queue + 2))%nat by lia.
    rewrite join_drain. eexists. split; [by rewrite assert_if|].
    cbn. by rewrite app_nil_r.
  - destruct pc.
    + replace (List.length (@nil T) + List.length queue + 4)%nat
        with (S (List.length queue + 3)) by (cbn; lia).
      cbn [AsyncDisconnectHandler.join AsyncDisconnectHandler.loop
           AsyncDisconnectHandler.disconnect_loop_step AsyncDisconnectHandler.m_terminate
           AsyncDisconnectHandler.m_disconnect_queue
           AsyncDisconnectHandler.disconnect_work_buffer
           AsyncDisconnectHandler.g_destroyed negb].
      rewrite join_returned by done.
      eexists. split; [by rewrite assert_if|]. cbn. by rewrite app_nil_r.
    + replace (List.length (@nil T) + List.length queue + 4)%nat
        with (S (List.length queue + 2 + 1)) by (cbn; lia).
      cbn [AsyncDisconnectHandler.join AsyncDisconnectHandler.loop
           AsyncDisconnectHandler.disconnect_loop_step AsyncDisconnectHandler.m_terminate
           AsyncDisconnectHandler.m_disconnect_queue
           AsyncDisconnectHandler.disconnect_work_buffer
           AsyncDisconnectHandler.g_destroyed].
      rewrite orb_true_r. rewrite join_drain.
      eexists. split; [by rewrite assert_if|]. cbn. done.
    + replace (List.length (@nil T) + List.length queue + 4)%nat
        with (List.length (@nil T) + 2 + (List.length queue + 2))%nat by (cbn; lia).
      rewrite (join_drain _ []). eexists. split; [by rewrite assert_if|].
      cbn. by rewrite app_nil_r.
    + rewrite join_returned by done.
      eexists. split; [by rewrite assert_if|]. cbn. by rewrite app_nil_r.
Qed.

Lemma terminate_drains_witness :
  exists s',
    AsyncDisconnectHandler.terminate
      (List.length [1%nat] + List.length [2%nat] + 4) false
      (AsyncDisconnectHandler.Make false [2%nat] [1%nat] AsyncDisconnectHandler.at_drain [])
    = Some (if false
               || bool_decide (List.length (AsyncDisconnectHandler.m_disconnect_queue s') = 0%nat)
            then Ok tt s' else Fault assertion_failure s') /\
    AsyncDisconnectHandler.m_terminate s' = true /\
    AsyncDisconnectHandler.loop s' = AsyncDisconnectHandler.returned /\
    AsyncDisconnectHandler.disconnect_work_buffer s' = [] /\
    AsyncDisconnectHandler.g_destroyed s' = [] ++ [1%nat] ++ [] /\
    AsyncDisconnectHandler.m_disconnect_queue s' = [2%nat].
Proof.
  apply (terminate_drains false
           (AsyncDisconnectHandler.Make false [2%nat] [1%nat]
              AsyncDisconnectHandler.at_drain [])).
  by left.
Defined.

(** ** The connector and the main connection *)

Lemma connector_calls_inv cs : forall c c',
  connector_inv c ->
  PsConnector.calls false cs c = Ok tt c' ->
  connector_inv c'.
Proof.
  induction cs as [|[vec_empty created|] cs IH]; intros c c' Hinv; cbn [PsConnector.calls].
  - by intros [= <-].
  - intros Hrun. apply bind_Ok_inv in Hrun as ([] & c1 & Hstart & Hrun).
    apply (IH c1 c'); [|exact Hrun]. clear IH Hrun.
    destruct c as [term cr de]. unfold connector_inv, daemons_alive in *. cbn in Hinv.
    revert Hstart. unfold PsConnector.start, bind, gets, modify, assert, ret, raise.
    cbn. destruct term; cbn; [|discriminate].
    destruct vec_empty; cbn; [discriminate|].
    destruct created; cbn; [|discriminate].
    intros [= <-]. cbn. lia.
  - intros Hrun. apply bind_Ok_inv in Hrun as ([] & c1 & Hterm & Hrun).
    apply (IH c1 c'); [|exact Hrun]. clear IH Hrun.
    destruct c as [term cr de]. unfold connector_inv, daemons_alive in *. cbn in Hinv.
    revert Hterm. unfold PsConnector.terminate, bind, gets, modify, ret.
    cbn. destruct term; cbn; intros [= <-]; cbn; lia.
Qed.

(** X19. In a build with assertions, whatever the sequence of calls of
    [start ()] and [terminate ()] on a connector since its construction, if
    the calls run to completion then the connector has exactly one daemon
    while it is running and none once it is terminated: every daemon that
    [start ()] creates is destroyed, once, by the first [terminate ()] that
    follows, and the other calls of [terminate ()] destroy nothing. *)
Theorem connector_daemon_lifecycle (cs : list PsConnector.call) (c : PsConnector.t) :
  PsConnector.calls false cs PsConnector.new = Ok tt c ->
  daemons_alive c = if PsConnector.m_terminate c then 0 else 1.
Proof.
  intros Hrun. apply (connector_calls_inv cs PsConnector.new c); [reflexivity|exact Hrun].
Qed.

Lemma connector_daemon_lifecycle_witness :
  daemons_alive
    (final (PsConnector.calls false
              [PsConnector.call_terminate; PsConnector.call_start false true;
               PsConnector.call_terminate; PsConnector.call_terminate;
               PsConnector.call_start false true] PsConnector.new))
  = if PsConnector.m_terminate
         (final (PsConnector.calls false
              [PsConnector.call_terminate; PsConnector.call_start false true;
               PsConnector.call_terminate; PsConnector.call_terminate;
               PsConnector.call_start false true] PsConnector.new))
    then 0 else 1.
Proof.
  apply (connector_daemon_lifecycle
           [PsConnector.call_terminate; PsConnector.call_start false true;
            PsConnector.call_terminate; PsConnector.call_terminate;
            PsConnector.call_start false true]).
  reflexivity.
Defined.


